(** * clipboard2markdown: the HTML to Markdown pipeline

    A shallow embedding of [src/main.js], [src/modules/converter.js],
    [src/modules/formatter.js] and [src/modules/clipboard.js].

    The development follows the layout of the sources: [Js] holds the
    fragment of JavaScript the modules rely on (values, strings, exceptions
    and promises), [Dom] the document tree, [Turndown] the rule registry and
    tree walker of the conversion library, and [Converter], [Formatter],
    [Clipboard] and [Main] one module each. *)

From Stdlib Require Import String Ascii List Bool Arith ZArith Lia.
Import ListNotations.
Open Scope string_scope.

(* ================================================================== *)
(** * JavaScript values, strings and completions *)
(* ================================================================== *)

Module Js.

(** A JavaScript string is a Rocq [string], one character per UTF-16 code
    unit; the model covers the code units below 256. *)

Definition code (c : ascii) : nat := nat_of_ascii c.

Definition in_range (lo hi : nat) (c : ascii) : bool :=
  Nat.leb lo (code c) && Nat.leb (code c) hi.

(** WhiteSpace and LineTerminator code units, as [String.prototype.trim]
    strips them: TAB, LF, VT, FF, CR, SP and NBSP. *)
Definition is_whitespace (c : ascii) : bool :=
  in_range 9 13 c || Nat.eqb (code c) 32 || Nat.eqb (code c) 160.

(** [[a-z]] under the [i] flag. *)
Definition is_letter (c : ascii) : bool :=
  in_range 65 90 c || in_range 97 122 c.

Definition is_digit (c : ascii) : bool := in_range 48 57 c.

(** The class [\w]: letters, digits and the underscore. *)
Definition is_word (c : ascii) : bool :=
  is_letter c || is_digit c || Nat.eqb (code c) 95.

Definition nl : string := String (ascii_of_nat 10) "".
Definition dquote : string := String (ascii_of_nat 34) "".

(** [s.trimStart()], [s.trimEnd()] and [s.trim()]. *)
Fixpoint trimStart (s : string) : string :=
  match s with
  | "" => ""
  | String c r => if is_whitespace c then trimStart r else s
  end.

Fixpoint trimEnd (s : string) : string :=
  match s with
  | "" => ""
  | String c r =>
      match trimEnd r with
      | "" => if is_whitespace c then "" else String c ""
      | r' => String c r'
      end
  end.

Definition trim (s : string) : string := trimEnd (trimStart s).

(** [s] consists of white space only (the empty string included). *)
Fixpoint all_whitespace (s : string) : bool :=
  match s with
  | "" => true
  | String c r => is_whitespace c && all_whitespace r
  end.

(** [s.startsWith(p)], returning what follows the prefix. *)
Fixpoint strip_prefix (p s : string) : option string :=
  match p, s with
  | "", _ => Some s
  | String a p', String b s' =>
      if Ascii.eqb a b then strip_prefix p' s' else None
  | String _ _, "" => None
  end.

Definition startsWith (p s : string) : bool :=
  match strip_prefix p s with Some _ => true | None => false end.

(** [s.includes(sub)]. *)
Fixpoint includes (sub s : string) : bool :=
  startsWith sub s ||
  match s with
  | "" => false
  | String _ r => includes sub r
  end.

(** ASCII case mapping, as [toUpperCase] and [toLowerCase] act on tag
    names. *)
Definition upper_char (c : ascii) : ascii :=
  if in_range 97 122 c then ascii_of_nat (code c - 32) else c.

Definition lower_char (c : ascii) : ascii :=
  if in_range 65 90 c then ascii_of_nat (code c + 32) else c.

Fixpoint map_string (f : ascii -> ascii) (s : string) : string :=
  match s with
  | "" => ""
  | String c r => String (f c) (map_string f r)
  end.

Definition toUpperCase : string -> string := map_string upper_char.
Definition toLowerCase : string -> string := map_string lower_char.

(** The values a caller can pass where the sources expect a string.  Of
    an object the sources use the truth value, the [typeof] and the
    [trim] method: [trim] is what calling that method returns when the
    object has one, as a String object ([new String(s)]) does, and
    [None] when it has none, as [{}]. *)
Inductive value : Type :=
| VUndefined
| VNull
| VBool (b : bool)
| VNumber (n : Z)
| VString (s : string)
| VObject (trim : option string).

(** [ToBoolean]. *)
Definition truthy (v : value) : bool :=
  match v with
  | VUndefined | VNull => false
  | VBool b => b
  | VNumber n => negb (Z.eqb n 0)
  | VString s => negb (s =? "")
  | VObject _ => true
  end.

(** [a || b] for a string [a]: [a] itself unless it is empty. *)
Definition or_else (a b : string) : string :=
  if truthy (VString a) then a else b.

Definition typeof (v : value) : string :=
  match v with
  | VUndefined => "undefined"
  | VNull | VObject _ => "object"
  | VBool _ => "boolean"
  | VNumber _ => "number"
  | VString _ => "string"
  end.

(** Thrown values: [new Error(message)] and whatever a collaborator
    throws. *)
Record error : Type := mkError { err_name : string; err_message : string }.

Definition Error (message : string) : error := mkError "Error" message.
Definition TypeError (message : string) : error :=
  mkError "TypeError" message.

(** How a call ends: it returns, or it throws.  For an [async] function
    the two cases are the promise resolved and the promise rejected. *)
Inductive completion (A : Type) : Type :=
| Normal (a : A)
| Throw (e : error).
Arguments Normal {A} a.
Arguments Throw {A} e.

(** Effectful code: the calls made to the outside, in order, and the
    completion. *)
Definition Eff (E A : Type) : Type := (list E * completion A)%type.

Definition ret {E A} (a : A) : Eff E A := ([], Normal a).
Definition throw {E A} (e : error) : Eff E A := ([], Throw e).
Definition emit {E} (ev : E) : Eff E unit := ([ev], Normal tt).
Definition lift {E A} (c : completion A) : Eff E A := ([], c).

Definition bind {E A B} (m : Eff E A) (k : A -> Eff E B) : Eff E B :=
  match m with
  | (t, Normal a) => let (t', r) := k a in ((t ++ t')%list, r)
  | (t, Throw e) => (t, Throw e)
  end.

(** [try { m } catch (e) { h e }]. *)
Definition try_catch {E A} (m : Eff E A) (h : error -> Eff E A) : Eff E A :=
  match m with
  | (t, Throw e) => let (t', r) := h e in ((t ++ t')%list, r)
  | (t, Normal a) => (t, Normal a)
  end.

(** [try { m } finally { f }], for an [f] that does not throw. *)
Definition try_finally {E A} (m : Eff E A) (f : Eff E unit) : Eff E A :=
  let (t, r) := m in ((t ++ fst f)%list, r).

Definition trace {E A} (m : Eff E A) : list E := fst m.
Definition result {E A} (m : Eff E A) : completion A := snd m.

Definition resolves {E A} (m : Eff E A) : Prop :=
  exists a, result m = Normal a.
Definition rejects {E A} (m : Eff E A) : Prop :=
  exists e, result m = Throw e.

End Js.

Declare Scope eff_scope.
Delimit Scope eff_scope with eff.
Notation "x <- m ;; k" := (Js.bind m (fun x => k))
  (at level 61, m at next level, right associativity) : eff_scope.
Notation "m ;;; k" := (Js.bind m (fun _ => k))
  (at level 61, right associativity) : eff_scope.

(* ================================================================== *)
(** * The document tree *)
(* ================================================================== *)

Module Dom.

(** A parsed HTML fragment: text nodes and elements with their attributes
    in source order. *)
#[warnings="-register-all"] Inductive node : Type :=
| Text (data : string)
| Element (tag : string) (attrs : list (string * string))
          (children : list node).

(** [node.nodeName]: the upper-cased tag name of an HTML element. *)
Definition nodeName (n : node) : string :=
  match n with
  | Text _ => "#text"
  | Element tag _ _ => Js.toUpperCase tag
  end.

Definition childNodes (n : node) : list node :=
  match n with
  | Text _ => []
  | Element _ _ cs => cs
  end.

Fixpoint lookup_attr (name : string) (attrs : list (string * string))
  : option string :=
  match attrs with
  | [] => None
  | (k, v) :: rest => if k =? name then Some v else lookup_attr name rest
  end.

(** [node.className]: the value of the [class] attribute, the empty
    string when there is none. *)
Definition className (n : node) : string :=
  match n with
  | Text _ => ""
  | Element _ attrs _ =>
      match lookup_attr "class" attrs with
      | Some v => v
      | None => ""
      end
  end.

(** [node.textContent]: the data of all text descendants, in document
    order. *)
Fixpoint textContent (n : node) : string :=
  match n with
  | Text data => data
  | Element _ _ cs =>
      fold_right (fun c acc => textContent c ++ acc) "" cs
  end.

(** The first element, in document order, among [n] and its descendants
    that satisfies [p]. *)
Fixpoint first_element (p : node -> bool) (n : node) : option node :=
  match n with
  | Text _ => None
  | Element _ _ cs =>
      if p n then Some n
      else
        (fix scan (l : list node) : option node :=
           match l with
           | [] => None
           | c :: rest =>
               match first_element p c with
               | Some hit => Some hit
               | None => scan rest
               end
           end) cs
  end.

Fixpoint first_among (p : node -> bool) (l : list node) : option node :=
  match l with
  | [] => None
  | c :: rest =>
      match first_element p c with
      | Some hit => Some hit
      | None => first_among p rest
      end
  end.

(** A type selector matches HTML elements whatever the case of the tag. *)
Definition has_tag (name : string) (n : node) : bool :=
  match n with
  | Text _ => false
  | Element tag _ _ => Js.toLowerCase tag =? Js.toLowerCase name
  end.

(** [node.querySelector(name)] for a type selector: the first descendant
    element with that tag; the node itself is not a candidate. *)
Definition querySelector (name : string) (n : node) : option node :=
  first_among (has_tag name) (childNodes n).

End Dom.

(* ================================================================== *)
(** * The conversion library: rule registry and tree walker *)
(* ================================================================== *)

Module Turndown.

(** The options object handed to the constructor in
    [createTurndownService]. *)
Record Options : Type := {
  headingStyle : string;
  hr : string;
  bulletListMarker : string;
  codeBlockStyle : string;
  fence : string;
  emDelimiter : string;
  strongDelimiter : string;
  linkStyle : string;
  linkReferenceStyle : string
}.

(** A rule filter is an array of tag names or a predicate.  The predicate
    sees the node and its chain of ancestors, nearest first, so that
    [node.parentNode] is the head of the chain. *)
Inductive Filter : Type :=
| FilterTags (tags : list string)
| FilterFn (f : Dom.node -> list Dom.node -> bool).

Record Rule : Type := {
  filter : Filter;
  replacement : string -> Dom.node -> Options -> string
}.

(** What the library and the browser bring along: the HTML parser, the
    escaping of text nodes, the built-in rules and the fallback rule. *)
Record Library : Type := {
  parseHtml : string -> Dom.node;
  escape : string -> string;
  builtinRules : list (string * Rule);
  defaultRule : Rule
}.

(** The service object: the options, the named rules with the most
    recently registered first, and the filters of removed nodes. *)
Record Service : Type := {
  options : Options;
  rules : list (string * Rule);
  removed : list Filter
}.

(** [node.parentNode.nodeName], for a node with the given ancestors. *)
Definition parentName (ancestors : list Dom.node) : string :=
  match ancestors with
  | [] => "#document"
  | parent :: _ => Dom.nodeName parent
  end.

Definition tagOf (n : Dom.node) : string := Js.toLowerCase (Dom.nodeName n).

Definition mem (x : string) (l : list string) : bool :=
  existsb (String.eqb x) l.

(** Modelled from the spec: the filter test of the rule registry, which is
    part of the library; a tag-name filter is matched exactly, whatever the
    case, a predicate filter is evaluated on the node and its ancestry. *)
Definition matches (f : Filter) (ancestors : list Dom.node) (n : Dom.node)
  : bool :=
  match f with
  | FilterTags tags => mem (tagOf n) tags
  | FilterFn p => p n ancestors
  end.

(** Modelled from the spec: the constructor of the library's service, which
    starts from the built-in rules and removes nothing. *)
Definition new (lib : Library) (opts : Options) : Service :=
  {| options := opts; rules := builtinRules lib; removed := [] |}.

(** Modelled from the spec: [addRule] of the library's registry, which
    inserts or replaces the rule under [name]; the rule registered last is
    checked first. *)
Definition addRule (name : string) (r : Rule) (svc : Service) : Service :=
  {| options := options svc;
     rules := (name, r)
              :: List.filter (fun e => negb (fst e =? name)) (rules svc);
     removed := removed svc |}.

(** Modelled from the spec: [remove] of the library's registry, which
    takes the given tags out of the default handling. *)
Definition remove (tags : list string) (svc : Service) : Service :=
  {| options := options svc;
     rules := rules svc;
     removed := FilterTags tags :: removed svc |}.

(** Modelled from the spec: the rule the library gives to a removed node,
    whose output is dropped silently. *)
Definition removeRule : Rule :=
  {| filter := FilterFn (fun _ _ => false);
     replacement := fun _ _ _ => "" |}.

(** Modelled from the spec: the search of the library's registry through
    the rules in their order of priority. *)
Fixpoint findRule (l : list (string * Rule)) (ancestors : list Dom.node)
  (n : Dom.node) : option Rule :=
  match l with
  | [] => None
  | (_, r) :: rest =>
      if matches (filter r) ancestors n then Some r
      else findRule rest ancestors n
  end.

(** Modelled from the spec: the rule lookup of the library's registry: the
    first registered rule whose filter matches, then the removal of the
    node, then the fallback rule. *)
Definition forNode (lib : Library) (svc : Service)
  (ancestors : list Dom.node) (n : Dom.node) : Rule :=
  match findRule (rules svc) ancestors n with
  | Some r => r
  | None =>
      if existsb (fun f => matches f ancestors n) (removed svc)
      then removeRule
      else defaultRule lib
  end.

Definition is_newline (c : ascii) : bool := Nat.eqb (Js.code c) 10.

Fixpoint trimLeadingNewlines (s : string) : string :=
  match s with
  | "" => ""
  | String c r => if is_newline c then trimLeadingNewlines r else s
  end.

Fixpoint trimTrailingNewlines (s : string) : string :=
  match s with
  | "" => ""
  | String c r =>
      match trimTrailingNewlines r with
      | "" => if is_newline c then "" else String c ""
      | r' => String c r'
      end
  end.

Fixpoint newlines (k : nat) : string :=
  match k with
  | O => ""
  | S k' => Js.nl ++ newlines k'
  end.

(** Modelled from the spec: how the library's walker puts the output of a
    node after the output so far: the line breaks where the two meet are
    merged, the longer run wins and at most one blank line stays. *)
Definition join (output replacement : string) : string :=
  let s1 := trimTrailingNewlines output in
  let s2 := trimLeadingNewlines replacement in
  let nls := Nat.max (String.length output - String.length s1)
                     (String.length replacement - String.length s2) in
  s1 ++ newlines (Nat.min nls 2) ++ s2.

(** Modelled from the spec: the verbatim context of the library's walker;
    a text node is not escaped when an ancestor is a [code] element. *)
Definition isCode (ancestors : list Dom.node) : bool :=
  existsb (fun a => Dom.nodeName a =? "CODE") ancestors.

Section Walker.

Variable lib : Library.
Variable svc : Service.

(** Modelled from the spec: the library's tree walker: the children of a
    node are emitted first and joined, then the rule of the node is looked
    up and its replacement is called with the joined content and the node;
    a text node is escaped, except under [code]. *)
Fixpoint replacementForNode (ancestors : list Dom.node) (n : Dom.node)
  {struct n} : string :=
  match n with
  | Dom.Text data => if isCode ancestors then data else escape lib data
  | Dom.Element _ _ cs =>
      let content :=
        fold_left
          (fun out c => join out (replacementForNode (n :: ancestors) c))
          cs "" in
      replacement (forNode lib svc ancestors n) content n (options svc)
  end.

(** Modelled from the spec: the joined output of a list of siblings that
    stand under the given ancestors, as the library's walker computes
    it. *)
Definition joinChildren (ancestors : list Dom.node)
  (children : list Dom.node) : string :=
  fold_left (fun out c => join out (replacementForNode ancestors c))
    children "".

(** Modelled from the spec: the joined output of the children of [parent],
    as the library's walker computes it for the root. *)
Definition process (ancestors : list Dom.node) (parent : Dom.node) : string :=
  joinChildren (parent :: ancestors) (Dom.childNodes parent).

(** Modelled from the spec: the end of the library's walk, which trims the
    blank lines at the two ends of the document. *)
Definition postProcess (output : string) : string :=
  Js.trimEnd (trimLeadingNewlines output).

(** Modelled from the spec: [turndown(html)] of the library: parse, walk
    the tree from the root, trim. *)
Definition turndown (html : string) : string :=
  postProcess (process [] (parseHtml lib html)).

End Walker.

End Turndown.

(* ================================================================== *)
(** * Calls to the outside *)
(* ================================================================== *)

Module Host.

(** What the modules do to the page, the console, the clipboard and the
    two libraries, as it shows in a trace. *)
Inductive event : Type :=
| ConsoleError (label : string) (e : Js.error)
| TurndownWalk (html : string)
| PrettierFormat (markdown : string)
| ShowToast (message kind : string)
| UpdateStatus (message kind : string)
| SetProcessingState (isProcessing : bool)
| SetMarkdownOutputValue (value : string)
| ClipboardWriteText (text : string)
| CreateTextarea
| SetTextareaValue (text : string)
| AppendChild
| SelectTextarea
| ExecCommand (command : string)
| RemoveChild.

End Host.

(* ================================================================== *)
(** * src/modules/converter.js *)
(* ================================================================== *)

Module Converter.

Import Turndown.

(** The run of [\w] characters at the start of [s]. *)
Fixpoint take_word (s : string) : string :=
  match s with
  | "" => ""
  | String c r => if Js.is_word c then String c (take_word r) else ""
  end.

(** One alternative of the pattern at the start of [s]: the literal [p],
    then [(\w+)], which is greedy and needs one character at least. *)
Definition literal_then_word (p s : string) : option string :=
  match Js.strip_prefix p s with
  | Some r =>
      match take_word r with
      | "" => None
      | w => Some w
      end
  | None => None
  end.

(** [/(?:language-|lang-)(\w+)/] tried at the start of [s]: the first
    alternative, then the second; the result is the capture group. *)
Definition language_at (s : string) : option string :=
  match literal_then_word "language-" s with
  | Some w => Some w
  | None => literal_then_word "lang-" s
  end.

(** [className.match(/(?:language-|lang-)(\w+)/)]: the match at the
    leftmost position where the pattern succeeds; the value is index 1 of
    the match array. *)
Fixpoint language_match (s : string) : option string :=
  match language_at s with
  | Some w => Some w
  | None =>
      match s with
      | "" => None
      | String _ r => language_match r
      end
  end.

Definition extractLanguageFromCode (node : Dom.node) : string :=
  let codeElement :=
    match Dom.querySelector "code" node with
    | Some c => c
    | None => node
    end in
  let className := Js.or_else (Dom.className codeElement) "" in
  match language_match className with
  | Some languageMatch_1 => languageMatch_1
  | None => ""
  end.

(** The rule [preserveCodeBlocks]. *)
Definition preserveCodeBlocks : Rule :=
  {| filter := FilterTags ["pre"];
     replacement := fun content node _ =>
       let codeElement := Dom.querySelector "code" node in
       let codeContent :=
         match codeElement with
         | Some c => Dom.textContent c
         | None => Dom.textContent node
         end in
       let language := extractLanguageFromCode node in
       Js.nl ++ "```" ++ language ++ Js.nl
         ++ Js.trim codeContent ++ Js.nl ++ "```" ++ Js.nl |}.

Definition inlineCode_filter (node : Dom.node) (ancestors : list Dom.node)
  : bool :=
  (Dom.nodeName node =? "CODE") && negb (parentName ancestors =? "PRE").

Definition inlineCode_replacement (content : string) : string :=
  if negb (Js.truthy (Js.VString (Js.trim content))) then ""
  else if Js.includes "`" content then "`` " ++ content ++ " ``"
  else "`" ++ content ++ "`".

(** The rule [inlineCode]. *)
Definition inlineCode : Rule :=
  {| filter := FilterFn inlineCode_filter;
     replacement := fun content _ _ => inlineCode_replacement content |}.

Definition turndownOptions : Options :=
  {| headingStyle := "atx";
     hr := "---";
     bulletListMarker := "-";
     codeBlockStyle := "fenced";
     fence := "```";
     emDelimiter := "_";
     strongDelimiter := "**";
     linkStyle := "inlined";
     linkReferenceStyle := "full" |}.

Definition createTurndownService (lib : Library) : Service :=
  let turndownService := new lib turndownOptions in
  let turndownService :=
    remove ["script"; "style"; "noscript"] turndownService in
  let turndownService :=
    addRule "preserveCodeBlocks" preserveCodeBlocks turndownService in
  let turndownService := addRule "inlineCode" inlineCode turndownService in
  turndownService.

(** The singleton instance. *)
Definition turndownService (lib : Library) : Service :=
  createTurndownService lib.

(** The string behind a value that has passed a [typeof] test. *)
Definition string_of (v : Js.value) : string :=
  match v with
  | Js.VString s => s
  | _ => ""
  end.

(** The value of [turndownService.turndown(html)]. *)
Definition rawMarkdown (lib : Library) (html : string) : string :=
  turndown lib (turndownService lib) html.

(** The error of the input guard. *)
Definition invalid_html : Js.error :=
  Js.Error "Invalid HTML input: expected a non-empty string".

Definition convertHtmlToMarkdown (lib : Library) (html : Js.value)
  : Js.Eff Host.event string :=
  if negb (Js.truthy html) || negb (Js.typeof html =? "string") then
    Js.throw (Js.Error "Invalid HTML input: expected a non-empty string")
  else
    (Js.emit (Host.TurndownWalk (string_of html)) ;;;
     Js.ret (turndown lib (turndownService lib) (string_of html)))%eff.

(** [[\s\S]*>]: any characters, then a closing angle bracket. *)
Fixpoint any_then_gt (s : string) : bool :=
  match s with
  | "" => false
  | String c r => Ascii.eqb c ">" || any_then_gt r
  end.

(** [[a-z][\s\S]*>] under the [i] flag. *)
Definition letter_then_gt (s : string) : bool :=
  match s with
  | "" => false
  | String c r => Js.is_letter c && any_then_gt r
  end.

(** [/<\/?[a-z][\s\S]*>/i] tried at the start of [s]: the slash is taken
    when it is there, and left out on backtracking. *)
Definition htmlTagPattern_at (s : string) : bool :=
  match s with
  | "" => false
  | String c r =>
      Ascii.eqb c "<" &&
      ((match r with
        | "" => false
        | String c' r' => Ascii.eqb c' "/" && letter_then_gt r'
        end)
       || letter_then_gt r)
  end.

(** [htmlTagPattern.test(str)]: the pattern succeeds at some position. *)
Fixpoint htmlTagPattern_test (s : string) : bool :=
  htmlTagPattern_at s ||
  match s with
  | "" => false
  | String _ r => htmlTagPattern_test r
  end.

Definition isValidHtml (str : Js.value) : bool :=
  if negb (Js.truthy str) || negb (Js.typeof str =? "string") then false
  else htmlTagPattern_test (string_of str).

End Converter.

(* ================================================================== *)
(** * src/modules/formatter.js *)
(* ================================================================== *)

Module Formatter.

(** The options Prettier is called with (the plugin list is fixed). *)
Record PrettierOptions : Type := {
  parser : string;
  proseWrap : string;
  tabWidth : nat;
  useTabs : bool;
  printWidth : nat
}.

Definition DEFAULT_PRETTIER_OPTIONS : PrettierOptions :=
  {| parser := "markdown";
     proseWrap := "preserve";
     tabWidth := 2;
     useTabs := false;
     printWidth := 80 |}.

(** The [options] argument: an object that has some of the keys. *)
Record Overrides : Type := {
  set_parser : option string;
  set_proseWrap : option string;
  set_tabWidth : option nat;
  set_useTabs : option bool;
  set_printWidth : option nat
}.

(** The default argument [options = {}]. *)
Definition no_overrides : Overrides :=
  {| set_parser := None; set_proseWrap := None; set_tabWidth := None;
     set_useTabs := None; set_printWidth := None |}.

Definition or_default {A} (o : option A) (d : A) : A :=
  match o with Some a => a | None => d end.

(** [{ ...defaults, ...options }]: a key of [options] wins. *)
Definition spread (defaults : PrettierOptions) (options : Overrides)
  : PrettierOptions :=
  {| parser := or_default (set_parser options) (parser defaults);
     proseWrap := or_default (set_proseWrap options) (proseWrap defaults);
     tabWidth := or_default (set_tabWidth options) (tabWidth defaults);
     useTabs := or_default (set_useTabs options) (useTabs defaults);
     printWidth := or_default (set_printWidth options) (printWidth defaults)
  |}.

(** [prettier.format]: the promise it returns is resolved with the
    formatted text or rejected. *)
Definition Prettier : Type :=
  string -> PrettierOptions -> Js.completion string.

(** The error of the input guard. *)
Definition invalid_markdown : Js.error :=
  Js.Error "Invalid markdown input: expected a non-empty string".

Section WithPrettier.

Variable prettier_format : Prettier.

Definition formatMarkdown (markdown : Js.value) (options : Overrides)
  : Js.Eff Host.event string :=
  if negb (Js.truthy markdown) || negb (Js.typeof markdown =? "string") then
    Js.throw (Js.Error "Invalid markdown input: expected a non-empty string")
  else
    let md := Converter.string_of markdown in
    let mergedOptions := spread DEFAULT_PRETTIER_OPTIONS options in
    Js.try_catch
      (formatted <- (Js.emit (Host.PrettierFormat md) ;;;
                     Js.lift (prettier_format md mergedOptions)) ;;
       Js.ret formatted)%eff
      (fun error =>
         (Js.emit (Host.ConsoleError "Prettier formatting failed:" error) ;;;
          Js.ret md)%eff).

(** [formatMarkdown(await formatMarkdown(markdown))]. *)
Definition formatMarkdown_twice (markdown : Js.value) (options : Overrides)
  : Js.Eff Host.event string :=
  (once <- formatMarkdown markdown options ;;
   formatMarkdown (Js.VString once) options)%eff.

End WithPrettier.

End Formatter.

(* ================================================================== *)
(** * src/modules/clipboard.js *)
(* ================================================================== *)

Module Clipboard.

(** How the browser answers the calls of [copyToClipboard]. *)
Record Browser : Type := {
  writeText : string -> Js.completion unit;
  createElement : Js.completion unit;
  appendChild : Js.completion unit;
  select : Js.completion unit;
  execCommand : string -> Js.completion bool;
  removeChild : Js.completion unit
}.

Section WithBrowser.

Variable browser : Browser.

(** The body of the inner [try]: the hidden textarea and [execCommand]. *)
Definition fallbackCopy (text : string) : Js.Eff Host.event bool :=
  (Js.emit Host.CreateTextarea ;;;
   Js.lift (createElement browser) ;;;
   Js.emit (Host.SetTextareaValue text) ;;;
   Js.emit Host.AppendChild ;;;
   Js.lift (appendChild browser) ;;;
   Js.emit Host.SelectTextarea ;;;
   Js.lift (select browser) ;;;
   Js.emit (Host.ExecCommand "copy") ;;;
   _ <- Js.lift (execCommand browser "copy") ;;
   Js.emit Host.RemoveChild ;;;
   Js.lift (removeChild browser) ;;;
   Js.ret true)%eff.

Definition copyToClipboard (text : string) : Js.Eff Host.event bool :=
  Js.try_catch
    (Js.emit (Host.ClipboardWriteText text) ;;;
     Js.lift (writeText browser text) ;;;
     Js.ret true)%eff
    (fun error =>
       (Js.emit (Host.ConsoleError "Failed to copy to clipboard:" error) ;;;
        Js.try_catch
          (fallbackCopy text)
          (fun fallbackError =>
             (Js.emit (Host.ConsoleError "Fallback copy failed:"
                                         fallbackError) ;;;
              Js.ret false)%eff))%eff).

End WithBrowser.

End Clipboard.

(* ================================================================== *)
(** * src/main.js *)
(* ================================================================== *)

Module Main.

(** The functions of [ui.js] that the pipeline calls. *)
Definition showToast (message kind : string) : Js.Eff Host.event unit :=
  Js.emit (Host.ShowToast message kind).

Definition updateStatus (message kind : string) : Js.Eff Host.event unit :=
  Js.emit (Host.UpdateStatus message kind).

Definition setMarkdownOutputValue (value : string) : Js.Eff Host.event unit :=
  Js.emit (Host.SetMarkdownOutputValue value).

Definition setProcessingState (isProcessing : bool)
  : Js.Eff Host.event unit :=
  if isProcessing then
    (Js.emit (Host.SetProcessingState true) ;;;
     updateStatus "Processing..." "")%eff
  else Js.emit (Host.SetProcessingState false).

Section Pipeline.

Variable lib : Turndown.Library.
Variable prettier_format : Formatter.Prettier.

Definition processHtmlToMarkdown (html : Js.value)
  : Js.Eff Host.event string :=
  (rawMarkdown <- Converter.convertHtmlToMarkdown lib html ;;
   formattedMarkdown <-
     Formatter.formatMarkdown prettier_format (Js.VString rawMarkdown)
                              Formatter.no_overrides ;;
   Js.ret formattedMarkdown)%eff.

(** [!html.trim()]: a string is trimmed; an object with a [trim] method
    (a String object) answers with what the method returns; calling
    [trim] on any other value, which has none, throws. *)
Definition trims_to_nothing (html : Js.value) : Js.Eff Host.event bool :=
  match html with
  | Js.VString s => Js.ret (negb (Js.truthy (Js.VString (Js.trim s))))
  | Js.VObject (Some trimmed) =>
      Js.ret (negb (Js.truthy (Js.VString trimmed)))
  | _ => Js.throw (Js.TypeError "html.trim is not a function")
  end.

Definition handleConversion (html : Js.value) : Js.Eff Host.event unit :=
  (blank <- (if negb (Js.truthy html) then Js.ret true
             else trims_to_nothing html) ;;
   if blank : bool then showToast "No HTML content to convert" "error"
   else if negb (Converter.isValidHtml html) then
     showToast "Input does not appear to contain valid HTML" "error"
   else
     setProcessingState true ;;;
     Js.try_finally
       (Js.try_catch
          (markdown <- processHtmlToMarkdown html ;;
           setMarkdownOutputValue markdown ;;;
           updateStatus "Converted successfully" "success" ;;;
           showToast "HTML converted to Markdown!" "success")
          (fun error =>
             Js.emit (Host.ConsoleError "Conversion error:" error) ;;;
             updateStatus "Conversion failed" "error" ;;;
             showToast ("Error: " ++ Js.err_message error) "error"))
       (setProcessingState false))%eff.

End Pipeline.

End Main.

(* ================================================================== *)
(** * Sample documents and collaborators *)
(* ================================================================== *)

Module Samples.

Import Turndown.

(** The root under which the library puts the nodes of a fragment. *)
Definition root (children : list Dom.node) : Dom.node :=
  Dom.Element "x-turndown" [("id", "turndown-root")] children.

Definition script_and_paragraph_html : string :=
  "<script>alert(1)</script><p>Hello</p>".

Definition script_only_html : string := "<script>alert(1)</script>".

Definition pre_python_html : string :=
  "<pre><code class=" ++ Js.dquote ++ "language-python" ++ Js.dquote
    ++ ">print(" ++ Js.dquote ++ "hi" ++ Js.dquote ++ ")</code></pre>".

Definition pre_js_html : string :=
  "<pre class=" ++ Js.dquote ++ "language-js" ++ Js.dquote ++ ">x</pre>".

Definition script_node : Dom.node :=
  Dom.Element "script" [] [Dom.Text "alert(1)"].

Definition pre_python_node : Dom.node :=
  Dom.Element "pre" []
    [Dom.Element "code" [("class", "language-python")]
       [Dom.Text ("print(" ++ Js.dquote ++ "hi" ++ Js.dquote ++ ")")]].

Definition pre_js_node : Dom.node :=
  Dom.Element "pre" [("class", "language-js")] [Dom.Text "x"].

(** The trees the browser builds for the sample inputs; an input without
    markup is one text node. *)
Definition sample_parseHtml (html : string) : Dom.node :=
  if html =? script_and_paragraph_html then
    root [script_node; Dom.Element "p" [] [Dom.Text "Hello"]]
  else if html =? script_only_html then root [script_node]
  else if html =? pre_python_html then root [pre_python_node]
  else if html =? pre_js_html then root [pre_js_node]
  else root [Dom.Text html].

(** The paragraph rule of the library: a block between blank lines. *)
Definition paragraph : Rule :=
  {| filter := FilterTags ["p"];
     replacement := fun content _ _ =>
       Js.nl ++ Js.nl ++ content ++ Js.nl ++ Js.nl |}.

Definition keepContent : Rule :=
  {| filter := FilterFn (fun _ _ => true);
     replacement := fun content _ _ => content |}.

(** A library with the paragraph rule alone and an escaping that leaves
    the sample texts as they are. *)
Definition sample_library : Library :=
  {| parseHtml := sample_parseHtml;
     escape := fun text => text;
     builtinRules := [("paragraph", paragraph)];
     defaultRule := keepContent |}.

(** A formatter that rejects every input. *)
Definition failing_prettier : Formatter.Prettier :=
  fun _ _ => Js.Throw (Js.mkError "SyntaxError" "Unexpected token").

(** A formatter with the one behaviour of Prettier that matters below: a
    document without content is printed as the empty string; any other
    document is returned as it is. *)
Definition blank_to_empty_prettier : Formatter.Prettier :=
  fun markdown _ =>
    if Js.all_whitespace markdown then Js.Normal ""
    else Js.Normal markdown.

(** A browser without the Clipboard API in which [execCommand] works. *)
Definition legacy_browser : Clipboard.Browser :=
  {| Clipboard.writeText := fun _ =>
       Js.Throw (Js.TypeError "navigator.clipboard is undefined");
     Clipboard.createElement := Js.Normal tt;
     Clipboard.appendChild := Js.Normal tt;
     Clipboard.select := Js.Normal tt;
     Clipboard.execCommand := fun _ => Js.Normal true;
     Clipboard.removeChild := Js.Normal tt |}.

(** A browser in which neither mechanism works. *)
Definition locked_browser : Clipboard.Browser :=
  {| Clipboard.writeText := fun _ =>
       Js.Throw (Js.mkError "NotAllowedError" "Write permission denied.");
     Clipboard.createElement := Js.Normal tt;
     Clipboard.appendChild := Js.Normal tt;
     Clipboard.select := Js.Normal tt;
     Clipboard.execCommand := fun _ =>
       Js.Throw (Js.mkError "SecurityError" "execCommand is disabled");
     Clipboard.removeChild := Js.Normal tt |}.

(** A browser with a working Clipboard API. *)
Definition modern_browser : Clipboard.Browser :=
  {| Clipboard.writeText := fun _ => Js.Normal tt;
     Clipboard.createElement := Js.Normal tt;
     Clipboard.appendChild := Js.Normal tt;
     Clipboard.select := Js.Normal tt;
     Clipboard.execCommand := fun _ => Js.Normal true;
     Clipboard.removeChild := Js.Normal tt |}.

(** A [code] element in a paragraph, holding one space. *)
Definition blank_code : Dom.node := Dom.Element "code" [] [Dom.Text " "].
Definition in_paragraph : list Dom.node :=
  [Dom.Element "p" [] [blank_code]].

End Samples.

(* ================================================================== *)
(** * Notions used in the statements *)
(* ================================================================== *)

Module Notions.

(** Every character of [s] satisfies [P]. *)
Fixpoint Forall_chars (P : ascii -> Prop) (s : string) : Prop :=
  match s with
  | "" => True
  | String c r => P c /\ Forall_chars P r
  end.

(** The white-space code units, listed. *)
Definition Whitespace (c : ascii) : Prop :=
  In (nat_of_ascii c) [9; 10; 11; 12; 13; 32; 160].

Definition WhitespaceOnly (s : string) : Prop := Forall_chars Whitespace s.

(** [sub] occurs in [s]. *)
Definition Contains (sub s : string) : Prop :=
  exists before after, s = before ++ sub ++ after.

(** The letters [a] to [z] and [A] to [Z]. *)
Definition Letter (c : ascii) : Prop :=
  65 <= nat_of_ascii c <= 90 \/ 97 <= nat_of_ascii c <= 122.

(** The strings in which [/<\/?[a-z][\s\S]*>/i] finds a match: an opening
    angle bracket, a slash or none, a letter, anything, and a closing
    angle bracket. *)
Definition MatchesHtmlTagPattern (s : string) : Prop :=
  exists before slash c middle after,
    s = before ++ "<" ++ slash ++ String c middle ++ ">" ++ after /\
    (slash = "" \/ slash = "/") /\ Letter c.

(** A value that is no string at all, [undefined] included. *)
Definition NotAString (v : Js.value) : Prop := forall s, v <> Js.VString s.

(** The characters of [\w]. *)
Definition Word (c : ascii) : Prop :=
  Letter c \/ 48 <= nat_of_ascii c <= 57 \/ nat_of_ascii c = 95.

(** [s] does not begin with a character that satisfies [P]. *)
Definition NotStartingWith (P : ascii -> Prop) (s : string) : Prop :=
  forall c rest, s = String c rest -> ~ P c.

(** [s] does not end with a character that satisfies [P]. *)
Definition NotEndingWith (P : ascii -> Prop) (s : string) : Prop :=
  forall front c, s = front ++ String c "" -> ~ P c.

(** [t] is [s] without the white space at its two ends. *)
Definition Trimmed (s t : string) : Prop :=
  exists leading trailing,
    s = leading ++ t ++ trailing /\
    WhitespaceOnly leading /\ WhitespaceOnly trailing /\
    NotStartingWith Whitespace t /\ NotEndingWith Whitespace t.

(** A fenced code block: the fence with the info string, the body, the
    fence, each on lines of their own. *)
Definition fencedBlock (fence info body : string) : string :=
  Js.nl ++ fence ++ info ++ Js.nl ++ body ++ Js.nl ++ fence ++ Js.nl.

Definition LanguagePrefix (p : string) : Prop :=
  p = "language-" \/ p = "lang-".

(** [(?:language-|lang-)(\w+)] matches at the start of [s] and captures
    [w]: the longest run of word characters after the prefix. *)
Definition MatchesLanguageAt (s w : string) : Prop :=
  exists p rest,
    LanguagePrefix p /\ s = p ++ w ++ rest /\ w <> "" /\
    Forall_chars Word w /\ NotStartingWith Word rest.

(** The pattern can match at the start of [s]. *)
Definition LanguageStartsAt (s : string) : Prop :=
  exists p c rest, LanguagePrefix p /\ s = p ++ String c rest /\ Word c.

(** [w] is the capture of the leftmost match of the pattern in [cls]. *)
Definition FirstLanguageMatch (cls w : string) : Prop :=
  exists before here,
    cls = before ++ here /\ MatchesLanguageAt here w /\
    forall skipped later,
      before = skipped ++ later -> later <> "" ->
      ~ LanguageStartsAt (later ++ here).

(** The pattern matches nowhere in [cls]. *)
Definition NoLanguageMatch (cls : string) : Prop :=
  forall before here, cls = before ++ here -> ~ LanguageStartsAt here.

(** The info string for a class attribute: the capture of the first match,
    the empty string when there is no match. *)
Definition InfoString (cls info : string) : Prop :=
  FirstLanguageMatch cls info \/ (NoLanguageMatch cls /\ info = "").



End Notions.

(* ================================================================== *)
(** * src/modules/clipboard.js: reading the clipboard *)
(* ================================================================== *)

Module ClipboardSource.

(** [event.clipboardData]: the payloads by format, in the order they were
    put there. *)
Definition DataTransfer : Type := list (string * string).

(** [clipboardData.getData(format)]: the payload, or the empty string for
    a format that has none. *)
Definition getData (format : string) (data : DataTransfer) : string :=
  match Dom.lookup_attr format data with
  | Some payload => payload
  | None => ""
  end.

(** A paste event: the id of the element it is dispatched to, and the
    clipboard data, which can be missing. *)
Record ClipboardEvent : Type := {
  target : string;
  clipboardData : option DataTransfer
}.

Definition getHtmlFromClipboardEvent (event : ClipboardEvent)
  : option string :=
  match clipboardData event with
  | None => None
  | Some data =>
      let htmlContent := getData "text/html" data in
      if Js.truthy (Js.VString htmlContent)
         && Js.truthy (Js.VString (Js.trim htmlContent))
      then Some htmlContent
      else None
  end.

Definition getPlainTextFromClipboardEvent (event : ClipboardEvent)
  : option string :=
  match clipboardData event with
  | None => None
  | Some data => Some (getData "text/plain" data)
  end.

(** A blob and a clipboard item of the asynchronous Clipboard API: each of
    their promises is resolved or rejected. *)
Record Blob : Type := { text : Js.completion string }.

Record ClipboardItem : Type := {
  types : list string;
  getType : string -> Js.completion Blob
}.

(** The calls of [readHtmlFromClipboard], with the position of the item
    they are made on. *)
Inductive event : Type :=
| ClipboardRead
| GetType (index : nat) (format : string)
| BlobText (index : nat)
| ConsoleError (label : string) (e : Js.error).

(** The [for ... of] loop, from the item at position [index] on. *)
Fixpoint scanItems (index : nat) (clipboardItems : list ClipboardItem)
  : Js.Eff event (option string) :=
  match clipboardItems with
  | [] => Js.ret None
  | item :: rest =>
      if existsb (String.eqb "text/html") (types item) then
        (Js.emit (GetType index "text/html") ;;;
         blob <- Js.lift (getType item "text/html") ;;
         Js.emit (BlobText index) ;;;
         html <- Js.lift (text blob) ;;
         Js.ret (Some html))%eff
      else scanItems (S index) rest
  end.

(** [read] is how [navigator.clipboard.read()] ends. *)
Definition readHtmlFromClipboard (read : Js.completion (list ClipboardItem))
  : Js.Eff event (option string) :=
  Js.try_catch
    (Js.emit ClipboardRead ;;;
     clipboardItems <- Js.lift read ;;
     scanItems 0 clipboardItems)%eff
    (fun error =>
       (Js.emit (ConsoleError "Failed to read HTML from clipboard:" error) ;;;
        Js.ret None)%eff).

End ClipboardSource.

(* ================================================================== *)
(** * src/modules/formatter.js: the validity test *)
(* ================================================================== *)

Module FormatterCheck.

(** [prettier.format] called with an options object that has only some of
    the keys. *)
Definition PrettierApi : Type :=
  string -> Formatter.Overrides -> Js.completion string.

(** The object [{ parser: "markdown", plugins: [markdownParser] }]. *)
Definition parserOnly : Formatter.Overrides :=
  {| Formatter.set_parser := Some "markdown";
     Formatter.set_proseWrap := None;
     Formatter.set_tabWidth := None;
     Formatter.set_useTabs := None;
     Formatter.set_printWidth := None |}.

Definition isValidMarkdown (prettier_format : PrettierApi)
  (markdown : Js.value) : Js.Eff Host.event bool :=
  if negb (Js.truthy markdown) || negb (Js.typeof markdown =? "string") then
    Js.ret false
  else
    let md := Converter.string_of markdown in
    Js.try_catch
      (Js.emit (Host.PrettierFormat md) ;;;
       _ <- Js.lift (prettier_format md parserOnly) ;;
       Js.ret true)%eff
      (fun _ => Js.ret false).

End FormatterCheck.

(* ================================================================== *)
(** * src/modules/ui.js *)
(* ================================================================== *)

Module Ui.

(** The two contents of the convert button: the arrow with [Convert], the
    hourglass with [Converting...]. *)
Inductive ButtonContent : Type :=
| ConvertContent
| ConvertingContent.

(** The page as the module sees it, for a document that has the eight
    elements: the properties the module reads and writes, its variable
    [toastTimeout], and the timers of the browser: the pending ones with
    their id and the time they are due, the next id, and the time now.
    The value of a text area is read back as it was written. *)
Record state : Type := mkState {
  htmlInput_value : string;
  markdownOutput_value : string;
  convertBtn_disabled : bool;
  convertBtn_innerHTML : ButtonContent;
  copyBtn_disabled : bool;
  status_textContent : string;
  status_className : string;
  toast_textContent : string;
  toast_className : string;
  toastTimeout : option nat;
  pendingTimers : list (nat * nat);
  nextTimerId : nat;
  clock : nat
}.

Definition with_htmlInput (value : string) (s : state) : state :=
  mkState value (markdownOutput_value s) (convertBtn_disabled s)
    (convertBtn_innerHTML s) (copyBtn_disabled s) (status_textContent s)
    (status_className s) (toast_textContent s) (toast_className s)
    (toastTimeout s) (pendingTimers s) (nextTimerId s) (clock s).

Definition with_markdownOutput (value : string) (s : state) : state :=
  mkState (htmlInput_value s) value (convertBtn_disabled s)
    (convertBtn_innerHTML s) (copyBtn_disabled s) (status_textContent s)
    (status_className s) (toast_textContent s) (toast_className s)
    (toastTimeout s) (pendingTimers s) (nextTimerId s) (clock s).

Definition with_copyBtn (disabled : bool) (s : state) : state :=
  mkState (htmlInput_value s) (markdownOutput_value s)
    (convertBtn_disabled s) (convertBtn_innerHTML s) disabled
    (status_textContent s) (status_className s) (toast_textContent s)
    (toast_className s) (toastTimeout s) (pendingTimers s) (nextTimerId s)
    (clock s).

Definition with_convertBtn (disabled : bool) (content : ButtonContent)
  (s : state) : state :=
  mkState (htmlInput_value s) (markdownOutput_value s) disabled content
    (copyBtn_disabled s) (status_textContent s) (status_className s)
    (toast_textContent s) (toast_className s) (toastTimeout s)
    (pendingTimers s) (nextTimerId s) (clock s).

Definition with_status (textContent className : string) (s : state)
  : state :=
  mkState (htmlInput_value s) (markdownOutput_value s)
    (convertBtn_disabled s) (convertBtn_innerHTML s) (copyBtn_disabled s)
    textContent className (toast_textContent s) (toast_className s)
    (toastTimeout s) (pendingTimers s) (nextTimerId s) (clock s).

Definition with_toast_textContent (textContent : string) (s : state)
  : state :=
  mkState (htmlInput_value s) (markdownOutput_value s)
    (convertBtn_disabled s) (convertBtn_innerHTML s) (copyBtn_disabled s)
    (status_textContent s) (status_className s) textContent
    (toast_className s) (toastTimeout s) (pendingTimers s) (nextTimerId s)
    (clock s).

Definition with_toast_className (className : string) (s : state) : state :=
  mkState (htmlInput_value s) (markdownOutput_value s)
    (convertBtn_disabled s) (convertBtn_innerHTML s) (copyBtn_disabled s)
    (status_textContent s) (status_className s) (toast_textContent s)
    className (toastTimeout s) (pendingTimers s) (nextTimerId s) (clock s).

Definition with_toastTimeout (timeout : option nat) (s : state) : state :=
  mkState (htmlInput_value s) (markdownOutput_value s)
    (convertBtn_disabled s) (convertBtn_innerHTML s) (copyBtn_disabled s)
    (status_textContent s) (status_className s) (toast_textContent s)
    (toast_className s) timeout (pendingTimers s) (nextTimerId s) (clock s).

Definition with_timers (pending : list (nat * nat)) (next now : nat)
  (s : state) : state :=
  mkState (htmlInput_value s) (markdownOutput_value s)
    (convertBtn_disabled s) (convertBtn_innerHTML s) (copyBtn_disabled s)
    (status_textContent s) (status_className s) (toast_textContent s)
    (toast_className s) (toastTimeout s) pending next now.

(** [setTimeout(callback, delay)]: a new pending timer, due [delay] from
    now; the value is its id.  The one callback of the module is the one
    that hides the toast. *)
Definition setTimeout (delay : nat) (s : state) : nat * state :=
  (nextTimerId s,
   with_timers (pendingTimers s ++ [(nextTimerId s, clock s + delay)])%list
     (S (nextTimerId s)) (clock s) s).

(** [clearTimeout(id)]: the timer with this id, if it is pending, is
    dropped. *)
Definition clearTimeout (id : nat) (s : state) : state :=
  with_timers
    (List.filter (fun timer => negb (Nat.eqb (fst timer) id))
       (pendingTimers s))
    (nextTimerId s) (clock s) s.

(** The callback given to [setTimeout] in [showToast]. *)
Definition hideToast (s : state) : state := with_toast_className "toast" s.

(** [`${base} ${type}`] when [type] is not empty, [base] alone
    otherwise. *)
Definition classWithType (base type : string) : string :=
  base ++ (if Js.truthy (Js.VString type) then " " ++ type else "").

(** The two fields are [textarea] elements.  Assigning to [value] keeps
    the string as given; reading [value] gives it with its line breaks
    normalised: a carriage return followed by a line feed, and a carriage
    return alone, are read as one line feed. *)
Fixpoint normalizeNewlines (s : string) : string :=
  match s with
  | "" => ""
  | String c rest =>
      if Nat.eqb (Js.code c) 13 then
        String (ascii_of_nat 10)
          match rest with
          | String c' rest' =>
              if Nat.eqb (Js.code c') 10 then normalizeNewlines rest'
              else normalizeNewlines rest
          | "" => ""
          end
      else String c (normalizeNewlines rest)
  end.

Definition getHtmlInputValue (s : state) : string :=
  normalizeNewlines (htmlInput_value s).

Definition setHtmlInputValue (value : string) (s : state) : state :=
  with_htmlInput value s.

Definition getMarkdownOutputValue (s : state) : string :=
  normalizeNewlines (markdownOutput_value s).

Definition setMarkdownOutputValue (value : string) (s : state) : state :=
  with_copyBtn
    (negb (Js.truthy (Js.VString value)) || (Js.trim value =? ""))
    (with_markdownOutput value s).

Definition updateStatus (message type : string) (s : state) : state :=
  with_status message (classWithType "status" type) s.

Definition clearHtmlInput (s : state) : state := setHtmlInputValue "" s.

Definition clearMarkdownOutput (s : state) : state :=
  updateStatus "" "" (setMarkdownOutputValue "" s).

Definition showToast (message type : string) (duration : nat) (s : state)
  : state :=
  let s :=
    match toastTimeout s with
    | Some id => if negb (Nat.eqb id 0) then clearTimeout id s else s
    | None => s
    end in
  let s := with_toast_textContent message s in
  let s := with_toast_className (classWithType "toast visible" type) s in
  let (id, s) := setTimeout duration s in
  with_toastTimeout (Some id) s.

(** The two assignments to the convert button in [setProcessingState]. *)
Definition setConvertButton (isProcessing : bool) (s : state) : state :=
  if isProcessing then with_convertBtn true ConvertingContent s
  else with_convertBtn false ConvertContent s.

Definition setProcessingState (isProcessing : bool) (s : state) : state :=
  if isProcessing then
    updateStatus "Processing..." "" (setConvertButton true s)
  else setConvertButton false s.

(** Time passes: the timers that are due by then run their callback and
    leave the pending ones. *)
Definition elapse (duration : nat) (s : state) : state :=
  let now := clock s + duration in
  let due :=
    List.filter (fun timer => Nat.leb (snd timer) now) (pendingTimers s) in
  let waiting :=
    List.filter (fun timer => negb (Nat.leb (snd timer) now))
      (pendingTimers s) in
  fold_left (fun st _ => hideToast st) due
    (with_timers waiting (nextTimerId s) now s).

(** The page when the script starts: nothing typed, nothing shown, no
    timer set. *)
Definition initial : state :=
  mkState "" "" false ConvertContent true "" "status" "" "toast" None [] 1 0.

End Ui.

(* ================================================================== *)
(** * src/main.js: the event handlers *)
(* ================================================================== *)

Module Page.

(** The six handlers that [registerEventHandlers] attaches. *)
Inductive Handler : Type :=
| HandleDocumentPaste
| HandleConvertClick
| HandleCopyClick
| HandleClearInputClick
| HandleClearOutputClick
| HandleKeyboardShortcuts.

(** What the handlers do besides the calls of the pipeline: they write the
    input field, cancel the default action of an event, attach listeners
    and write to the console. *)
Inductive call : Type :=
| Core (e : Host.event)
| SetHtmlInputValue (value : string)
| PreventDefault
| AddEventListener (target eventType : string) (handler : Handler)
| ConsoleWarn (message : string)
| ConsoleLog (message : string).

(** A run of the pipeline inside a handler. *)
Definition lift {A} (m : Js.Eff Host.event A) : Js.Eff call A :=
  (map Core (fst m), snd m).

(** A call whose promise is dropped: what it does is done, how it ends
    is not looked at. *)
Definition detach {A} (m : Js.Eff call A) : Js.Eff call unit :=
  (fst m, Js.Normal tt).

(** The effect of an event on the page, by the function of [ui.js] that
    stands behind it; [showToast] is called with its default duration. *)
Definition apply (e : call) (s : Ui.state) : Ui.state :=
  match e with
  | Core (Host.ShowToast message kind) => Ui.showToast message kind 3000 s
  | Core (Host.UpdateStatus message kind) => Ui.updateStatus message kind s
  | Core (Host.SetProcessingState isProcessing) =>
      Ui.setConvertButton isProcessing s
  | Core (Host.SetMarkdownOutputValue value) =>
      Ui.setMarkdownOutputValue value s
  | SetHtmlInputValue value => Ui.setHtmlInputValue value s
  | _ => s
  end.

(** The page after a trace. *)
Definition run (t : list call) (s : Ui.state) : Ui.state :=
  fold_left (fun st e => apply e st) t s.

(** [if (x)] for an [x] that is a string or [null]. *)
Definition given (o : option string) : bool :=
  match o with
  | Some s => Js.truthy (Js.VString s)
  | None => false
  end.

Definition to_value (o : option string) : Js.value :=
  match o with
  | Some s => Js.VString s
  | None => Js.VNull
  end.

Definition the_string (o : option string) : string :=
  match o with
  | Some s => s
  | None => ""
  end.

(** [event.metaKey], [event.ctrlKey] and [event.key]. *)
Record KeyboardEvent : Type := {
  metaKey : bool;
  ctrlKey : bool;
  key : string
}.

(** [present id] tells whether [document.getElementById(id)] finds an
    element. *)
Definition registerEventHandler (present : string -> bool)
  (elementId eventType : string) (handler : Handler) : Js.Eff call unit :=
  let target :=
    if elementId =? "document" then Some "document"
    else if elementId =? "window" then Some "window"
    else if present elementId then Some elementId
    else None in
  match target with
  | Some t => Js.emit (AddEventListener t eventType handler)
  | None => Js.emit (ConsoleWarn ("Element not found: " ++ elementId))
  end.

Definition registerEventHandlers (present : string -> bool)
  : Js.Eff call unit :=
  (registerEventHandler present "document" "paste" HandleDocumentPaste ;;;
   registerEventHandler present "convert-btn" "click" HandleConvertClick ;;;
   registerEventHandler present "copy-btn" "click" HandleCopyClick ;;;
   registerEventHandler present "clear-input-btn" "click"
     HandleClearInputClick ;;;
   registerEventHandler present "clear-output-btn" "click"
     HandleClearOutputClick ;;;
   registerEventHandler present "document" "keydown"
     HandleKeyboardShortcuts)%eff.

Section Handlers.

Variable lib : Turndown.Library.
Variable prettier_format : Formatter.Prettier.
Variable browser : Clipboard.Browser.

Definition handleDocumentPaste (event : ClipboardSource.ClipboardEvent)
  : Js.Eff call unit :=
  if ClipboardSource.target event =? "html-input" then Js.ret tt
  else
    (Js.emit PreventDefault ;;;
     let html := ClipboardSource.getHtmlFromClipboardEvent event in
     if given html then
       Js.emit (SetHtmlInputValue (the_string html)) ;;;
       lift (Main.handleConversion lib prettier_format (to_value html))
     else
       let plainText :=
         ClipboardSource.getPlainTextFromClipboardEvent event in
       if given plainText && Converter.isValidHtml (to_value plainText) then
         Js.emit (SetHtmlInputValue (the_string plainText)) ;;;
         lift (Main.handleConversion lib prettier_format
                 (to_value plainText))
       else if given plainText then
         Js.emit (SetHtmlInputValue (the_string plainText)) ;;;
         lift (Main.showToast "Pasted text does not appear to be HTML"
                 "error")
       else lift (Main.showToast "No content in clipboard" "error"))%eff.

Definition handleConvertClick (page : Ui.state) : Js.Eff call unit :=
  let html := Ui.getHtmlInputValue page in
  lift (Main.handleConversion lib prettier_format (Js.VString html)).

Definition handleCopyClick (page : Ui.state) : Js.Eff call unit :=
  let markdown := Ui.getMarkdownOutputValue page in
  if negb (Js.truthy (Js.VString markdown))
     || negb (Js.truthy (Js.VString (Js.trim markdown)))
  then lift (Main.showToast "No Markdown to copy" "error")
  else
    (success <- lift (Clipboard.copyToClipboard browser markdown) ;;
     if success : bool then
       lift (Main.showToast "Markdown copied to clipboard!" "success")
     else lift (Main.showToast "Failed to copy to clipboard" "error"))%eff.

Definition handleClearInputClick : Js.Eff call unit :=
  (Js.emit (SetHtmlInputValue "") ;;;
   lift (Main.showToast "Input cleared" ""))%eff.

Definition handleClearOutputClick : Js.Eff call unit :=
  (lift (Main.setMarkdownOutputValue "") ;;;
   lift (Main.updateStatus "" "") ;;;
   lift (Main.showToast "Output cleared" ""))%eff.

Definition handleKeyboardShortcuts (page : Ui.state) (event : KeyboardEvent)
  : Js.Eff call unit :=
  if (metaKey event || ctrlKey event) && (key event =? "Enter") then
    (Js.emit PreventDefault ;;;
     detach (handleConvertClick page))%eff
  else Js.ret tt.

End Handlers.

End Page.

(* ================================================================== *)
(** * More sample collaborators *)
(* ================================================================== *)

Module MoreSamples.

(** A page with nothing typed, nothing shown and no timer set. *)
Definition blank_page : Ui.state :=
  Ui.mkState "" "" false Ui.ConvertContent true "" "status" "" "toast"
    None [] 1 0.

(** A clipboard with a rich-text and a plain-text flavour. *)
Definition rich_clipboard : ClipboardSource.DataTransfer :=
  [("text/plain", "Hello"); ("text/html", "<p>Hello</p>")].

Definition paste_on_body : ClipboardSource.ClipboardEvent :=
  {| ClipboardSource.target := "";
     ClipboardSource.clipboardData := Some rich_clipboard |}.

(** An item that offers HTML, and one that offers an image only. *)
Definition html_item (html : string) : ClipboardSource.ClipboardItem :=
  {| ClipboardSource.types := ["text/plain"; "text/html"];
     ClipboardSource.getType := fun _ =>
       Js.Normal {| ClipboardSource.text := Js.Normal html |} |}.

Definition image_item : ClipboardSource.ClipboardItem :=
  {| ClipboardSource.types := ["image/png"];
     ClipboardSource.getType := fun _ =>
       Js.Throw (Js.mkError "NotFoundError" "Type was not found") |}.

(** An item that lists HTML but fails to hand it out. *)
Definition broken_item : ClipboardSource.ClipboardItem :=
  {| ClipboardSource.types := ["text/html"];
     ClipboardSource.getType := fun _ =>
       Js.Throw (Js.mkError "NotAllowedError" "Read permission denied.") |}.

(** A Prettier that accepts every document and returns it as it is. *)
Definition accepting_api : FormatterCheck.PrettierApi :=
  fun markdown _ => Js.Normal markdown.

(** A page on which every button is there but the copy button. *)
Definition no_copy_button (id : string) : bool := negb (id =? "copy-btn").

(** A [code] element with the given text, and the ancestors it has when it
    stands alone in a paragraph of a fragment. *)
Definition code_with (text : string) : Dom.node :=
  Dom.Element "code" [] [Dom.Text text].

Definition alone_in_paragraph (n : Dom.node) : list Dom.node :=
  [Dom.Element "p" [] [n]; Samples.root [Dom.Element "p" [] [n]]].



(** [new String("<p>Hello</p>")]: an object, whose [trim] gives the
    string. *)
Definition string_object : Js.value := Js.VObject (Some "<p>Hello</p>").

(** An output with the line breaks of three conventions. *)
Definition mixed_line_breaks : string :=
  "a" ++ String (ascii_of_nat 13) (String (ascii_of_nat 10) "b")
      ++ String (ascii_of_nat 13) "c" ++ String (ascii_of_nat 10) "d".

End MoreSamples.

(* ================================================================== *)
(** * Notions used in the statements about the handlers *)
(* ================================================================== *)

Module HandlerNotions.

(** The toasts of a trace of the pipeline, with their kind, in order. *)
Definition toasts (t : list Host.event) : list (string * string) :=
  flat_map
    (fun e =>
       match e with
       | Host.ShowToast message kind => [(message, kind)]
       | _ => []
       end) t.

(** The inputs on which a trace starts a tree walk. *)
Definition walks (t : list Host.event) : list string :=
  flat_map
    (fun e =>
       match e with
       | Host.TurndownWalk html => [html]
       | _ => []
       end) t.

(** The values a trace writes to the output field. *)
Definition outputs (t : list Host.event) : list string :=
  flat_map
    (fun e =>
       match e with
       | Host.SetMarkdownOutputValue value => [value]
       | _ => []
       end) t.

(** The calls of the pipeline among the calls of a handler. *)
Definition core (t : list Page.call) : list Host.event :=
  flat_map
    (fun c =>
       match c with
       | Page.Core e => [e]
       | _ => []
       end) t.

(** The positions of the clipboard items a trace asks for a payload. *)
Definition asked (t : list ClipboardSource.event) : list nat :=
  flat_map
    (fun e =>
       match e with
       | ClipboardSource.GetType index _ => [index]
       | _ => []
       end) t.

(** An item that lists the HTML format among its types. *)
Definition OffersHtml (item : ClipboardSource.ClipboardItem) : Prop :=
  In "text/html" (ClipboardSource.types item).

(** At most one timer is pending, and it is the one [toastTimeout]
    holds; timer ids are positive and below the next id. *)
Definition TimerInvariant (s : Ui.state) : Prop :=
  1 <= Ui.nextTimerId s /\
  (Ui.pendingTimers s = [] \/
   exists id due,
     Ui.pendingTimers s = [(id, due)] /\
     Ui.toastTimeout s = Some id /\
     1 <= id < Ui.nextTimerId s).

(** What happens to the page: a handler makes a call, or time passes. *)
Inductive step : Type :=
| Call (c : Page.call)
| Wait (duration : nat).

Definition play_step (s : Ui.state) (st : step) : Ui.state :=
  match st with
  | Call c => Page.apply c s
  | Wait duration => Ui.elapse duration s
  end.

Definition play (steps : list step) (s : Ui.state) : Ui.state :=
  fold_left play_step steps s.

(** The toast is on display. *)
Definition ToastVisible (s : Ui.state) : Prop :=
  exists rest, Ui.toast_className s = "toast visible" ++ rest.

(** The four buttons and the handler each one gets. *)
Definition buttons : list (string * Page.Handler) :=
  [("convert-btn", Page.HandleConvertClick);
   ("copy-btn", Page.HandleCopyClick);
   ("clear-input-btn", Page.HandleClearInputClick);
   ("clear-output-btn", Page.HandleClearOutputClick)].

End HandlerNotions.

(* ================================================================== *)
(** * The definitions on small inputs *)
(* ================================================================== *)

Module Checks.

Import Samples.

Example trim_both_ends :
  Js.trim (" " ++ Js.nl ++ "a b" ++ Js.nl ++ " ") = "a b".
Proof. reflexivity. Qed.

Example isValidHtml_paragraph :
  Converter.isValidHtml (Js.VString "<p>x</p>") = true.
Proof. reflexivity. Qed.

Example isValidHtml_closing_tag_alone :
  Converter.isValidHtml (Js.VString "a </B x> c") = true.
Proof. reflexivity. Qed.

Example isValidHtml_comparison :
  Converter.isValidHtml (Js.VString "a < b > c") = false.
Proof. reflexivity. Qed.

Example isValidHtml_digit_after_bracket :
  Converter.isValidHtml (Js.VString "<1>") = false.
Proof. reflexivity. Qed.

Example isValidHtml_undefined : Converter.isValidHtml Js.VUndefined = false.
Proof. reflexivity. Qed.

Example language_after_other_classes :
  Converter.language_match "hljs language-javascript wide"
    = Some "javascript".
Proof. reflexivity. Qed.

Example language_stops_at_non_word :
  Converter.language_match "lang-c++" = Some "c".
Proof. reflexivity. Qed.

Example language_skips_bare_prefix :
  Converter.language_match "language- lang-py" = Some "py".
Proof. reflexivity. Qed.

Example language_none : Converter.language_match "highlight" = None.
Proof. reflexivity. Qed.

Example inline_code_plain :
  Converter.inlineCode_replacement "npm install" = "`npm install`".
Proof. reflexivity. Qed.

Example inline_code_backtick :
  Converter.inlineCode_replacement "a`b" = "`` a`b ``".
Proof. reflexivity. Qed.

Example inline_code_empty : Converter.inlineCode_replacement "" = "".
Proof. reflexivity. Qed.

Example code_inside_pre_is_not_inline :
  Converter.inlineCode_filter
    (Dom.Element "code" [("class", "language-python")] [])
    [pre_python_node] = false.
Proof. reflexivity. Qed.

Example copy_with_clipboard_api :
  Clipboard.copyToClipboard modern_browser "x"
    = ([Host.ClipboardWriteText "x"], Js.Normal true).
Proof. reflexivity. Qed.

Example copy_with_fallback :
  Js.result (Clipboard.copyToClipboard legacy_browser "x") = Js.Normal true.
Proof. reflexivity. Qed.

Example convert_undefined :
  Converter.convertHtmlToMarkdown sample_library Js.VUndefined
    = ([], Js.Throw Converter.invalid_html).
Proof. reflexivity. Qed.

Example handleConversion_plain_text :
  Main.handleConversion sample_library failing_prettier
    (Js.VString "not html at all")
    = ([Host.ShowToast "Input does not appear to contain valid HTML"
                       "error"],
       Js.Normal tt).
Proof. reflexivity. Qed.

Example handleConversion_success :
  Main.handleConversion sample_library failing_prettier
    (Js.VString script_and_paragraph_html)
    = ([Host.SetProcessingState true;
        Host.UpdateStatus "Processing..." "";
        Host.TurndownWalk script_and_paragraph_html;
        Host.PrettierFormat "Hello";
        Host.ConsoleError "Prettier formatting failed:"
          (Js.mkError "SyntaxError" "Unexpected token");
        Host.SetMarkdownOutputValue "Hello";
        Host.UpdateStatus "Converted successfully" "success";
        Host.ShowToast "HTML converted to Markdown!" "success";
        Host.SetProcessingState false],
       Js.Normal tt).
Proof. reflexivity. Qed.

End Checks.

(* ================================================================== *)
(** * Facts about strings *)
(* ================================================================== *)

Module StringFacts.

Import Notions.

Lemma app_assoc (a b c : string) : (a ++ b) ++ c = a ++ b ++ c.
Proof. induction a as [|x a IH]; simpl; [reflexivity | now rewrite IH]. Qed.


Lemma Forall_chars_app (P : ascii -> Prop) (a b : string) :
  Forall_chars P (a ++ b) <-> Forall_chars P a /\ Forall_chars P b.
Proof.
  induction a as [|x a IH]; simpl; [tauto | rewrite IH; tauto].
Qed.

Lemma is_whitespace_iff (c : ascii) :
  Js.is_whitespace c = true <-> Whitespace c.
Proof.
  unfold Js.is_whitespace, Js.in_range, Js.code, Whitespace.
  generalize (nat_of_ascii c) as n; intros n.
  rewrite !orb_true_iff, andb_true_iff, !Nat.leb_le, !Nat.eqb_eq.
  cbn [In]. lia.
Qed.

Lemma all_whitespace_iff (s : string) :
  Js.all_whitespace s = true <-> WhitespaceOnly s.
Proof.
  induction s as [|c r IH]; simpl.
  - unfold WhitespaceOnly; simpl; tauto.
  - rewrite andb_true_iff, is_whitespace_iff, IH.
    unfold WhitespaceOnly; simpl; tauto.
Qed.

Lemma all_whitespace_trimStart (s : string) :
  Js.all_whitespace (Js.trimStart s) = Js.all_whitespace s.
Proof.
  induction s as [|c r IH]; simpl; [reflexivity|].
  destruct (Js.is_whitespace c) eqn:Hc; simpl.
  - exact IH.
  - now rewrite Hc.
Qed.

Lemma trimEnd_empty_iff (s : string) :
  Js.trimEnd s = "" <-> Js.all_whitespace s = true.
Proof.
  induction s as [|c r IH]; simpl; [tauto|].
  destruct (Js.trimEnd r) as [|x t] eqn:Hr.
  - destruct (Js.is_whitespace c); simpl.
    + tauto.
    + split; discriminate.
  - split; [discriminate|].
    rewrite andb_true_iff. intros [_ H]. apply IH in H. discriminate.
Qed.

Lemma trim_empty_iff (s : string) :
  Js.trim s = "" <-> WhitespaceOnly s.
Proof.
  unfold Js.trim.
  now rewrite trimEnd_empty_iff, all_whitespace_trimStart, all_whitespace_iff.
Qed.

(** [!s.trim()] holds exactly for the strings of white space. *)
Lemma not_truthy_trim_iff (s : string) :
  negb (Js.truthy (Js.VString (Js.trim s))) = true <-> WhitespaceOnly s.
Proof.
  simpl. rewrite negb_involutive, String.eqb_eq. apply trim_empty_iff.
Qed.

Lemma or_else_empty (s : string) : Js.or_else s "" = s.
Proof. now destruct s. Qed.

Lemma strip_prefix_iff (p s r : string) :
  Js.strip_prefix p s = Some r <-> s = p ++ r.
Proof.
  revert s; induction p as [|a p IH]; intros s; simpl.
  - split; [now intros [= ->] | now intros ->].
  - destruct s as [|b s]; [split; discriminate|].
    destruct (Ascii.eqb_spec a b) as [->|Hab].
    + rewrite IH. split; [now intros -> | now intros [= ->]].
    + split; [discriminate | intros [= Hb _]; congruence].
Qed.

Lemma strip_prefix_app (p r : string) : Js.strip_prefix p (p ++ r) = Some r.
Proof. now apply strip_prefix_iff. Qed.

Lemma startsWith_iff (p s : string) :
  Js.startsWith p s = true <-> exists r, s = p ++ r.
Proof.
  unfold Js.startsWith.
  destruct (Js.strip_prefix p s) as [r|] eqn:H.
  - apply strip_prefix_iff in H. split; [eauto | reflexivity].
  - split; [discriminate|]. intros [r Hr].
    apply strip_prefix_iff in Hr. congruence.
Qed.

Lemma includes_iff (sub s : string) :
  Js.includes sub s = true <-> Contains sub s.
Proof.
  unfold Contains. induction s as [|c s IH]; simpl.
  - rewrite orb_false_r, startsWith_iff. split.
    + intros [r Hr]. now exists "", r.
    + intros [[|x b] [a H]]; simpl in H; [eauto | discriminate].
  - rewrite orb_true_iff, startsWith_iff, IH. split.
    + intros [[r Hr] | (b & a & H)].
      * now exists "", r.
      * exists (String c b), a. simpl. now rewrite H.
    + intros [[|x b] [a H]]; simpl in H.
      * left; eauto.
      * right. injection H as _ H. eauto.
Qed.

End StringFacts.

(* ================================================================== *)
(** * The inline code rule *)
(* ================================================================== *)

Module InlineCodeRule.

Import Notions StringFacts Samples.

Lemma backtick_not_whitespace (content : string) :
  Contains "`" content -> ~ WhitespaceOnly content.
Proof.
  intros (b & a & ->) H. unfold WhitespaceOnly in H.
  apply Forall_chars_app in H. destruct H as [_ H]. simpl in H.
  destruct H as [H _]. unfold Whitespace in H. simpl in H.
  repeat (destruct H as [H | H]; [discriminate|]). exact H.
Qed.

Lemma inlineCode_filter_iff (node : Dom.node) (ancestors : list Dom.node) :
  Converter.inlineCode_filter node ancestors = true <->
  Dom.nodeName node = "CODE" /\ Turndown.parentName ancestors <> "PRE".
Proof.
  unfold Converter.inlineCode_filter.
  rewrite andb_true_iff, negb_true_iff, String.eqb_eq, String.eqb_neq.
  tauto.
Qed.

Lemma replacement_blank (content : string) :
  WhitespaceOnly content -> Converter.inlineCode_replacement content = "".
Proof.
  intros H. unfold Converter.inlineCode_replacement.
  apply not_truthy_trim_iff in H. now rewrite H.
Qed.

Lemma replacement_not_blank (content : string) :
  ~ WhitespaceOnly content ->
  Converter.inlineCode_replacement content =
    if Js.includes "`" content then "`` " ++ content ++ " ``"
    else "`" ++ content ++ "`".
Proof.
  intros H. unfold Converter.inlineCode_replacement.
  destruct (negb (Js.truthy (Js.VString (Js.trim content)))) eqn:E.
  - apply not_truthy_trim_iff in E. contradiction.
  - reflexivity.
Qed.

(** The walker on an element: the rule of the element, called with the
    joined output of its children. *)
Lemma replacementForNode_element
  (lib : Turndown.Library) (svc : Turndown.Service)
  (ancestors : list Dom.node) (node : Dom.node) :
  Dom.nodeName node <> "#text" ->
  Turndown.replacementForNode lib svc ancestors node
    = Turndown.replacement (Turndown.forNode lib svc ancestors node)
        (Turndown.joinChildren lib svc (node :: ancestors)
           (Dom.childNodes node))
        node (Turndown.options svc).
Proof.
  destruct node as [data | tag attrs children]; intros H.
  - now contradiction H.
  - reflexivity.
Qed.

(** In the configured service the rule of a [code] element outside [pre]
    is [inlineCode]: it is the rule registered last, so it is asked
    first. *)
Lemma forNode_inline_code
  (lib : Turndown.Library) (ancestors : list Dom.node) (node : Dom.node) :
  Dom.nodeName node = "CODE" -> Turndown.parentName ancestors <> "PRE" ->
  Turndown.forNode lib (Converter.turndownService lib) ancestors node
    = Converter.inlineCode.
Proof.
  intros N P. unfold Turndown.forNode.
  cbn [Converter.turndownService Converter.createTurndownService
       Turndown.addRule Turndown.remove Turndown.new Turndown.rules
       Turndown.options Turndown.removed List.filter fst String.eqb
       Ascii.eqb Bool.eqb negb Turndown.findRule Turndown.filter
       Converter.inlineCode Converter.preserveCodeBlocks Turndown.matches].
  now rewrite (proj2 (inlineCode_filter_iff node ancestors) (conj N P)).
Qed.

Lemma code_is_not_text (node : Dom.node) :
  Dom.nodeName node = "CODE" -> Dom.nodeName node <> "#text".
Proof. intros ->. discriminate. Qed.

(** What the walker emits for a [code] element outside [pre]. *)
Lemma walk_inline_code
  (lib : Turndown.Library) (ancestors : list Dom.node) (node : Dom.node) :
  Dom.nodeName node = "CODE" -> Turndown.parentName ancestors <> "PRE" ->
  Turndown.replacementForNode lib (Converter.turndownService lib)
    ancestors node
  = Converter.inlineCode_replacement
      (Turndown.joinChildren lib (Converter.turndownService lib)
         (node :: ancestors) (Dom.childNodes node)).
Proof.
  intros N P.
  rewrite replacementForNode_element by now apply code_is_not_text.
  now rewrite forNode_inline_code.
Qed.

(** C5, as stated, fails: the content of one space is not empty and has no
    backtick, yet the rule emits the empty string and not the space between
    two backticks; so does the walk of the configured service over a
    [code] element that holds one space. *)
Lemma inlineCode_one_space_emits_nothing :
  Converter.inlineCode_filter blank_code in_paragraph = true /\
  Turndown.replacement Converter.inlineCode " " blank_code
    Converter.turndownOptions = "" /\
  Turndown.joinChildren sample_library
    (Converter.turndownService sample_library)
    (blank_code :: in_paragraph) (Dom.childNodes blank_code) = " " /\
  Turndown.replacementForNode sample_library
    (Converter.turndownService sample_library) in_paragraph blank_code
    = "" /\
  ~ (forall content : string,
       content <> "" -> ~ Contains "`" content ->
       Converter.inlineCode_replacement content = "`" ++ content ++ "`").
Proof.
  split; [reflexivity|]. split; [reflexivity|].
  split; [reflexivity|]. split; [reflexivity|].
  intros H. specialize (H " ").
  assert (E : Converter.inlineCode_replacement " " = "") by reflexivity.
  rewrite E in H. discriminate H.
  - discriminate.
  - intros C. apply backtick_not_whitespace in C. apply C.
    unfold WhitespaceOnly, Whitespace; simpl. tauto.
Qed.

(** C5, amended: the rule applies to the nodes named [CODE] whose parent
    is not named [PRE], and for such a node it is the rule the configured
    service picks, called with the joined output of the children of the
    node; content that is empty or white space only emits the empty
    string; content with a backtick is put between double backticks with
    one space of padding on each side; any other content is put between
    single backticks without padding. *)
Theorem inlineCode_three_cases
  (lib : Turndown.Library) (node : Dom.node) (ancestors : list Dom.node)
  (content : string) (opts : Turndown.Options) :
  (Turndown.matches (Turndown.filter Converter.inlineCode) ancestors node
     = true <->
     Dom.nodeName node = "CODE" /\ Turndown.parentName ancestors <> "PRE") /\
  (Dom.nodeName node = "CODE" -> Turndown.parentName ancestors <> "PRE" ->
     Turndown.forNode lib (Converter.turndownService lib) ancestors node
       = Converter.inlineCode /\
     Turndown.replacementForNode lib (Converter.turndownService lib)
       ancestors node
     = Turndown.replacement Converter.inlineCode
         (Turndown.joinChildren lib (Converter.turndownService lib)
            (node :: ancestors) (Dom.childNodes node))
         node (Turndown.options (Converter.turndownService lib))) /\
  (WhitespaceOnly content ->
     Turndown.replacement Converter.inlineCode content node opts = "") /\
  (Contains "`" content ->
     Turndown.replacement Converter.inlineCode content node opts
       = "`` " ++ content ++ " ``") /\
  (~ WhitespaceOnly content -> ~ Contains "`" content ->
     Turndown.replacement Converter.inlineCode content node opts
       = "`" ++ content ++ "`").
Proof.
  split; [apply inlineCode_filter_iff|].
  split.
  { intros N P. split; [now apply forNode_inline_code|].
    now rewrite walk_inline_code. }
  simpl.
  split; [apply replacement_blank|]. split.
  - intros C. rewrite replacement_not_blank
      by now apply backtick_not_whitespace.
    apply includes_iff in C. now rewrite C.
  - intros W C. rewrite replacement_not_blank by exact W.
    destruct (Js.includes "`" content) eqn:E; [|reflexivity].
    apply includes_iff in E. contradiction.
Qed.

Lemma inlineCode_three_cases_witness :
  (Turndown.forNode sample_library (Converter.turndownService sample_library)
     (MoreSamples.alone_in_paragraph (MoreSamples.code_with "ls -l"))
     (MoreSamples.code_with "ls -l")
     = Converter.inlineCode /\
   Turndown.replacementForNode sample_library
     (Converter.turndownService sample_library)
     (MoreSamples.alone_in_paragraph (MoreSamples.code_with "ls -l"))
     (MoreSamples.code_with "ls -l")
   = Turndown.replacement Converter.inlineCode "ls -l"
       (MoreSamples.code_with "ls -l") Converter.turndownOptions) /\
  Turndown.replacement Converter.inlineCode "" blank_code
    Converter.turndownOptions = "" /\
  Turndown.replacement Converter.inlineCode "a`b" blank_code
    Converter.turndownOptions = "`` a`b ``" /\
  Turndown.replacement Converter.inlineCode "ls -l"
    (MoreSamples.code_with "ls -l") Converter.turndownOptions = "`ls -l`".
Proof.
  split; [|split; [|split]].
  - apply (inlineCode_three_cases sample_library
             (MoreSamples.code_with "ls -l")
             (MoreSamples.alone_in_paragraph (MoreSamples.code_with "ls -l"))
             "" Converter.turndownOptions).
    + reflexivity.
    + discriminate.
  - apply (inlineCode_three_cases sample_library blank_code in_paragraph "").
    exact I.
  - apply (inlineCode_three_cases sample_library blank_code in_paragraph
             "a`b").
    now exists "a", "b".
  - apply (inlineCode_three_cases sample_library
             (MoreSamples.code_with "ls -l")
             (MoreSamples.alone_in_paragraph (MoreSamples.code_with "ls -l"))
             "ls -l").
    + unfold WhitespaceOnly, Whitespace; simpl. intros [H _].
      repeat (destruct H as [H | H]; [discriminate|]). exact H.
    + intros C. apply includes_iff in C. discriminate C.
Defined.

(** C9: for a [code] element outside [pre] the configured service calls
    the inline rule with the joined output of the children of the element
    as content.  Content of white space only is treated as empty content
    and emits the empty string; whenever something is emitted, the
    original content stands unchanged, untrimmed, between the two
    delimiters. *)
Theorem inlineCode_blank_or_verbatim
  (lib : Turndown.Library) (ancestors : list Dom.node)
  (node : Dom.node) (content : string) (opts : Turndown.Options) :
  ((WhitespaceOnly content ->
      Turndown.replacement Converter.inlineCode content node opts = "") /\
   (~ WhitespaceOnly content ->
      exists opening closing,
        Turndown.replacement Converter.inlineCode content node opts
          = opening ++ content ++ closing /\
        ((opening = "`" /\ closing = "`") \/
         (opening = "`` " /\ closing = " ``")))) /\
  (Dom.nodeName node = "CODE" -> Turndown.parentName ancestors <> "PRE" ->
   content = Turndown.joinChildren lib (Converter.turndownService lib)
               (node :: ancestors) (Dom.childNodes node) ->
   (WhitespaceOnly content ->
      Turndown.replacementForNode lib (Converter.turndownService lib)
        ancestors node = "") /\
   (~ WhitespaceOnly content ->
      exists opening closing,
        Turndown.replacementForNode lib (Converter.turndownService lib)
          ancestors node = opening ++ content ++ closing /\
        ((opening = "`" /\ closing = "`") \/
         (opening = "`` " /\ closing = " ``")))).
Proof.
  assert (R : (WhitespaceOnly content ->
                 Converter.inlineCode_replacement content = "") /\
              (~ WhitespaceOnly content ->
                 exists opening closing,
                   Converter.inlineCode_replacement content
                     = opening ++ content ++ closing /\
                   ((opening = "`" /\ closing = "`") \/
                    (opening = "`` " /\ closing = " ``")))).
  { split; [apply replacement_blank|].
    intros W. rewrite replacement_not_blank by exact W.
    destruct (Js.includes "`" content).
    - exists "`` ", " ``". split; [reflexivity | now right].
    - exists "`", "`". split; [reflexivity | now left]. }
  split; [exact R|].
  intros N P E. rewrite walk_inline_code by assumption.
  rewrite <- E. exact R.
Qed.

Lemma inlineCode_blank_or_verbatim_witness :
  Turndown.replacement Converter.inlineCode
    (String (ascii_of_nat 9) " ") blank_code Converter.turndownOptions = "" /\
  Turndown.replacementForNode sample_library
    (Converter.turndownService sample_library) in_paragraph blank_code
    = "" /\
  exists opening closing,
    Turndown.replacementForNode sample_library
      (Converter.turndownService sample_library)
      (MoreSamples.alone_in_paragraph (MoreSamples.code_with " x "))
      (MoreSamples.code_with " x ")
      = opening ++ " x " ++ closing /\
    ((opening = "`" /\ closing = "`") \/
     (opening = "`` " /\ closing = " ``")).
Proof.
  split; [|split].
  - apply (inlineCode_blank_or_verbatim sample_library in_paragraph
             blank_code).
    unfold WhitespaceOnly, Whitespace; simpl. tauto.
  - apply (inlineCode_blank_or_verbatim sample_library in_paragraph
             blank_code " " Converter.turndownOptions).
    + reflexivity.
    + discriminate.
    + reflexivity.
    + unfold WhitespaceOnly, Whitespace; simpl. tauto.
  - apply (inlineCode_blank_or_verbatim sample_library
             (MoreSamples.alone_in_paragraph (MoreSamples.code_with " x "))
             (MoreSamples.code_with " x ") " x " Converter.turndownOptions).
    + reflexivity.
    + discriminate.
    + reflexivity.
    + unfold WhitespaceOnly, Whitespace; simpl. intros (_ & H & _).
      repeat (destruct H as [H | H]; [discriminate|]). exact H.
Defined.

End InlineCodeRule.

(* ================================================================== *)
(** * The formatter *)
(* ================================================================== *)

Module FormatMarkdown.

Import Samples.

Section WithPrettier.

Variable prettier_format : Formatter.Prettier.

Lemma guard_passes (m : string) :
  m <> "" ->
  negb (Js.truthy (Js.VString m))
  || negb (Js.typeof (Js.VString m) =? "string") = false.
Proof.
  intros H. simpl. apply String.eqb_neq in H. now rewrite H.
Qed.

(** The run of [formatMarkdown] on a non-empty string, case by case. *)
Lemma formatMarkdown_run (m : string) (options : Formatter.Overrides) :
  m <> "" ->
  Formatter.formatMarkdown prettier_format (Js.VString m) options =
    match prettier_format m
            (Formatter.spread Formatter.DEFAULT_PRETTIER_OPTIONS options)
    with
    | Js.Normal formatted => ([Host.PrettierFormat m], Js.Normal formatted)
    | Js.Throw e =>
        ([Host.PrettierFormat m;
          Host.ConsoleError "Prettier formatting failed:" e],
         Js.Normal m)
    end.
Proof.
  intros H. unfold Formatter.formatMarkdown.
  rewrite (guard_passes m H). simpl.
  now destruct (prettier_format m _).
Qed.

Lemma formatMarkdown_empty (options : Formatter.Overrides) :
  Formatter.formatMarkdown prettier_format (Js.VString "") options
    = ([], Js.Throw Formatter.invalid_markdown).
Proof. reflexivity. Qed.

End WithPrettier.

(** C1: on a non-empty string [formatMarkdown] does not reject, and when
    [prettier.format] throws it resolves with the input string itself. *)
Theorem formatMarkdown_survives_prettier_failure
  (prettier_format : Formatter.Prettier) (m : string)
  (options : Formatter.Overrides) :
  m <> "" ->
  Js.resolves (Formatter.formatMarkdown prettier_format (Js.VString m)
                 options) /\
  forall e,
    prettier_format m
      (Formatter.spread Formatter.DEFAULT_PRETTIER_OPTIONS options)
      = Js.Throw e ->
    Js.result (Formatter.formatMarkdown prettier_format (Js.VString m)
                 options) = Js.Normal m.
Proof.
  intros H. rewrite (formatMarkdown_run prettier_format m options H).
  destruct (prettier_format m _) as [formatted | e0]; split.
  - now exists formatted.
  - discriminate.
  - now exists m.
  - reflexivity.
Qed.

Lemma formatMarkdown_survives_prettier_failure_witness :
  Js.result (Formatter.formatMarkdown failing_prettier
               (Js.VString "* item") Formatter.no_overrides)
    = Js.Normal "* item".
Proof.
  apply (formatMarkdown_survives_prettier_failure failing_prettier
           "* item" Formatter.no_overrides)
    with (e := Js.mkError "SyntaxError" "Unexpected token").
  - discriminate.
  - reflexivity.
Defined.

(** C7, as stated, fails: one space is a non-empty string that a
    formatter, idempotent itself, prints as the empty string; the second
    call then stops at the input guard and rejects. *)
Lemma formatMarkdown_twice_rejects_on_blank :
  (forall markdown options,
     exists formatted,
       blank_to_empty_prettier markdown options = Js.Normal formatted /\
       blank_to_empty_prettier formatted options = Js.Normal formatted) /\
  Js.result (Formatter.formatMarkdown blank_to_empty_prettier
               (Js.VString " ") Formatter.no_overrides) = Js.Normal "" /\
  Js.result (Formatter.formatMarkdown_twice blank_to_empty_prettier
               (Js.VString " ") Formatter.no_overrides)
    = Js.Throw Formatter.invalid_markdown /\
  Js.result (Formatter.formatMarkdown_twice blank_to_empty_prettier
               (Js.VString " ") Formatter.no_overrides)
    <> Js.result (Formatter.formatMarkdown blank_to_empty_prettier
                    (Js.VString " ") Formatter.no_overrides).
Proof.
  split; [|split; [reflexivity | split; [reflexivity | discriminate]]].
  intros markdown options. unfold blank_to_empty_prettier.
  destruct (Js.all_whitespace markdown) eqn:E.
  - now exists "".
  - exists markdown. now rewrite E.
Qed.

(** C7, amended: let [r] be the result of [formatMarkdown] on a non-empty
    string.  If [r] is not empty and [prettier.format] returns [r] for [r]
    or fails on it, then [formatMarkdown] of [r] is [r] again; this is so
    whenever [prettier.format] failed on the input.  If [r] is the empty
    string the second call rejects with the invalid-input error. *)
Theorem formatMarkdown_fixed_point
  (prettier_format : Formatter.Prettier) (m r : string)
  (options : Formatter.Overrides) :
  m <> "" ->
  Js.result (Formatter.formatMarkdown prettier_format (Js.VString m)
               options) = Js.Normal r ->
  (r <> "" ->
   (prettier_format r
      (Formatter.spread Formatter.DEFAULT_PRETTIER_OPTIONS options)
      = Js.Normal r
    \/ exists e,
        prettier_format r
          (Formatter.spread Formatter.DEFAULT_PRETTIER_OPTIONS options)
          = Js.Throw e) ->
   Js.result (Formatter.formatMarkdown_twice prettier_format
                (Js.VString m) options) = Js.Normal r) /\
  ((exists e,
      prettier_format m
        (Formatter.spread Formatter.DEFAULT_PRETTIER_OPTIONS options)
        = Js.Throw e) ->
   r = m /\
   Js.result (Formatter.formatMarkdown_twice prettier_format
                (Js.VString m) options) = Js.Normal m) /\
  (r = "" ->
   Js.result (Formatter.formatMarkdown_twice prettier_format
                (Js.VString m) options) = Js.Throw Formatter.invalid_markdown).
Proof.
  intros Hm Hr. unfold Formatter.formatMarkdown_twice.
  rewrite (formatMarkdown_run prettier_format m options Hm) in *.
  split; [|split].
  - intros Hne Hfix.
    destruct (prettier_format m _) as [f | e0]; simpl in Hr;
      injection Hr as ->; simpl;
      rewrite (formatMarkdown_run prettier_format r options Hne);
      destruct Hfix as [-> | [e ->]]; reflexivity.
  - intros [e He]. rewrite He in *. simpl in Hr. injection Hr as <-.
    split; [reflexivity|]. simpl.
    rewrite (formatMarkdown_run prettier_format m options Hm), He.
    reflexivity.
  - intros ->.
    destruct (prettier_format m _) as [f | e0]; simpl in Hr;
      injection Hr as Hr.
    + subst f. reflexivity.
    + contradiction.
Qed.

Lemma formatMarkdown_fixed_point_witness :
  Js.result (Formatter.formatMarkdown_twice blank_to_empty_prettier
               (Js.VString "# Title") Formatter.no_overrides)
    = Js.Normal "# Title" /\
  Js.result (Formatter.formatMarkdown_twice failing_prettier
               (Js.VString "* item") Formatter.no_overrides)
    = Js.Normal "* item" /\
  Js.result (Formatter.formatMarkdown_twice blank_to_empty_prettier
               (Js.VString " ") Formatter.no_overrides)
    = Js.Throw Formatter.invalid_markdown.
Proof.
  split; [|split].
  - apply (proj1
      (formatMarkdown_fixed_point blank_to_empty_prettier
         "# Title" "# Title" Formatter.no_overrides
         ltac:(discriminate) eq_refl)).
    + discriminate.
    + left. reflexivity.
  - apply (proj1 (proj2
      (formatMarkdown_fixed_point failing_prettier
         "* item" "* item" Formatter.no_overrides
         ltac:(discriminate) eq_refl))).
    eexists. reflexivity.
  - apply (proj2 (proj2
      (formatMarkdown_fixed_point blank_to_empty_prettier
         " " "" Formatter.no_overrides ltac:(discriminate) eq_refl))).
    reflexivity.
Defined.

End FormatMarkdown.

(* ================================================================== *)
(** * Copying to the clipboard *)
(* ================================================================== *)

Module CopyToClipboard.

Import Samples.

Section WithBrowser.

Variable browser : Clipboard.Browser.

(** The fallback either throws or returns [true]. *)
Lemma fallbackCopy_result (text : string) (b : bool) :
  Js.result (Clipboard.fallbackCopy browser text) = Js.Normal b -> b = true.
Proof.
  unfold Clipboard.fallbackCopy.
  destruct (Clipboard.createElement browser) as [[]|],
           (Clipboard.appendChild browser) as [[]|],
           (Clipboard.select browser) as [[]|],
           (Clipboard.execCommand browser "copy") as [ok|],
           (Clipboard.removeChild browser) as [[]|];
    simpl; intros H; try discriminate H; now injection H.
Qed.


(** The run of [copyToClipboard], case by case. *)
Lemma copyToClipboard_run (text : string) :
  Clipboard.copyToClipboard browser text =
    match Clipboard.writeText browser text with
    | Js.Normal _ => ([Host.ClipboardWriteText text], Js.Normal true)
    | Js.Throw e =>
        let attempt := Clipboard.fallbackCopy browser text in
        match Js.result attempt with
        | Js.Normal _ =>
            (Host.ClipboardWriteText text
             :: Host.ConsoleError "Failed to copy to clipboard:" e
             :: Js.trace attempt,
             Js.Normal true)
        | Js.Throw fallbackError =>
            (Host.ClipboardWriteText text
             :: Host.ConsoleError "Failed to copy to clipboard:" e
             :: (Js.trace attempt
                 ++ [Host.ConsoleError "Fallback copy failed:"
                                       fallbackError])%list,
             Js.Normal false)
        end
    end.
Proof.
  unfold Clipboard.copyToClipboard.
  destruct (Clipboard.writeText browser text) as [[]|e]; [reflexivity|].
  simpl.
  pose proof (fallbackCopy_result text) as Htrue.
  destruct (Clipboard.fallbackCopy browser text) as [t [b|fe]]; simpl in *.
  - rewrite (Htrue b eq_refl). reflexivity.
  - reflexivity.
Qed.

End WithBrowser.



End CopyToClipboard.

(* ================================================================== *)
(** * Input validation *)
(* ================================================================== *)

Module Validation.

Import Notions StringFacts Samples.

Lemma is_letter_iff (c : ascii) : Js.is_letter c = true <-> Letter c.
Proof.
  unfold Js.is_letter, Js.in_range, Js.code, Letter.
  rewrite orb_true_iff, !andb_true_iff, !Nat.leb_le. tauto.
Qed.

Lemma any_then_gt_iff (s : string) :
  Converter.any_then_gt s = true <-> Contains ">" s.
Proof.
  unfold Contains. induction s as [|c s IH]; simpl.
  - split; [discriminate|].
    intros [[|x b] [a H]]; simpl in H; discriminate.
  - rewrite orb_true_iff, IH. split.
    + intros [E | (b & a & ->)].
      * apply Ascii.eqb_eq in E. subst c. now exists "", s.
      * now exists (String c b), a.
    + intros [[|x b] [a H]]; simpl in H; injection H as Hc H.
      * left. subst c. apply Ascii.eqb_refl.
      * right. now exists b, a.
Qed.

Lemma letter_then_gt_iff (s : string) :
  Converter.letter_then_gt s = true <->
  exists c middle after, s = String c middle ++ ">" ++ after /\ Letter c.
Proof.
  destruct s as [|c s]; simpl.
  - split; [discriminate | intros (c & m & a & H & _); discriminate].
  - rewrite andb_true_iff, is_letter_iff, any_then_gt_iff. split.
    + intros [L (m & a & ->)]. now exists c, m, a.
    + intros (c' & m & a & [= -> ->] & L). split; [exact L|]. now exists m, a.
Qed.

Lemma htmlTagPattern_at_iff (s : string) :
  Converter.htmlTagPattern_at s = true <->
  exists slash c middle after,
    s = "<" ++ slash ++ String c middle ++ ">" ++ after /\
    (slash = "" \/ slash = "/") /\ Letter c.
Proof.
  destruct s as [|x r]; cbn [Converter.htmlTagPattern_at].
  - split; [discriminate | intros (sl & c & m & a & H & _); discriminate].
  - rewrite andb_true_iff, orb_true_iff, Ascii.eqb_eq. split.
    + intros [-> [H | H]].
      * destruct r as [|y r']; [discriminate|].
        apply andb_true_iff in H. destruct H as [E H].
        apply Ascii.eqb_eq in E. subst y.
        apply letter_then_gt_iff in H. destruct H as (c & m & a & -> & L).
        exists "/", c, m, a. auto.
      * apply letter_then_gt_iff in H. destruct H as (c & m & a & -> & L).
        exists "", c, m, a. auto.
    + intros (sl & c & m & a & H & [-> | ->] & L); cbn [append] in H;
        injection H as -> ->; (split; [reflexivity|]).
      * right. apply letter_then_gt_iff. now exists c, m, a.
      * left. rewrite Ascii.eqb_refl. cbn [andb].
        apply letter_then_gt_iff. now exists c, m, a.
Qed.

(** The executable test finds a match exactly in the strings of the
    pattern. *)
Lemma htmlTagPattern_test_iff (s : string) :
  Converter.htmlTagPattern_test s = true <-> MatchesHtmlTagPattern s.
Proof.
  unfold MatchesHtmlTagPattern. induction s as [|x s IH].
  - simpl. split; [discriminate|].
    intros ([|y b] & sl & c & m & a & H & _); simpl in H; discriminate.
  - cbn [Converter.htmlTagPattern_test].
    rewrite orb_true_iff, htmlTagPattern_at_iff, IH. split.
    + intros [(sl & c & m & a & H & Hsl & L)
             | (b & sl & c & m & a & H & Hsl & L)].
      * exists "", sl, c, m, a. auto.
      * exists (String x b), sl, c, m, a. simpl. rewrite H. auto.
    + intros ([|y b] & sl & c & m & a & H & Hsl & L).
      * left. exists sl, c, m, a. auto.
      * right. simpl in H. injection H as -> H.
        exists b, sl, c, m, a. auto.
Qed.

Lemma isValidHtml_string (s : string) :
  Converter.isValidHtml (Js.VString s) = true <-> MatchesHtmlTagPattern s.
Proof.
  rewrite <- htmlTagPattern_test_iff. unfold Converter.isValidHtml.
  destruct s as [|c s]; simpl; [|tauto].
  split; discriminate.
Qed.

Lemma isValidHtml_not_string (v : Js.value) :
  NotAString v -> Converter.isValidHtml v = false.
Proof.
  intros H. destruct v; try reflexivity.
  - unfold Converter.isValidHtml. simpl. now rewrite orb_true_r.
  - unfold Converter.isValidHtml. simpl. now rewrite orb_true_r.
  - now destruct (H s).
Qed.

(** A string with an opening angle bracket is not blank. *)
Lemma matching_not_blank (s : string) :
  MatchesHtmlTagPattern s -> ~ WhitespaceOnly s.
Proof.
  intros (b & sl & c & m & a & -> & _) H. unfold WhitespaceOnly in H.
  apply Forall_chars_app in H. destruct H as [_ H]. simpl in H.
  destruct H as [H _]. unfold Whitespace in H. simpl in H.
  repeat (destruct H as [H | H]; [discriminate|]). exact H.
Qed.

End Validation.

(* ================================================================== *)
(** * The conversion pipeline *)
(* ================================================================== *)

Module ConversionPipeline.

Import Notions StringFacts Samples Validation.

Lemma bind_ret {E A B} (a : A) (k : A -> Js.Eff E B) :
  Js.bind (Js.ret a) k = k a.
Proof. unfold Js.bind, Js.ret. now destruct (k a). Qed.

Lemma nonempty_truthy (s : string) :
  s <> "" -> Js.truthy (Js.VString s) = true.
Proof. intros H. simpl. apply String.eqb_neq in H. now rewrite H. Qed.

Lemma not_blank_nonempty (s : string) : ~ WhitespaceOnly s -> s <> "".
Proof. intros H ->. apply H. exact I. Qed.

Section WithCollaborators.

Variable lib : Turndown.Library.
Variable prettier_format : Formatter.Prettier.

Lemma convert_invalid (v : Js.value) :
  v = Js.VString "" \/ NotAString v ->
  Converter.convertHtmlToMarkdown lib v
    = ([], Js.Throw Converter.invalid_html).
Proof.
  intros [-> | H]; [reflexivity|].
  unfold Converter.convertHtmlToMarkdown.
  destruct v; try reflexivity.
  - simpl. now rewrite orb_true_r.
  - simpl. now rewrite orb_true_r.
  - now destruct (H s).
Qed.

Lemma convert_string (html : string) :
  html <> "" ->
  Converter.convertHtmlToMarkdown lib (Js.VString html)
    = ([Host.TurndownWalk html], Js.Normal (Converter.rawMarkdown lib html)).
Proof.
  intros H. unfold Converter.convertHtmlToMarkdown.
  rewrite (nonempty_truthy html H). reflexivity.
Qed.

Lemma process_invalid (v : Js.value) :
  v = Js.VString "" \/ NotAString v ->
  Main.processHtmlToMarkdown lib prettier_format v
    = ([], Js.Throw Converter.invalid_html).
Proof.
  intros H. unfold Main.processHtmlToMarkdown.
  now rewrite (convert_invalid v H).
Qed.

(** The run of the pipeline function when the walk emits nothing. *)
Lemma process_empty_markdown (html : string) :
  html <> "" ->
  Converter.rawMarkdown lib html = "" ->
  Main.processHtmlToMarkdown lib prettier_format (Js.VString html)
    = ([Host.TurndownWalk html], Js.Throw Formatter.invalid_markdown).
Proof.
  intros H E. unfold Main.processHtmlToMarkdown.
  rewrite (convert_string html H), E. reflexivity.
Qed.

(** The run of the pipeline function when the walk emits something. *)
Lemma process_some_markdown (html : string) :
  html <> "" ->
  Converter.rawMarkdown lib html <> "" ->
  Main.processHtmlToMarkdown lib prettier_format (Js.VString html) =
    let rawMarkdown := Converter.rawMarkdown lib html in
    match prettier_format rawMarkdown Formatter.DEFAULT_PRETTIER_OPTIONS with
    | Js.Normal formatted =>
        ([Host.TurndownWalk html; Host.PrettierFormat rawMarkdown],
         Js.Normal formatted)
    | Js.Throw e =>
        ([Host.TurndownWalk html; Host.PrettierFormat rawMarkdown;
          Host.ConsoleError "Prettier formatting failed:" e],
         Js.Normal rawMarkdown)
    end.
Proof.
  intros H E. unfold Main.processHtmlToMarkdown.
  rewrite (convert_string html H). cbn [Js.bind].
  rewrite (FormatMarkdown.formatMarkdown_run prettier_format _ _ E).
  change (Formatter.spread Formatter.DEFAULT_PRETTIER_OPTIONS
            Formatter.no_overrides)
    with Formatter.DEFAULT_PRETTIER_OPTIONS.
  now destruct (prettier_format _ _).
Qed.

Lemma handle_blank (s : string) :
  WhitespaceOnly s ->
  Main.handleConversion lib prettier_format (Js.VString s)
    = ([Host.ShowToast "No HTML content to convert" "error"], Js.Normal tt).
Proof.
  intros W. unfold Main.handleConversion.
  destruct s as [|c r]; [reflexivity|].
  rewrite (nonempty_truthy (String c r)) by discriminate.
  cbn [negb Main.trims_to_nothing].
  apply not_truthy_trim_iff in W. rewrite W. reflexivity.
Qed.

Lemma handle_not_matching (s : string) :
  ~ WhitespaceOnly s -> ~ MatchesHtmlTagPattern s ->
  Main.handleConversion lib prettier_format (Js.VString s)
    = ([Host.ShowToast "Input does not appear to contain valid HTML"
                       "error"],
       Js.Normal tt).
Proof.
  intros W M. unfold Main.handleConversion.
  rewrite (nonempty_truthy s (not_blank_nonempty s W)).
  cbn [negb Main.trims_to_nothing].
  destruct (negb (Js.truthy (Js.VString (Js.trim s)))) eqn:B.
  - apply not_truthy_trim_iff in B. contradiction.
  - rewrite bind_ret.
    destruct (Converter.isValidHtml (Js.VString s)) eqn:V.
    + apply isValidHtml_string in V. contradiction.
    + reflexivity.
Qed.

(** Past the two gates, [handleConversion] runs the pipeline inside its
    [try]. *)
Lemma handle_matching (s : string) :
  MatchesHtmlTagPattern s ->
  Main.handleConversion lib prettier_format (Js.VString s) =
    (Main.setProcessingState true ;;;
     Js.try_finally
       (Js.try_catch
          (markdown <- Main.processHtmlToMarkdown lib prettier_format
                         (Js.VString s) ;;
           Main.setMarkdownOutputValue markdown ;;;
           Main.updateStatus "Converted successfully" "success" ;;;
           Main.showToast "HTML converted to Markdown!" "success")
          (fun error =>
             Js.emit (Host.ConsoleError "Conversion error:" error) ;;;
             Main.updateStatus "Conversion failed" "error" ;;;
             Main.showToast ("Error: " ++ Js.err_message error) "error"))
       (Main.setProcessingState false))%eff.
Proof.
  intros M. pose proof (matching_not_blank s M) as W.
  unfold Main.handleConversion.
  rewrite (nonempty_truthy s (not_blank_nonempty s W)).
  cbn [negb Main.trims_to_nothing].
  destruct (negb (Js.truthy (Js.VString (Js.trim s)))) eqn:B.
  - apply not_truthy_trim_iff in B. contradiction.
  - rewrite bind_ret.
    apply isValidHtml_string in M. rewrite M. reflexivity.
Qed.

Lemma process_trace_starts (s : string) :
  s <> "" ->
  exists rest,
    Js.trace (Main.processHtmlToMarkdown lib prettier_format (Js.VString s))
      = Host.TurndownWalk s :: rest.
Proof.
  intros H. unfold Main.processHtmlToMarkdown.
  rewrite (convert_string s H). cbn [Js.bind].
  destruct (Js.bind _ _) as [t r]. now exists t.
Qed.

Lemma handle_matching_trace (s : string) :
  MatchesHtmlTagPattern s ->
  exists rest,
    Js.trace (Main.handleConversion lib prettier_format (Js.VString s))
      = Host.SetProcessingState true
        :: Host.UpdateStatus "Processing..." ""
        :: Host.TurndownWalk s :: rest.
Proof.
  intros M. rewrite (handle_matching s M).
  destruct (process_trace_starts s
              (not_blank_nonempty s (matching_not_blank s M))) as [rest H].
  destruct (Main.processHtmlToMarkdown lib prettier_format (Js.VString s))
    as [t [markdown | e]]; simpl in H; subst t; simpl; eexists; reflexivity.
Qed.

End WithCollaborators.

(** C2, as stated, fails: a text without any tag does not match the
    pattern, yet the pipeline function walks it and resolves with
    output. *)
Lemma plain_text_is_converted :
  Converter.isValidHtml (Js.VString "not html at all") = false /\
  Converter.convertHtmlToMarkdown sample_library
    (Js.VString "not html at all")
    = ([Host.TurndownWalk "not html at all"], Js.Normal "not html at all") /\
  Main.processHtmlToMarkdown sample_library blank_to_empty_prettier
    (Js.VString "not html at all")
    = ([Host.TurndownWalk "not html at all";
        Host.PrettierFormat "not html at all"],
       Js.Normal "not html at all") /\
  forall prettier_format,
    Js.resolves (Main.processHtmlToMarkdown sample_library prettier_format
                   (Js.VString "not html at all")).
Proof.
  split; [reflexivity|]. split; [reflexivity|]. split; [reflexivity|].
  intros prettier_format.
  rewrite (process_some_markdown sample_library prettier_format
             "not html at all") by discriminate.
  cbv zeta. destruct (prettier_format _ _); eexists; reflexivity.
Qed.

(** C2, amended: for every input that is missing, empty or not a string,
    [convertHtmlToMarkdown] throws the invalid-input error before any walk
    and [processHtmlToMarkdown] rejects with it.  The tag pattern is
    checked by [isValidHtml] in [handleConversion], not by the pipeline
    function: for every string that is blank or does not match,
    [handleConversion] shows an error toast and does nothing else.  Every
    string that matches the pattern passes [isValidHtml], and
    [handleConversion] starts the walk on it. *)
Theorem validation_is_split
  (lib : Turndown.Library) (prettier_format : Formatter.Prettier) :
  (forall v,
     v = Js.VString "" \/ NotAString v ->
     Converter.convertHtmlToMarkdown lib v
       = ([], Js.Throw Converter.invalid_html) /\
     Main.processHtmlToMarkdown lib prettier_format v
       = ([], Js.Throw Converter.invalid_html)) /\
  (forall s,
     WhitespaceOnly s \/ ~ MatchesHtmlTagPattern s ->
     Converter.isValidHtml (Js.VString s) = false /\
     exists message,
       Main.handleConversion lib prettier_format (Js.VString s)
         = ([Host.ShowToast message "error"], Js.Normal tt)) /\
  (forall s,
     MatchesHtmlTagPattern s ->
     Converter.isValidHtml (Js.VString s) = true /\
     exists rest,
       Js.trace (Main.handleConversion lib prettier_format (Js.VString s))
         = Host.SetProcessingState true
           :: Host.UpdateStatus "Processing..." ""
           :: Host.TurndownWalk s :: rest).
Proof.
  split; [|split].
  - intros v H. split.
    + now apply convert_invalid.
    + now apply process_invalid.
  - intros s H.
    assert (N : ~ MatchesHtmlTagPattern s).
    { destruct H as [W | N]; [|exact N].
      intros M. now apply (matching_not_blank s M). }
    split.
    + destruct (Converter.isValidHtml (Js.VString s)) eqn:V; [|reflexivity].
      apply isValidHtml_string in V. contradiction.
    + destruct (Js.all_whitespace s) eqn:B.
      * apply all_whitespace_iff in B. eexists.
        now apply handle_blank.
      * eexists. apply handle_not_matching; [|exact N].
        intros W. apply all_whitespace_iff in W. congruence.
  - intros s M. split.
    + now apply isValidHtml_string.
    + now apply handle_matching_trace.
Qed.

Lemma validation_is_split_witness :
  Main.processHtmlToMarkdown sample_library blank_to_empty_prettier
    Js.VUndefined = ([], Js.Throw Converter.invalid_html) /\
  Converter.isValidHtml (Js.VString "not html at all") = false /\
  Converter.isValidHtml (Js.VString "<b>x</b>") = true.
Proof.
  destruct (validation_is_split sample_library blank_to_empty_prettier)
    as (Hinvalid & Hgate & Hpass).
  split; [|split].
  - apply Hinvalid. right. intros s. discriminate.
  - apply Hgate. right. intros M. apply isValidHtml_string in M.
    discriminate M.
  - apply Hpass. exists "", "", "b"%char, "", "x</b>".
    split; [reflexivity|]. split; [now left|].
    unfold Letter. change (nat_of_ascii "b") with 98. lia.
Defined.

(** C3, as stated, fails: a fragment that holds a script alone passes the
    validation, the walk emits the empty string, the input guard of
    [formatMarkdown] throws, and [processHtmlToMarkdown], which has no
    [catch], rejects. *)
Lemma script_only_rejects :
  Converter.isValidHtml (Js.VString script_only_html) = true /\
  Converter.rawMarkdown sample_library script_only_html = "" /\
  Main.processHtmlToMarkdown sample_library blank_to_empty_prettier
    (Js.VString script_only_html)
    = ([Host.TurndownWalk script_only_html],
       Js.Throw Formatter.invalid_markdown) /\
  forall prettier_format,
    Js.rejects (Main.processHtmlToMarkdown sample_library prettier_format
                  (Js.VString script_only_html)).
Proof.
  split; [reflexivity|]. split; [reflexivity|]. split; [reflexivity|].
  intros prettier_format.
  rewrite (process_empty_markdown sample_library prettier_format
             script_only_html) by (discriminate || reflexivity).
  eexists; reflexivity.
Qed.

(** C3, amended: for every input that passes the validation and for which
    the walk emits a non-empty string, [processHtmlToMarkdown] resolves,
    with the formatted Markdown or, when [prettier.format] fails, with the
    raw Markdown of the walk; the fallback is the one inside
    [formatMarkdown].  When the walk emits the empty string, the input
    guard of [formatMarkdown] rejects and [processHtmlToMarkdown] rejects
    with it; [handleConversion] catches the error and reports it. *)
Theorem processHtmlToMarkdown_outcome
  (lib : Turndown.Library) (prettier_format : Formatter.Prettier)
  (html : string) :
  Converter.isValidHtml (Js.VString html) = true ->
  (Converter.rawMarkdown lib html <> "" ->
   Js.resolves (Main.processHtmlToMarkdown lib prettier_format
                  (Js.VString html)) /\
   (forall formatted,
      prettier_format (Converter.rawMarkdown lib html)
        Formatter.DEFAULT_PRETTIER_OPTIONS = Js.Normal formatted ->
      Js.result (Main.processHtmlToMarkdown lib prettier_format
                   (Js.VString html)) = Js.Normal formatted) /\
   (forall e,
      prettier_format (Converter.rawMarkdown lib html)
        Formatter.DEFAULT_PRETTIER_OPTIONS = Js.Throw e ->
      Js.result (Main.processHtmlToMarkdown lib prettier_format
                   (Js.VString html))
        = Js.Normal (Converter.rawMarkdown lib html))) /\
  (Converter.rawMarkdown lib html = "" ->
   Js.result (Main.processHtmlToMarkdown lib prettier_format
                (Js.VString html))
     = Js.Throw Formatter.invalid_markdown /\
   Main.handleConversion lib prettier_format (Js.VString html)
     = ([Host.SetProcessingState true;
         Host.UpdateStatus "Processing..." "";
         Host.TurndownWalk html;
         Host.ConsoleError "Conversion error:" Formatter.invalid_markdown;
         Host.UpdateStatus "Conversion failed" "error";
         Host.ShowToast
           "Error: Invalid markdown input: expected a non-empty string"
           "error";
         Host.SetProcessingState false],
        Js.Normal tt)).
Proof.
  intros V. apply isValidHtml_string in V.
  pose proof (not_blank_nonempty html (matching_not_blank html V)) as Hne.
  split.
  - intros E.
    rewrite (process_some_markdown lib prettier_format html Hne E).
    cbv zeta.
    destruct (prettier_format _ _) as [formatted | e0].
    + split; [now exists formatted|]. split; [now intros f [= <-]|].
      discriminate.
    + split; [now eexists|]. split; [discriminate | reflexivity].
  - intros E. split.
    + now rewrite (process_empty_markdown lib prettier_format html Hne E).
    + rewrite (handle_matching lib prettier_format html V).
      rewrite (process_empty_markdown lib prettier_format html Hne E).
      reflexivity.
Qed.

Lemma processHtmlToMarkdown_outcome_witness :
  Js.result (Main.processHtmlToMarkdown sample_library failing_prettier
               (Js.VString script_and_paragraph_html))
    = Js.Normal "Hello" /\
  Js.result (Main.processHtmlToMarkdown sample_library failing_prettier
               (Js.VString script_only_html))
    = Js.Throw Formatter.invalid_markdown.
Proof.
  split.
  - apply (proj1 (processHtmlToMarkdown_outcome sample_library
                    failing_prettier script_and_paragraph_html eq_refl))
      with (e := Js.mkError "SyntaxError" "Unexpected token").
    + discriminate.
    + reflexivity.
  - apply (proj2 (processHtmlToMarkdown_outcome sample_library
                    failing_prettier script_only_html eq_refl)).
    reflexivity.
Defined.

End ConversionPipeline.

(* ================================================================== *)
(** * Trimming and the language pattern *)
(* ================================================================== *)

Module PatternFacts.

Import Notions StringFacts.

Lemma trimStart_spec (s : string) :
  exists leading,
    s = leading ++ Js.trimStart s /\ WhitespaceOnly leading /\
    NotStartingWith Whitespace (Js.trimStart s).
Proof.
  induction s as [|c r (l & E & W & N)]; simpl.
  - exists "". repeat split. intros c rest H. discriminate H.
  - destruct (Js.is_whitespace c) eqn:Hc.
    + exists (String c l). simpl. rewrite <- E.
      apply is_whitespace_iff in Hc. repeat split; assumption.
    + exists "". repeat split. intros c' rest [= <- _] Hw.
      apply is_whitespace_iff in Hw. congruence.
Qed.

Lemma trimEnd_spec (s : string) :
  exists trailing,
    s = Js.trimEnd s ++ trailing /\ WhitespaceOnly trailing /\
    NotEndingWith Whitespace (Js.trimEnd s).
Proof.
  induction s as [|c r (t & E & W & N)]; cbn [Js.trimEnd].
  - exists "". repeat split. intros [|x f] c H; discriminate H.
  - destruct (Js.trimEnd r) as [|y u] eqn:Hr.
    + cbn [append] in E. subst t.
      destruct (Js.is_whitespace c) eqn:Hc.
      * exists (String c r). apply is_whitespace_iff in Hc.
        split; [reflexivity|]. split; [split; assumption | exact N].
      * exists r. split; [reflexivity|]. split; [exact W|].
        intros [|x f] c' H; cbn [append] in H.
        -- injection H as <-. intros Hw.
           apply is_whitespace_iff in Hw. congruence.
        -- injection H as _ H. destruct f; discriminate H.
    + exists t. split; [cbn [append] in E |- *; now rewrite <- E|].
      split; [exact W|].
      intros [|x f] c' H; cbn [append] in H.
      * injection H as _ H. discriminate H.
      * injection H as _ H. exact (N f c' H).
Qed.

Lemma trimEnd_keeps_start (s : string) :
  NotStartingWith Whitespace s -> NotStartingWith Whitespace (Js.trimEnd s).
Proof.
  intros N c rest H. destruct s as [|x r]; simpl in H; [discriminate|].
  destruct (Js.trimEnd r).
  - destruct (Js.is_whitespace x); [discriminate|].
    injection H as <- _. now apply (N x r).
  - injection H as <- _. now apply (N x r).
Qed.

(** [trim] removes the white space at the two ends and nothing else. *)
Lemma trim_Trimmed (s : string) : Trimmed s (Js.trim s).
Proof.
  unfold Js.trim.
  destruct (trimStart_spec s) as (l & El & Wl & Nl).
  destruct (trimEnd_spec (Js.trimStart s)) as (t & Et & Wt & Nt).
  exists l, t. split; [|repeat split; auto using trimEnd_keeps_start].
  now rewrite <- Et.
Qed.

Lemma is_word_iff (c : ascii) : Js.is_word c = true <-> Word c.
Proof.
  unfold Js.is_word, Js.is_digit, Js.is_letter, Js.in_range, Js.code.
  unfold Word, Letter.
  rewrite !orb_true_iff, !andb_true_iff, !Nat.leb_le, Nat.eqb_eq. tauto.
Qed.

Lemma take_word_spec (s : string) :
  exists rest,
    s = Converter.take_word s ++ rest /\
    Forall_chars Word (Converter.take_word s) /\
    NotStartingWith Word rest.
Proof.
  induction s as [|c r (rest & E & W & N)]; simpl.
  - exists "". repeat split. intros c rest H. discriminate H.
  - destruct (Js.is_word c) eqn:Hc.
    + exists rest. simpl. rewrite <- E.
      apply is_word_iff in Hc. repeat split; assumption.
    + exists (String c r). repeat split.
      intros c' rest' [= <- _] Hw. apply is_word_iff in Hw. congruence.
Qed.

Lemma literal_then_word_some (p s w : string) :
  Converter.literal_then_word p s = Some w ->
  exists rest,
    s = p ++ w ++ rest /\ w <> "" /\ Forall_chars Word w /\
    NotStartingWith Word rest.
Proof.
  unfold Converter.literal_then_word.
  destruct (Js.strip_prefix p s) as [r|] eqn:Hp; [|discriminate].
  apply strip_prefix_iff in Hp.
  destruct (take_word_spec r) as (rest & E & W & N).
  destruct (Converter.take_word r) as [|x u] eqn:Hw; [discriminate|].
  intros [= <-]. exists rest. rewrite <- E.
  repeat split; [assumption | discriminate | apply W | apply W | assumption].
Qed.

Lemma literal_then_word_none (p s : string) :
  Converter.literal_then_word p s = None ->
  forall c rest, s = p ++ String c rest -> ~ Word c.
Proof.
  unfold Converter.literal_then_word. intros H c rest -> Hw.
  rewrite strip_prefix_app in H. simpl in H.
  apply is_word_iff in Hw. rewrite Hw in H. discriminate H.
Qed.

Lemma language_at_some (s w : string) :
  Converter.language_at s = Some w -> MatchesLanguageAt s w.
Proof.
  unfold Converter.language_at, MatchesLanguageAt, LanguagePrefix.
  destruct (Converter.literal_then_word "language-" s) as [w1|] eqn:H1.
  - intros [= <-]. apply literal_then_word_some in H1.
    destruct H1 as (rest & H). exists "language-", rest. tauto.
  - intros H2. apply literal_then_word_some in H2.
    destruct H2 as (rest & H). exists "lang-", rest. tauto.
Qed.

Lemma language_at_none (s : string) :
  Converter.language_at s = None -> ~ LanguageStartsAt s.
Proof.
  unfold Converter.language_at.
  destruct (Converter.literal_then_word "language-" s) eqn:H1;
    [discriminate|].
  intros H2 (p & c & rest & [-> | ->] & E & W).
  - exact (literal_then_word_none _ _ H1 c rest E W).
  - exact (literal_then_word_none _ _ H2 c rest E W).
Qed.

Lemma language_match_some (cls w : string) :
  Converter.language_match cls = Some w -> FirstLanguageMatch cls w.
Proof.
  revert w. induction cls as [|x r IH]; intros w;
    cbn [Converter.language_match];
    destruct (Converter.language_at _) as [w0|] eqn:Hat.
  - intros [= <-]. exists "", "". split; [reflexivity|]. split.
    + now apply language_at_some.
    + intros [|y sk] later H Hl; [|discriminate H].
      simpl in H. congruence.
  - discriminate.
  - intros [= <-]. exists "", (String x r). split; [reflexivity|]. split.
    + now apply language_at_some.
    + intros [|y sk] later H Hl; [|discriminate H].
      simpl in H. congruence.
  - intros H. destruct (IH w H) as (before & here & E & M & L).
    exists (String x before), here. split; [simpl; now rewrite E|].
    split; [exact M|].
    intros [|y sk] later Hb Hl; simpl in Hb.
    + subst later. simpl. rewrite <- E. now apply language_at_none.
    + injection Hb as _ Hb. exact (L sk later Hb Hl).
Qed.

Lemma language_match_none (cls : string) :
  Converter.language_match cls = None -> NoLanguageMatch cls.
Proof.
  induction cls as [|x r IH]; cbn [Converter.language_match];
    destruct (Converter.language_at _) as [w0|] eqn:Hat;
    try discriminate; intros H [|y before] here E; simpl in E.
  - subst here. now apply language_at_none.
  - discriminate E.
  - subst here. now apply language_at_none.
  - injection E as _ E. exact (IH H before here E).
Qed.

(** The result of the executable match is the info string of the class. *)
Lemma language_match_InfoString (cls : string) :
  InfoString cls
    match Converter.language_match cls with
    | Some w => w
    | None => ""
    end.
Proof.
  destruct (Converter.language_match cls) as [w|] eqn:H.
  - left. now apply language_match_some.
  - right. split; [now apply language_match_none | reflexivity].
Qed.

End PatternFacts.

(* ================================================================== *)
(** * The code block rule *)
(* ================================================================== *)

Module CodeBlockRule.

Import Notions StringFacts PatternFacts Samples.

Lemma extractLanguage_InfoString (node : Dom.node) :
  InfoString
    (Dom.className
       match Dom.querySelector "code" node with
       | Some c => c
       | None => node
       end)
    (Converter.extractLanguageFromCode node).
Proof.
  unfold Converter.extractLanguageFromCode. rewrite or_else_empty.
  apply language_match_InfoString.
Qed.

(** The replacement of the rule, for any node. *)
Lemma replacement_fenced
  (node : Dom.node) (content : string) (opts : Turndown.Options) :
  exists info body,
    Turndown.replacement Converter.preserveCodeBlocks content node opts
      = fencedBlock "```" info body /\
    Trimmed
      (Dom.textContent
         match Dom.querySelector "code" node with
         | Some c => c
         | None => node
         end) body /\
    InfoString
      (Dom.className
         match Dom.querySelector "code" node with
         | Some c => c
         | None => node
         end) info.
Proof.
  exists (Converter.extractLanguageFromCode node).
  exists (Js.trim
            (Dom.textContent
               match Dom.querySelector "code" node with
               | Some c => c
               | None => node
               end)).
  split; [|split].
  - cbn [Turndown.replacement Converter.preserveCodeBlocks].
    unfold fencedBlock. now destruct (Dom.querySelector "code" node).
  - apply trim_Trimmed.
  - apply extractLanguage_InfoString.
Qed.

(** A node named [pre] is not named [CODE]. *)
Lemma pre_is_not_code (node : Dom.node) :
  Turndown.tagOf node = "pre" -> (Dom.nodeName node =? "CODE") = false.
Proof.
  unfold Turndown.tagOf. intros H.
  destruct (String.eqb_spec (Dom.nodeName node) "CODE") as [E|]; [|reflexivity].
  rewrite E in H. discriminate H.
Qed.

(** In the configured service the rule of a [pre] element is
    [preserveCodeBlocks]: the inline rule, registered after it, does not
    take [pre] elements. *)
Lemma forNode_pre
  (lib : Turndown.Library) (ancestors : list Dom.node) (node : Dom.node) :
  Turndown.tagOf node = "pre" ->
  Turndown.forNode lib (Converter.turndownService lib) ancestors node
    = Converter.preserveCodeBlocks.
Proof.
  intros H. unfold Turndown.forNode.
  cbn [Converter.turndownService Converter.createTurndownService
       Turndown.addRule Turndown.remove Turndown.new Turndown.rules
       Turndown.options Turndown.removed List.filter fst String.eqb
       Ascii.eqb Bool.eqb negb Turndown.findRule Turndown.filter
       Converter.inlineCode Converter.preserveCodeBlocks Turndown.matches].
  unfold Converter.inlineCode_filter.
  rewrite (pre_is_not_code node H). cbn [andb].
  unfold Turndown.mem. rewrite H. reflexivity.
Qed.

(** C4: the rule emits, for every [pre] element, a fenced block: the
    configured fence followed at once by the info string, then the body,
    then the fence.  The body is the text of the nested [code] element when
    there is one, of the [pre] element otherwise, without the white space
    at its two ends.  The info string is the capture of the first match of
    the language pattern in the class of that element, or the empty string
    when the pattern does not match. *)
Theorem preserveCodeBlocks_emits_fenced_block
  (lib : Turndown.Library) (ancestors : list Dom.node) (node : Dom.node)
  (content : string) :
  Turndown.tagOf node = "pre" ->
  Turndown.forNode lib (Converter.turndownService lib) ancestors node
    = Converter.preserveCodeBlocks /\
  exists info body,
    Turndown.replacement Converter.preserveCodeBlocks content node
      (Turndown.options (Converter.turndownService lib))
      = fencedBlock
          (Turndown.fence (Turndown.options (Converter.turndownService lib)))
          info body /\
    Trimmed
      (Dom.textContent
         match Dom.querySelector "code" node with
         | Some codeElement => codeElement
         | None => node
         end) body /\
    InfoString
      (Dom.className
         match Dom.querySelector "code" node with
         | Some codeElement => codeElement
         | None => node
         end) info.
Proof.
  intros H. split; [now apply forNode_pre|].
  apply replacement_fenced.
Qed.

Lemma preserveCodeBlocks_emits_fenced_block_witness :
  Turndown.forNode sample_library (Converter.turndownService sample_library)
    [root [pre_python_node]] pre_python_node
    = Converter.preserveCodeBlocks /\
  Turndown.replacement Converter.preserveCodeBlocks "" pre_python_node
    Converter.turndownOptions
    = fencedBlock "```" "python"
        ("print(" ++ Js.dquote ++ "hi" ++ Js.dquote ++ ")").
Proof.
  split.
  - apply (preserveCodeBlocks_emits_fenced_block sample_library
             [root [pre_python_node]] pre_python_node "").
    reflexivity.
  - reflexivity.
Defined.

(** C10: when the [pre] element has no [code] element below it, the info
    string is taken from the class of the [pre] element itself; the
    fragment with class [language-js] and text [x] becomes a fenced block
    with the info string [js]. *)
Theorem pre_without_code_uses_own_class :
  (forall (node : Dom.node) (content : string) (opts : Turndown.Options),
     Dom.querySelector "code" node = None ->
     exists info body,
       Turndown.replacement Converter.preserveCodeBlocks content node opts
         = fencedBlock "```" info body /\
       Trimmed (Dom.textContent node) body /\
       InfoString (Dom.className node) info) /\
  Dom.querySelector "code" pre_js_node = None /\
  Dom.className pre_js_node = "language-js" /\
  Turndown.replacement Converter.preserveCodeBlocks "x" pre_js_node
    Converter.turndownOptions
    = fencedBlock "```" "js" "x".
Proof.
  split; [|repeat split].
  intros node content opts H.
  destruct (replacement_fenced node content opts) as (info & body & E).
  rewrite H in E. now exists info, body.
Qed.

Lemma pre_without_code_uses_own_class_witness :
  exists info body,
    Turndown.replacement Converter.preserveCodeBlocks "x" pre_js_node
      Converter.turndownOptions = fencedBlock "```" info body /\
    Trimmed (Dom.textContent pre_js_node) body /\
    InfoString (Dom.className pre_js_node) info.
Proof.
  apply (proj1 pre_without_code_uses_own_class pre_js_node "x"
           Converter.turndownOptions).
  reflexivity.
Defined.

(** The two fragments, from the input string to the final Markdown. *)
Example pre_python_end_to_end :
  Converter.rawMarkdown sample_library pre_python_html
    = "```python" ++ Js.nl
      ++ "print(" ++ Js.dquote ++ "hi" ++ Js.dquote ++ ")" ++ Js.nl
      ++ "```".
Proof. reflexivity. Qed.

Example pre_js_end_to_end :
  Converter.rawMarkdown sample_library pre_js_html
    = "```js" ++ Js.nl ++ "x" ++ Js.nl ++ "```".
Proof. reflexivity. Qed.

End CodeBlockRule.

(* ================================================================== *)
(** * Removed tags *)
(* ================================================================== *)

Module RemovedTags.

Import Notions StringFacts Samples.





















(** The fragment with a script before a paragraph, from the input string
    to the final Markdown: the paragraph alone is left. *)
Example script_and_paragraph_end_to_end :
  Converter.rawMarkdown sample_library script_and_paragraph_html = "Hello".
Proof. reflexivity. Qed.

End RemovedTags.

(* ================================================================== *)
(** * Reading the clipboard *)
(* ================================================================== *)

Module ClipboardSourceFacts.

Import Notions StringFacts MoreSamples HandlerNotions.

Lemma offers_html_iff (item : ClipboardSource.ClipboardItem) :
  existsb (String.eqb "text/html") (ClipboardSource.types item) = true
  <-> OffersHtml item.
Proof.
  unfold OffersHtml. rewrite existsb_exists. split.
  - intros (x & Hin & E). apply String.eqb_eq in E. now subst x.
  - intros H. exists "text/html". split; [exact H | apply String.eqb_refl].
Qed.

(** The guard [htmlContent && htmlContent.trim()] holds for the strings
    that are not blank. *)
Lemma not_blank_guard (s : string) :
  Js.truthy (Js.VString s) && Js.truthy (Js.VString (Js.trim s)) = true
  <-> ~ WhitespaceOnly s.
Proof.
  rewrite andb_true_iff. split.
  - intros [_ H] W. apply not_truthy_trim_iff in W.
    rewrite H in W. discriminate W.
  - intros N. split.
    + destruct s; [|reflexivity]. exfalso. apply N. exact I.
    + destruct (Js.truthy (Js.VString (Js.trim s))) eqn:E; [reflexivity|].
      exfalso. apply N. apply not_truthy_trim_iff. now rewrite E.
Qed.

(** X1: [getHtmlFromClipboardEvent] returns a string exactly when the
    event has clipboard data whose HTML payload is not blank, and the
    string is that payload as it is, not trimmed. *)
Theorem getHtml_some_iff
  (event : ClipboardSource.ClipboardEvent) (html : string) :
  ClipboardSource.getHtmlFromClipboardEvent event = Some html <->
  exists data,
    ClipboardSource.clipboardData event = Some data /\
    ClipboardSource.getData "text/html" data = html /\
    ~ WhitespaceOnly html.
Proof.
  unfold ClipboardSource.getHtmlFromClipboardEvent.
  destruct (ClipboardSource.clipboardData event) as [data|].
  - cbv zeta.
    destruct (Js.truthy _ && Js.truthy _) eqn:G.
    + apply not_blank_guard in G. split.
      * intros [= <-]. now exists data.
      * intros (d & [= <-] & <- & _). reflexivity.
    + split; [discriminate|].
      intros (d & [= <-] & <- & N). apply not_blank_guard in N.
      rewrite N in G. discriminate G.
  - split; [discriminate|]. intros (d & H & _). discriminate H.
Qed.

Lemma getHtml_some_iff_witness :
  ClipboardSource.getHtmlFromClipboardEvent paste_on_body
    = Some "<p>Hello</p>".
Proof.
  apply (getHtml_some_iff paste_on_body "<p>Hello</p>").
  exists rich_clipboard. split; [reflexivity|]. split; [reflexivity|].
  intros W. apply all_whitespace_iff in W. discriminate W.
Defined.

Lemma scanItems_without_html
  (items : list ClipboardSource.ClipboardItem) (index : nat) :
  (forall other, In other items -> ~ OffersHtml other) ->
  ClipboardSource.scanItems index items = ([], Js.Normal None).
Proof.
  revert index. induction items as [|item rest IH]; intros index H;
    cbn [ClipboardSource.scanItems]; [reflexivity|].
  destruct (existsb _ _) eqn:E.
  - apply offers_html_iff in E. now destruct (H item (or_introl eq_refl)).
  - apply IH. intros other Hin. apply H. now right.
Qed.

(** The loop stops at the first item that offers HTML; what comes after
    it plays no part. *)
Lemma scanItems_first
  (before rest : list ClipboardSource.ClipboardItem)
  (item : ClipboardSource.ClipboardItem) (index : nat) :
  (forall other, In other before -> ~ OffersHtml other) ->
  OffersHtml item ->
  ClipboardSource.scanItems index (before ++ item :: rest)
    = ClipboardSource.scanItems (index + length before) [item].
Proof.
  revert index. induction before as [|b before IH]; intros index H O.
  - cbn [app length ClipboardSource.scanItems]. rewrite Nat.add_0_r.
    apply offers_html_iff in O. now rewrite O.
  - cbn [length]. rewrite <- Nat.add_succ_comm.
    rewrite <- (IH (S index));
      [|intros other Hin; apply H; now right | exact O].
    cbn [app ClipboardSource.scanItems].
    destruct (existsb _ (ClipboardSource.types b)) eqn:E; [|reflexivity].
    apply offers_html_iff in E. now destruct (H b (or_introl eq_refl)).
Qed.

Lemma first_offer (items : list ClipboardSource.ClipboardItem) :
  (forall other, In other items -> ~ OffersHtml other) \/
  exists before item rest,
    items = (before ++ item :: rest)%list /\
    (forall other, In other before -> ~ OffersHtml other) /\
    OffersHtml item.
Proof.
  induction items as [|x items [IH | (before & item & rest & E & N & O)]].
  - left. intros other [].
  - destruct (existsb (String.eqb "text/html") (ClipboardSource.types x))
      eqn:Ex.
    + right. exists [], x, items. apply offers_html_iff in Ex.
      split; [reflexivity|]. split; [intros other []|exact Ex].
    + left. intros other [<- | Hin]; [|now apply IH].
      intros O. apply offers_html_iff in O. congruence.
  - destruct (existsb (String.eqb "text/html") (ClipboardSource.types x))
      eqn:Ex.
    + right. exists [], x, items. apply offers_html_iff in Ex.
      split; [reflexivity|]. split; [intros other []|exact Ex].
    + right. exists (x :: before), item, rest. subst items.
      split; [reflexivity|]. split; [|exact O].
      intros other [<- | Hin]; [|now apply N].
      intros O'. apply offers_html_iff in O'. congruence.
Qed.

(** The run of [readHtmlFromClipboard] when the first item that offers
    HTML stands after [before]. *)
Lemma read_run_first
  (before rest : list ClipboardSource.ClipboardItem)
  (item : ClipboardSource.ClipboardItem) :
  (forall other, In other before -> ~ OffersHtml other) ->
  OffersHtml item ->
  ClipboardSource.readHtmlFromClipboard
    (Js.Normal (before ++ item :: rest)%list) =
    match ClipboardSource.getType item "text/html" with
    | Js.Normal blob =>
        match ClipboardSource.text blob with
        | Js.Normal html =>
            ([ClipboardSource.ClipboardRead;
              ClipboardSource.GetType (length before) "text/html";
              ClipboardSource.BlobText (length before)],
             Js.Normal (Some html))
        | Js.Throw e =>
            ([ClipboardSource.ClipboardRead;
              ClipboardSource.GetType (length before) "text/html";
              ClipboardSource.BlobText (length before);
              ClipboardSource.ConsoleError
                "Failed to read HTML from clipboard:" e],
             Js.Normal None)
        end
    | Js.Throw e =>
        ([ClipboardSource.ClipboardRead;
          ClipboardSource.GetType (length before) "text/html";
          ClipboardSource.ConsoleError
            "Failed to read HTML from clipboard:" e],
         Js.Normal None)
    end.
Proof.
  intros N O. unfold ClipboardSource.readHtmlFromClipboard.
  cbn [Js.emit Js.lift Js.bind app].
  rewrite (scanItems_first before rest item 0 N O).
  cbn [ClipboardSource.scanItems Nat.add].
  apply offers_html_iff in O. rewrite O.
  destruct (ClipboardSource.getType item "text/html") as [blob|e];
    [|reflexivity].
  cbn. destruct (ClipboardSource.text blob); reflexivity.
Qed.

Lemma read_run_without_html (items : list ClipboardSource.ClipboardItem) :
  (forall other, In other items -> ~ OffersHtml other) ->
  ClipboardSource.readHtmlFromClipboard (Js.Normal items)
    = ([ClipboardSource.ClipboardRead], Js.Normal None).
Proof.
  intros N. unfold ClipboardSource.readHtmlFromClipboard.
  cbn [Js.emit Js.lift Js.bind app].
  now rewrite (scanItems_without_html items 0 N).
Qed.

(** X2: [readHtmlFromClipboard] never rejects, and it resolves with a
    string exactly when the clipboard could be read and the first item
    that lists the HTML format hands out a blob whose text can be read;
    the string is that text. *)
Theorem readHtmlFromClipboard_result
  (read : Js.completion (list ClipboardSource.ClipboardItem)) :
  Js.resolves (ClipboardSource.readHtmlFromClipboard read) /\
  forall html,
    Js.result (ClipboardSource.readHtmlFromClipboard read)
      = Js.Normal (Some html) <->
    exists before item rest blob,
      read = Js.Normal (before ++ item :: rest)%list /\
      (forall other, In other before -> ~ OffersHtml other) /\
      OffersHtml item /\
      ClipboardSource.getType item "text/html" = Js.Normal blob /\
      ClipboardSource.text blob = Js.Normal html.
Proof.
  destruct read as [items | e].
  - destruct (first_offer items) as [N | (before & item & rest & -> & N & O)].
    + rewrite (read_run_without_html items N). split; [now eexists|].
      intros html. split; [discriminate|].
      intros (b & it & r & blob & [= ->] & _ & O & _).
      destruct (N it); [apply in_elt | exact O].
    + pose proof (read_run_first before rest item N O) as R.
      split.
      * rewrite R.
        destruct (ClipboardSource.getType item "text/html") as [blob|];
          [destruct (ClipboardSource.text blob)|]; now eexists.
      * intros html. split.
        -- rewrite R.
           destruct (ClipboardSource.getType item "text/html") as [blob|]
             eqn:G; [destruct (ClipboardSource.text blob) eqn:T|];
             try discriminate.
           intros [= <-]. now exists before, item, rest, blob.
        -- intros (b & it & r & blob & [= E] & N' & O' & G & T).
           rewrite E, (read_run_first b r it N' O'), G, T. reflexivity.
  - split; [now eexists|]. intros html. split; [discriminate|].
    intros (b & it & r & blob & H & _). discriminate H.
Qed.

Lemma readHtmlFromClipboard_result_witness :
  Js.result
    (ClipboardSource.readHtmlFromClipboard
       (Js.Normal [image_item; html_item "<b>x</b>"; broken_item]))
    = Js.Normal (Some "<b>x</b>").
Proof.
  apply (readHtmlFromClipboard_result
           (Js.Normal [image_item; html_item "<b>x</b>"; broken_item])).
  exists [image_item], (html_item "<b>x</b>"), [broken_item].
  eexists. split; [reflexivity|]. split.
  - intros other [<- | []]. unfold OffersHtml. simpl.
    intros [H | []]. discriminate H.
  - split; [right; left; reflexivity|]. split; reflexivity.
Defined.

(** X3: only the first item that lists the HTML format is ever asked for
    its payload; when that item fails, the result is [null] whatever the
    later items offer; and when no item lists the format, none is
    asked. *)
Theorem readHtmlFromClipboard_asks_one_item
  (items : list ClipboardSource.ClipboardItem) :
  ((forall other, In other items -> ~ OffersHtml other) ->
   asked (Js.trace (ClipboardSource.readHtmlFromClipboard
                      (Js.Normal items))) = [] /\
   Js.result (ClipboardSource.readHtmlFromClipboard (Js.Normal items))
     = Js.Normal None) /\
  (forall before item rest,
     items = (before ++ item :: rest)%list ->
     (forall other, In other before -> ~ OffersHtml other) ->
     OffersHtml item ->
     asked (Js.trace (ClipboardSource.readHtmlFromClipboard
                        (Js.Normal items))) = [length before] /\
     ((exists e, ClipboardSource.getType item "text/html" = Js.Throw e) \/
      (exists blob e,
         ClipboardSource.getType item "text/html" = Js.Normal blob /\
         ClipboardSource.text blob = Js.Throw e) ->
      Js.result (ClipboardSource.readHtmlFromClipboard (Js.Normal items))
        = Js.Normal None)).
Proof.
  split.
  - intros N. now rewrite (read_run_without_html items N).
  - intros before item rest -> N O.
    rewrite (read_run_first before rest item N O).
    destruct (ClipboardSource.getType item "text/html") as [blob|e] eqn:G;
      [destruct (ClipboardSource.text blob) as [html|e] eqn:T|];
      (split; [reflexivity|]).
    + intros [[e H] | (b & e & [= <-] & H)]; [discriminate H|].
      rewrite T in H. discriminate H.
    + reflexivity.
    + reflexivity.
Qed.

Lemma readHtmlFromClipboard_asks_one_item_witness :
  asked (Js.trace
           (ClipboardSource.readHtmlFromClipboard
              (Js.Normal [image_item; broken_item; html_item "<b>x</b>"])))
    = [1] /\
  Js.result
    (ClipboardSource.readHtmlFromClipboard
       (Js.Normal [image_item; broken_item; html_item "<b>x</b>"]))
    = Js.Normal None.
Proof.
  assert (N : forall other,
             In other [image_item] -> ~ OffersHtml other).
  { intros other [<- | []]. unfold OffersHtml. simpl.
    intros [H | []]. discriminate H. }
  assert (O : OffersHtml broken_item) by (left; reflexivity).
  destruct (proj2 (readHtmlFromClipboard_asks_one_item
                     [image_item; broken_item; html_item "<b>x</b>"])
              [image_item] broken_item [html_item "<b>x</b>"]
              eq_refl N O) as [A R].
  split; [exact A|]. apply R. left. eexists. reflexivity.
Defined.

End ClipboardSourceFacts.

(* ================================================================== *)
(** * The validity test of the formatter *)
(* ================================================================== *)

Module FormatterCheckFacts.

Import Notions MoreSamples.

Lemma value_cases (v : Js.value) :
  (v = Js.VString "" \/ NotAString v) \/
  exists s, v = Js.VString s /\ s <> "".
Proof.
  destruct v as [| |b|n|s|]; try (left; right; intros s; discriminate).
  destruct s as [|c r]; [left; now left|].
  right. exists (String c r). split; [reflexivity | discriminate].
Qed.

Lemma guard_refuses (v : Js.value) :
  v = Js.VString "" \/ NotAString v ->
  negb (Js.truthy v) || negb (Js.typeof v =? "string") = true.
Proof.
  intros [-> | H]; [reflexivity|].
  destruct v; simpl; rewrite ?orb_true_r; try reflexivity.
  now destruct (H s).
Qed.

(** X4: [isValidMarkdown] never rejects; for a missing, empty or
    non-string input it answers [false] without calling Prettier; for a
    non-empty string it answers [true] exactly when [prettier.format]
    accepts the string. *)
Theorem isValidMarkdown_answers
  (prettier_format : FormatterCheck.PrettierApi) (markdown : Js.value) :
  exists answer,
    Js.result (FormatterCheck.isValidMarkdown prettier_format markdown)
      = Js.Normal answer /\
    (answer = true <->
     exists s formatted,
       markdown = Js.VString s /\ s <> "" /\
       prettier_format s FormatterCheck.parserOnly = Js.Normal formatted) /\
    (markdown = Js.VString "" \/ NotAString markdown ->
     FormatterCheck.isValidMarkdown prettier_format markdown
       = ([], Js.Normal false)).
Proof.
  unfold FormatterCheck.isValidMarkdown.
  destruct (value_cases markdown) as [Inv | (s & -> & Hs)].
  - rewrite (guard_refuses markdown Inv). exists false.
    split; [reflexivity|]. split; [|reflexivity].
    split; [discriminate|]. intros (s & f & -> & N & _).
    destruct Inv as [[= E] | Inv]; [contradiction | now destruct (Inv s)].
  - rewrite (FormatMarkdown.guard_passes s Hs).
    cbn [Converter.string_of].
    assert (Valid : Js.VString s = Js.VString "" \/ NotAString (Js.VString s)
                    -> False).
    { intros [[= E] | N]; [contradiction | now destruct (N s)]. }
    destruct (prettier_format s FormatterCheck.parserOnly)
      as [formatted | e] eqn:P.
    + exists true. split; [reflexivity|]. split.
      * split; [|reflexivity]. intros _. now exists s, formatted.
      * intros H. now destruct (Valid H).
    + exists false. split; [reflexivity|]. split.
      * split; [discriminate|]. intros (s' & f & [= <-] & _ & H).
        rewrite P in H. discriminate H.
      * intros H. now destruct (Valid H).
Qed.

Lemma isValidMarkdown_answers_witness :
  FormatterCheck.isValidMarkdown accepting_api Js.VUndefined
    = ([], Js.Normal false).
Proof.
  destruct (isValidMarkdown_answers accepting_api Js.VUndefined)
    as (answer & _ & _ & H).
  apply H. right. intros s. discriminate.
Defined.

End FormatterCheckFacts.

(* ================================================================== *)
(** * More on the converter *)
(* ================================================================== *)

Module ConverterFacts.

Import Notions StringFacts Validation PatternFacts Samples.

(** X5: an input that [isValidHtml] accepts is a string on which
    [convertHtmlToMarkdown] does not throw: the gate of the handlers is at
    least as strict as the guard of the converter. *)
Theorem accepted_input_is_converted
  (lib : Turndown.Library) (html : Js.value) :
  Converter.isValidHtml html = true ->
  exists s,
    html = Js.VString s /\
    Converter.convertHtmlToMarkdown lib html
      = ([Host.TurndownWalk s], Js.Normal (Converter.rawMarkdown lib s)).
Proof.
  intros V. destruct html as [| |b|n|s|];
    try (unfold Converter.isValidHtml in V; simpl in V;
         rewrite ?orb_true_r in V; discriminate V).
  exists s. split; [reflexivity|].
  apply ConversionPipeline.convert_string.
  apply isValidHtml_string in V.
  apply ConversionPipeline.not_blank_nonempty.
  now apply matching_not_blank.
Qed.

Lemma accepted_input_is_converted_witness :
  exists s,
    Js.VString "<b>x</b>" = Js.VString s /\
    Converter.convertHtmlToMarkdown sample_library (Js.VString "<b>x</b>")
      = ([Host.TurndownWalk s],
         Js.Normal (Converter.rawMarkdown sample_library s)).
Proof.
  apply (accepted_input_is_converted sample_library (Js.VString "<b>x</b>")).
  reflexivity.
Defined.

(** X6: [isValidHtml] looks for a tag anywhere: text put before or after
    an accepted string does not make it rejected. *)
Theorem isValidHtml_in_context (before s after : string) :
  Converter.isValidHtml (Js.VString s) = true ->
  Converter.isValidHtml (Js.VString (before ++ s ++ after)) = true.
Proof.
  rewrite !isValidHtml_string.
  intros (b & sl & c & m & a & -> & Hsl & L).
  exists (before ++ b), sl, c, m, (a ++ after).
  split; [|split; assumption].
  repeat first [rewrite app_assoc | progress cbn [append]]. reflexivity.
Qed.

Lemma isValidHtml_in_context_witness :
  Converter.isValidHtml
    (Js.VString ("Dear all, " ++ "<b>x</b>" ++ " Regards")) = true.
Proof.
  apply (isValidHtml_in_context "Dear all, " "<b>x</b>" " Regards").
  reflexivity.
Defined.

Lemma matches_at_starts (s w : string) :
  MatchesLanguageAt s w -> LanguageStartsAt s.
Proof.
  intros (p & rest & P & -> & N & W & _).
  destruct w as [|c w]; [now destruct N|].
  exists p, c, (w ++ rest). split; [exact P|]. split; [reflexivity|].
  apply W.
Qed.

Lemma first_match_words (cls w : string) :
  FirstLanguageMatch cls w -> w <> "" /\ Forall_chars Word w.
Proof.
  intros (before & here & _ & (p & rest & _ & _ & N & W & _) & _).
  now split.
Qed.

(** X7: the language [extractLanguageFromCode] returns is made of
    letters, digits and underscores only, so it cannot break the fence
    line; and it is empty exactly when the pattern matches nowhere in the
    class of the element. *)
Theorem extractLanguage_is_a_word (node : Dom.node) :
  Forall_chars Word (Converter.extractLanguageFromCode node) /\
  (Converter.extractLanguageFromCode node = "" <->
   NoLanguageMatch
     (Dom.className
        match Dom.querySelector "code" node with
        | Some codeElement => codeElement
        | None => node
        end)).
Proof.
  unfold Converter.extractLanguageFromCode. rewrite or_else_empty.
  set (cls := Dom.className _).
  destruct (Converter.language_match cls) as [w|] eqn:M.
  - apply language_match_some in M.
    destruct (first_match_words cls w M) as [N W].
    split; [exact W|]. split; [intros E; now destruct N|].
    intros No. destruct M as (before & here & E & At & _).
    now destruct (No before here E (matches_at_starts here w At)).
  - apply language_match_none in M. split; [exact I|].
    split; [intros _; exact M | reflexivity].
Qed.

Lemma extractLanguage_is_a_word_witness :
  Converter.extractLanguageFromCode
    (Dom.Element "pre" [("class", "highlight")] [Dom.Text "x"]) = "".
Proof.
  apply (extractLanguage_is_a_word
           (Dom.Element "pre" [("class", "highlight")] [Dom.Text "x"])).
  apply language_match_none. reflexivity.
Defined.

End ConverterFacts.

(* ================================================================== *)
(** * The toast and its timer *)
(* ================================================================== *)

Module ToastFacts.

Import Notions StringFacts MoreSamples HandlerNotions.

(** What [showToast] leaves behind on a page that keeps the invariant:
    one pending timer, the new one. *)
Lemma showToast_timers
  (message type : string) (duration : nat) (s : Ui.state) :
  TimerInvariant s ->
  Ui.pendingTimers (Ui.showToast message type duration s)
    = [(Ui.nextTimerId s, Ui.clock s + duration)] /\
  Ui.toastTimeout (Ui.showToast message type duration s)
    = Some (Ui.nextTimerId s) /\
  Ui.nextTimerId (Ui.showToast message type duration s)
    = S (Ui.nextTimerId s) /\
  Ui.clock (Ui.showToast message type duration s) = Ui.clock s.
Proof.
  intros [Hn [E | (id & due & E & T & Hid)]]; unfold Ui.showToast.
  - destruct (Ui.toastTimeout s) as [id|]; [destruct (negb (Nat.eqb id 0))|];
      cbn; rewrite ?E; cbn; repeat split; reflexivity.
  - rewrite T. destruct (Nat.eqb_spec id 0) as [Z|_]; [lia|].
    cbn. rewrite E. cbn. rewrite Nat.eqb_refl. cbn.
    repeat split; reflexivity.
Qed.

Lemma showToast_keeps_invariant
  (message type : string) (duration : nat) (s : Ui.state) :
  TimerInvariant s -> TimerInvariant (Ui.showToast message type duration s).
Proof.
  intros I.
  destruct (showToast_timers message type duration s I) as (P & T & N & _).
  destruct I as [Hn _]. split; [rewrite N; lia|].
  right. exists (Ui.nextTimerId s), (Ui.clock s + duration).
  rewrite P, T, N. repeat split; lia.
Qed.

Lemma elapse_keeps_invariant (duration : nat) (s : Ui.state) :
  TimerInvariant s -> TimerInvariant (Ui.elapse duration s).
Proof.
  intros [Hn [E | (id & due & E & T & Hid)]]; unfold Ui.elapse;
    rewrite E; cbn [List.filter snd].
  - cbn. split; [exact Hn | now left].
  - destruct (Nat.leb due (Ui.clock s + duration)); cbn.
    + split; [exact Hn | now left].
    + split; [exact Hn|]. right. now exists id, due.
Qed.

Lemma apply_keeps_invariant (c : Page.call) (s : Ui.state) :
  TimerInvariant s -> TimerInvariant (Page.apply c s).
Proof.
  intros I. destruct c as [e| | | | |]; try exact I.
  destruct e as [| | |message kind| |isProcessing| | | | | | | |];
    try exact I.
  - now apply showToast_keeps_invariant.
  - destruct isProcessing; exact I.
Qed.

(** X8: whatever the handlers do to the page and however time passes, at
    most one timer is pending, and it is the one whose id [toastTimeout]
    holds: no earlier toast leaves a timer behind. *)
Theorem one_toast_timer (steps : list step) (s : Ui.state) :
  TimerInvariant s -> TimerInvariant (play steps s).
Proof.
  revert s. induction steps as [|st steps IH]; intros s I; [exact I|].
  cbn [play fold_left]. apply IH.
  destruct st as [c | duration]; cbn [play_step].
  - now apply apply_keeps_invariant.
  - now apply elapse_keeps_invariant.
Qed.

Lemma blank_page_invariant : TimerInvariant blank_page.
Proof. split; [cbn; lia | now left]. Defined.

Lemma one_toast_timer_witness :
  TimerInvariant
    (play [Call (Page.Core (Host.ShowToast "Input cleared" ""));
           Wait 1000;
           Call (Page.Core (Host.ShowToast "Output cleared" ""))]
       blank_page).
Proof.
  apply (one_toast_timer
           [Call (Page.Core (Host.ShowToast "Input cleared" ""));
            Wait 1000;
            Call (Page.Core (Host.ShowToast "Output cleared" ""))]
           blank_page).
  exact blank_page_invariant.
Defined.

Lemma not_visible_when_hidden (s : Ui.state) :
  Ui.toast_className s = "toast" -> ~ ToastVisible s.
Proof. intros E [rest H]. rewrite E in H. discriminate H. Qed.



End ToastFacts.

(* ================================================================== *)
(** * The conversion handler and the page *)
(* ================================================================== *)

Module ConversionHandlerFacts.

Import Notions StringFacts Validation MoreSamples HandlerNotions Samples.

Lemma core_lift (t : list Host.event) : core (map Page.Core t) = t.
Proof.
  unfold core. induction t as [|e t IH]; [reflexivity|].
  cbn [map flat_map app]. now rewrite IH.
Qed.

Lemma run_app (t1 t2 : list Page.call) (page : Ui.state) :
  Page.run (t1 ++ t2) page = Page.run t2 (Page.run t1 page).
Proof. unfold Page.run. apply fold_left_app. Qed.

Section WithCollaborators.

Variable lib : Turndown.Library.
Variable prettier_format : Formatter.Prettier.

(** The pipeline function touches neither the page nor the toast, and
    walks its input once. *)
Lemma process_is_quiet (s : string) :
  s <> "" ->
  toasts (Js.trace (Main.processHtmlToMarkdown lib prettier_format
                      (Js.VString s))) = [] /\
  outputs (Js.trace (Main.processHtmlToMarkdown lib prettier_format
                       (Js.VString s))) = [] /\
  walks (Js.trace (Main.processHtmlToMarkdown lib prettier_format
                     (Js.VString s))) = [s] /\
  forall page,
    Page.run
      (map Page.Core
         (Js.trace (Main.processHtmlToMarkdown lib prettier_format
                      (Js.VString s)))) page = page.
Proof.
  intros H.
  destruct (String.eqb_spec (Converter.rawMarkdown lib s) "") as [E | E].
  - rewrite (ConversionPipeline.process_empty_markdown
               lib prettier_format s H E).
    repeat split.
  - rewrite (ConversionPipeline.process_some_markdown
               lib prettier_format s H E).
    cbv zeta. destruct (prettier_format _ _); repeat split.
Qed.

(** The run of [handleConversion] past its two gates, by the way the
    pipeline ends. *)
Lemma handle_matching_run (s : string) :
  MatchesHtmlTagPattern s ->
  Main.handleConversion lib prettier_format (Js.VString s) =
    match Main.processHtmlToMarkdown lib prettier_format (Js.VString s) with
    | (t, Js.Normal markdown) =>
        ((Host.SetProcessingState true
          :: Host.UpdateStatus "Processing..." ""
          :: t
          ++ [Host.SetMarkdownOutputValue markdown;
              Host.UpdateStatus "Converted successfully" "success";
              Host.ShowToast "HTML converted to Markdown!" "success";
              Host.SetProcessingState false])%list,
         Js.Normal tt)
    | (t, Js.Throw error) =>
        ((Host.SetProcessingState true
          :: Host.UpdateStatus "Processing..." ""
          :: t
          ++ [Host.ConsoleError "Conversion error:" error;
              Host.UpdateStatus "Conversion failed" "error";
              Host.ShowToast ("Error: " ++ Js.err_message error) "error";
              Host.SetProcessingState false])%list,
         Js.Normal tt)
    end.
Proof.
  intros M. rewrite (ConversionPipeline.handle_matching lib _ s M).
  destruct (Main.processHtmlToMarkdown lib prettier_format (Js.VString s))
    as [t [markdown | error]]; cbn;
    rewrite <- ?List.app_assoc; reflexivity.
Qed.

(** The three ways [handleConversion] can go on a string. *)
Lemma handle_cases (s : string) :
  (WhitespaceOnly s /\
   Main.handleConversion lib prettier_format (Js.VString s)
     = ([Host.ShowToast "No HTML content to convert" "error"],
        Js.Normal tt)) \/
  (~ WhitespaceOnly s /\ ~ MatchesHtmlTagPattern s /\
   Main.handleConversion lib prettier_format (Js.VString s)
     = ([Host.ShowToast "Input does not appear to contain valid HTML"
                        "error"],
        Js.Normal tt)) \/
  (~ WhitespaceOnly s /\ MatchesHtmlTagPattern s).
Proof.
  destruct (Js.all_whitespace s) eqn:B.
  - apply all_whitespace_iff in B. left. split; [exact B|].
    now apply ConversionPipeline.handle_blank.
  - assert (N : ~ WhitespaceOnly s).
    { intros W. apply all_whitespace_iff in W. congruence. }
    right. destruct (Converter.htmlTagPattern_test s) eqn:T.
    + apply htmlTagPattern_test_iff in T. now right.
    + left. assert (M : ~ MatchesHtmlTagPattern s).
      { intros M. apply htmlTagPattern_test_iff in M. congruence. }
      split; [exact N|]. split; [exact M|].
      now apply ConversionPipeline.handle_not_matching.
Qed.

(** On a string [handleConversion] never rejects and shows one toast;
    the toast about missing content is for blank strings only. *)
Lemma handle_one_toast (s : string) :
  Js.result (Main.handleConversion lib prettier_format (Js.VString s))
    = Js.Normal tt /\
  exists message kind,
    toasts (Js.trace (Main.handleConversion lib prettier_format
                        (Js.VString s))) = [(message, kind)] /\
    (message = "No HTML content to convert" -> WhitespaceOnly s).
Proof.
  destruct (handle_cases s) as [[W E] | [(N & M & E) | [N M]]].
  - rewrite E. split; [reflexivity|]. eexists _, _. split; [reflexivity|].
    intros _. exact W.
  - rewrite E. split; [reflexivity|]. eexists _, _. split; [reflexivity|].
    discriminate.
  - rewrite (handle_matching_run s M).
    destruct (process_is_quiet s (ConversionPipeline.not_blank_nonempty s N))
      as (T & _).
    destruct (Main.processHtmlToMarkdown lib prettier_format (Js.VString s))
      as [t [markdown | error]]; cbn [Js.trace fst] in T;
      (split; [reflexivity|]); eexists _, _;
      (split; [cbn [Js.trace fst toasts flat_map app];
               unfold toasts in T |- *; rewrite flat_map_app, T; reflexivity
              |discriminate]).
Qed.

End WithCollaborators.

(** X12: [handleConversion] never rejects on a string, on a missing
    value, or on an object that has a [trim] method, as a String object
    has; every such call shows exactly one toast, and for the object it is
    an error toast and nothing else happens.  Any other value, such as a
    number or an object without [trim], makes it reject before anything is
    shown. *)
Theorem handleConversion_one_toast
  (lib : Turndown.Library) (prettier_format : Formatter.Prettier)
  (html : Js.value) :
  ((exists s, html = Js.VString s) \/ Js.truthy html = false \/
   (exists trimmed, html = Js.VObject (Some trimmed)) ->
   Js.result (Main.handleConversion lib prettier_format html)
     = Js.Normal tt /\
   exists message kind,
     toasts (Js.trace (Main.handleConversion lib prettier_format html))
       = [(message, kind)]) /\
  (forall trimmed, html = Js.VObject (Some trimmed) ->
   Js.trace (Main.handleConversion lib prettier_format html)
     = [Host.ShowToast
          (if Js.truthy (Js.VString trimmed)
           then "Input does not appear to contain valid HTML"
           else "No HTML content to convert")
          "error"]) /\
  (NotAString html -> Js.truthy html = true ->
   (forall trimmed, html <> Js.VObject (Some trimmed)) ->
   Js.rejects (Main.handleConversion lib prettier_format html) /\
   Js.trace (Main.handleConversion lib prettier_format html) = []).
Proof.
  split; [|split].
  - intros [[s ->] | [F | [trimmed ->]]].
    + destruct (handle_one_toast lib prettier_format s)
        as (R & message & kind & T & _).
      split; [exact R|]. now exists message, kind.
    + unfold Main.handleConversion. rewrite F. cbn.
      split; [reflexivity|]. now eexists _, _.
    + unfold Main.handleConversion, Main.trims_to_nothing, Js.truthy.
      destruct (trimmed =? ""); cbn;
        (split; [reflexivity|]); now eexists _, _.
  - intros trimmed ->.
    unfold Main.handleConversion, Main.trims_to_nothing, Js.truthy.
    destruct (trimmed =? ""); reflexivity.
  - intros N T O. unfold Main.handleConversion. rewrite T. cbn [negb].
    destruct html as [| |b|n|s|[trimmed|]]; try discriminate T;
      try (split; [eexists|]; reflexivity).
    + now destruct (N s).
    + now destruct (O trimmed).
Qed.

Lemma handleConversion_one_toast_witness :
  Js.result (Main.handleConversion sample_library failing_prettier
               (Js.VString script_only_html)) = Js.Normal tt /\
  Js.result (Main.handleConversion sample_library failing_prettier
               string_object) = Js.Normal tt /\
  Js.trace (Main.handleConversion sample_library failing_prettier
              string_object)
    = [Host.ShowToast "Input does not appear to contain valid HTML"
         "error"] /\
  Js.rejects (Main.handleConversion sample_library failing_prettier
                (Js.VNumber 5)) /\
  Js.rejects (Main.handleConversion sample_library failing_prettier
                (Js.VObject None)).
Proof.
  destruct (handleConversion_one_toast sample_library failing_prettier
              (Js.VString script_only_html)) as (H & _ & _).
  destruct (handleConversion_one_toast sample_library failing_prettier
              string_object) as (S1 & S2 & _).
  destruct (handleConversion_one_toast sample_library failing_prettier
              (Js.VNumber 5)) as (_ & _ & H').
  destruct (handleConversion_one_toast sample_library failing_prettier
              (Js.VObject None)) as (_ & _ & H'').
  split; [|split; [|split; [|split]]].
  - apply H. left. now eexists.
  - apply S1. right. right. now eexists.
  - exact (S2 "<p>Hello</p>" eq_refl).
  - apply H'; [intros s; discriminate | reflexivity | intros t; discriminate].
  - apply H''; [intros s; discriminate | reflexivity
               | intros t; discriminate].
Defined.

(** X13: when the input passes the two gates, the convert button is
    enabled and shows [Convert] again at the end, however the conversion
    went; when the input is refused, the page is left as it was, but for
    the error toast. *)
Theorem handleConversion_resets_the_button
  (lib : Turndown.Library) (prettier_format : Formatter.Prettier)
  (s : string) (page : Ui.state) :
  (MatchesHtmlTagPattern s ->
   Ui.convertBtn_disabled
     (Page.run
        (map Page.Core
           (Js.trace (Main.handleConversion lib prettier_format
                        (Js.VString s)))) page) = false /\
   Ui.convertBtn_innerHTML
     (Page.run
        (map Page.Core
           (Js.trace (Main.handleConversion lib prettier_format
                        (Js.VString s)))) page) = Ui.ConvertContent) /\
  (~ MatchesHtmlTagPattern s ->
   exists message,
     Page.run
       (map Page.Core
          (Js.trace (Main.handleConversion lib prettier_format
                       (Js.VString s)))) page
     = Ui.showToast message "error" 3000 page).
Proof.
  split.
  - intros M.
    pose proof (matching_not_blank s M) as N.
    rewrite (handle_matching_run lib prettier_format s M).
    destruct (process_is_quiet lib prettier_format s
                (ConversionPipeline.not_blank_nonempty s N))
      as (_ & _ & _ & Q).
    destruct (Main.processHtmlToMarkdown lib prettier_format (Js.VString s))
      as [t [markdown | error]]; cbn [Js.trace fst] in Q |- *;
      cbn [map]; rewrite map_app;
      change (?a :: ?b :: (?x ++ ?y))%list
        with ([a; b] ++ (x ++ y))%list;
      rewrite !run_app, Q; split; reflexivity.
  - intros M.
    destruct (handle_cases lib prettier_format s)
      as [[W E] | [(N & _ & E) | [_ M']]]; [| |contradiction];
      rewrite E; eexists; reflexivity.
Qed.

Lemma handleConversion_resets_the_button_witness :
  Ui.convertBtn_disabled
    (Page.run
       (map Page.Core
          (Js.trace (Main.handleConversion sample_library failing_prettier
                       (Js.VString script_only_html)))) blank_page) = false.
Proof.
  apply (handleConversion_resets_the_button sample_library failing_prettier
           script_only_html blank_page).
  apply isValidHtml_string. reflexivity.
Defined.

End ConversionHandlerFacts.

(* ================================================================== *)
(** * The output field and the copy button *)
(* ================================================================== *)

Module OutputFacts.

Import Notions StringFacts Validation MoreSamples HandlerNotions Samples.

(** [showToast] writes the toast and the timers, nothing else. *)
Lemma showToast_fields
  (message type : string) (duration : nat) (s : Ui.state) :
  Ui.htmlInput_value (Ui.showToast message type duration s)
    = Ui.htmlInput_value s /\
  Ui.markdownOutput_value (Ui.showToast message type duration s)
    = Ui.markdownOutput_value s /\
  Ui.copyBtn_disabled (Ui.showToast message type duration s)
    = Ui.copyBtn_disabled s /\
  Ui.status_textContent (Ui.showToast message type duration s)
    = Ui.status_textContent s /\
  Ui.status_className (Ui.showToast message type duration s)
    = Ui.status_className s /\
  Ui.toast_textContent (Ui.showToast message type duration s) = message.
Proof.
  unfold Ui.showToast.
  destruct (Ui.toastTimeout s) as [id|]; [destruct (negb (Nat.eqb id 0))|];
    repeat split.
Qed.

(** The convert button is all that [setProcessingState(false)] writes. *)
Lemma setConvertButton_fields (isProcessing : bool) (s : Ui.state) :
  Ui.markdownOutput_value (Ui.setConvertButton isProcessing s)
    = Ui.markdownOutput_value s /\
  Ui.copyBtn_disabled (Ui.setConvertButton isProcessing s)
    = Ui.copyBtn_disabled s /\
  Ui.status_textContent (Ui.setConvertButton isProcessing s)
    = Ui.status_textContent s /\
  Ui.toast_textContent (Ui.setConvertButton isProcessing s)
    = Ui.toast_textContent s.
Proof. destruct isProcessing; repeat split. Qed.

(** The test [!value || value.trim() === ""] holds for the blank
    strings. *)
Lemma copy_guard_iff (value : string) :
  negb (Js.truthy (Js.VString value)) || (Js.trim value =? "") = true
  <-> WhitespaceOnly value.
Proof.
  rewrite orb_true_iff, String.eqb_eq, trim_empty_iff. split.
  - intros [H | H]; [|exact H].
    destruct value; [exact I | discriminate H].
  - intros H. now right.
Qed.

(** The test [!markdown || !markdown.trim()] is the same test. *)
Lemma copy_click_guard (markdown : string) :
  negb (Js.truthy (Js.VString markdown))
  || negb (Js.truthy (Js.VString (Js.trim markdown)))
  = negb (Js.truthy (Js.VString markdown)) || (Js.trim markdown =? "").
Proof. cbn [Js.truthy]. now rewrite !negb_involutive. Qed.

(** X14: past the two gates, the output field is written only when the
    pipeline resolves: then it holds the Markdown, the copy button is
    disabled exactly when that Markdown is blank, and the status tells the
    success; when the pipeline rejects, the output field and the copy
    button keep what they had, and the status and the toast tell the
    error. *)
Theorem output_written_on_success_only
  (lib : Turndown.Library) (prettier_format : Formatter.Prettier)
  (s : string) (page : Ui.state) :
  MatchesHtmlTagPattern s ->
  (forall markdown,
     Js.result (Main.processHtmlToMarkdown lib prettier_format
                  (Js.VString s)) = Js.Normal markdown ->
     Ui.markdownOutput_value
       (Page.run
          (map Page.Core
             (Js.trace (Main.handleConversion lib prettier_format
                          (Js.VString s)))) page) = markdown /\
     (Ui.copyBtn_disabled
        (Page.run
           (map Page.Core
              (Js.trace (Main.handleConversion lib prettier_format
                           (Js.VString s)))) page) = true
      <-> WhitespaceOnly markdown) /\
     Ui.status_textContent
       (Page.run
          (map Page.Core
             (Js.trace (Main.handleConversion lib prettier_format
                          (Js.VString s)))) page)
       = "Converted successfully") /\
  (forall error,
     Js.result (Main.processHtmlToMarkdown lib prettier_format
                  (Js.VString s)) = Js.Throw error ->
     Ui.markdownOutput_value
       (Page.run
          (map Page.Core
             (Js.trace (Main.handleConversion lib prettier_format
                          (Js.VString s)))) page)
       = Ui.markdownOutput_value page /\
     Ui.copyBtn_disabled
       (Page.run
          (map Page.Core
             (Js.trace (Main.handleConversion lib prettier_format
                          (Js.VString s)))) page)
       = Ui.copyBtn_disabled page /\
     Ui.status_textContent
       (Page.run
          (map Page.Core
             (Js.trace (Main.handleConversion lib prettier_format
                          (Js.VString s)))) page)
       = "Conversion failed" /\
     Ui.toast_textContent
       (Page.run
          (map Page.Core
             (Js.trace (Main.handleConversion lib prettier_format
                          (Js.VString s)))) page)
       = "Error: " ++ Js.err_message error).
Proof.
  intros M. pose proof (matching_not_blank s M) as N.
  rewrite (ConversionHandlerFacts.handle_matching_run
             lib prettier_format s M).
  destruct (ConversionHandlerFacts.process_is_quiet lib prettier_format s
              (ConversionPipeline.not_blank_nonempty s N))
    as (_ & _ & _ & Q).
  destruct (Main.processHtmlToMarkdown lib prettier_format (Js.VString s))
    as [t [md | err]]; cbn [Js.trace Js.result fst snd] in Q |- *;
    cbn [map]; rewrite map_app;
    change (?a :: ?b :: (?x ++ ?y))%list with ([a; b] ++ (x ++ y))%list;
    rewrite !ConversionHandlerFacts.run_app, Q;
    cbn [map Page.run fold_left Page.apply];
    (split; [intros markdown E | intros error E]);
    try discriminate E; injection E as <-;
    match goal with
    | |- context [Ui.setConvertButton false ?x] =>
        destruct (setConvertButton_fields false x) as (O1 & C1 & S1 & T1)
    end;
    rewrite ?O1, ?C1, ?S1, ?T1;
    match goal with
    | |- context [Ui.showToast ?m ?k ?d ?x] =>
        destruct (showToast_fields m k d x) as (_ & O & C & S & _ & T)
    end;
    rewrite ?O, ?C, ?S, ?T.
  - split; [reflexivity|].
    split; [exact (copy_guard_iff md) | reflexivity].
  - split; [reflexivity|]. split; [reflexivity|].
    split; reflexivity.
Qed.

Lemma output_written_on_success_only_witness :
  Ui.markdownOutput_value
    (Page.run
       (map Page.Core
          (Js.trace (Main.handleConversion sample_library failing_prettier
                       (Js.VString script_only_html))))
       (Ui.setMarkdownOutputValue "# Old" blank_page)) = "# Old".
Proof.
  apply (proj2 (output_written_on_success_only sample_library
                  failing_prettier script_only_html
                  (Ui.setMarkdownOutputValue "# Old" blank_page)
                  ltac:(apply isValidHtml_string; reflexivity))
           Formatter.invalid_markdown).
  reflexivity.
Defined.

End OutputFacts.

(* ================================================================== *)
(** * The copy handler *)
(* ================================================================== *)

Module CopyHandlerFacts.

Import Notions StringFacts MoreSamples HandlerNotions Samples.

Lemma toasts_app (a b : list Host.event) :
  toasts (a ++ b) = (toasts a ++ toasts b)%list.
Proof. apply flat_map_app. Qed.

Lemma core_app (a b : list Page.call) :
  core (a ++ b) = (core a ++ core b)%list.
Proof. apply flat_map_app. Qed.

Lemma fallbackCopy_no_toast (browser : Clipboard.Browser) (text : string) :
  toasts (Js.trace (Clipboard.fallbackCopy browser text)) = [].
Proof.
  unfold Clipboard.fallbackCopy.
  destruct (Clipboard.createElement browser) as [[]|],
           (Clipboard.appendChild browser) as [[]|],
           (Clipboard.select browser) as [[]|],
           (Clipboard.execCommand browser "copy") as [ok|],
           (Clipboard.removeChild browser) as [[]|];
    reflexivity.
Qed.

(** [copyToClipboard] resolves, shows no toast itself, and starts with the
    write to the clipboard. *)
Lemma copy_summary (browser : Clipboard.Browser) (text : string) :
  exists success rest,
    Clipboard.copyToClipboard browser text
      = (Host.ClipboardWriteText text :: rest, Js.Normal success) /\
    toasts rest = [] /\
    (success = false <->
     (exists e, Clipboard.writeText browser text = Js.Throw e) /\
     Js.rejects (Clipboard.fallbackCopy browser text)).
Proof.
  rewrite CopyToClipboard.copyToClipboard_run.
  pose proof (fallbackCopy_no_toast browser text) as Q.
  pose proof (CopyToClipboard.fallbackCopy_result browser text) as R.
  unfold Js.rejects.
  destruct (Clipboard.writeText browser text) as [[]|e].
  - exists true, []. split; [reflexivity|]. split; [reflexivity|].
    split; [discriminate|]. intros [[e H] _]. discriminate H.
  - cbv zeta.
    destruct (Clipboard.fallbackCopy browser text) as [t [b|fe]];
      cbn [Js.trace Js.result fst snd] in *.
    + exists true. eexists. split; [reflexivity|].
      split; [exact Q|]. split; [discriminate|].
      intros [_ [fe H]]. discriminate H.
    + exists false. eexists. split; [reflexivity|]. split.
      * cbn [toasts flat_map app]. fold (toasts (t ++ [Host.ConsoleError
          "Fallback copy failed:" fe])). rewrite toasts_app, Q. reflexivity.
      * split; [|reflexivity]. intros _. split; eauto.
Qed.

Lemma click_guard_iff (markdown : string) :
  negb (Js.truthy (Js.VString markdown))
  || negb (Js.truthy (Js.VString (Js.trim markdown))) = true
  <-> WhitespaceOnly markdown.
Proof.
  rewrite OutputFacts.copy_click_guard. apply OutputFacts.copy_guard_iff.
Qed.

Lemma carriage_return_is_whitespace (c : ascii) :
  Nat.eqb (Js.code c) 13 = true -> Js.is_whitespace c = true.
Proof.
  unfold Js.is_whitespace, Js.in_range. intros H.
  apply Nat.eqb_eq in H. now rewrite H.
Qed.

Lemma line_feed_is_whitespace (c : ascii) :
  Nat.eqb (Js.code c) 10 = true -> Js.is_whitespace c = true.
Proof.
  unfold Js.is_whitespace, Js.in_range. intros H.
  apply Nat.eqb_eq in H. now rewrite H.
Qed.

(** Reading a field back keeps it blank or not blank: the line breaks
    that are rewritten are white space before and after. *)
Lemma all_whitespace_normalizeNewlines (s : string) :
  Js.all_whitespace (Ui.normalizeNewlines s) = Js.all_whitespace s.
Proof.
  enough (Q : Js.all_whitespace (Ui.normalizeNewlines s)
              = Js.all_whitespace s /\
              forall c,
                Js.all_whitespace (Ui.normalizeNewlines (String c s))
                = Js.all_whitespace (String c s)) by exact (proj1 Q).
  induction s as [|c' r [IH1 IH2]].
  - split; [reflexivity|]. intros c.
    cbn [Ui.normalizeNewlines Js.all_whitespace].
    destruct (Nat.eqb (Js.code c) 13) eqn:C; [|reflexivity].
    cbn [Js.all_whitespace]. now rewrite (carriage_return_is_whitespace c C).
  - split; [apply IH2|]. intros c.
    cbn [Ui.normalizeNewlines].
    destruct (Nat.eqb (Js.code c) 13) eqn:C.
    + cbn [Js.all_whitespace].
      rewrite (carriage_return_is_whitespace c C).
      change (Js.is_whitespace (ascii_of_nat 10)) with true.
      destruct (Nat.eqb (Js.code c') 10) eqn:L.
      * rewrite (line_feed_is_whitespace c' L), IH1. reflexivity.
      * specialize (IH2 c'). cbn [Js.all_whitespace] in IH2.
        cbn [andb]. exact IH2.
    + cbn [Js.all_whitespace]. f_equal. apply IH2.
Qed.

Lemma read_back_blank_iff (s : string) :
  WhitespaceOnly (Ui.normalizeNewlines s) <-> WhitespaceOnly s.
Proof.
  now rewrite <- !all_whitespace_iff, all_whitespace_normalizeNewlines.
Qed.

(** A string without a carriage return is read back as it was written. *)
Lemma normalizeNewlines_without_cr (s : string) :
  Forall_chars (fun c => Js.code c <> 13) s -> Ui.normalizeNewlines s = s.
Proof.
  induction s as [|c r IH]; [reflexivity|].
  cbn [Forall_chars]. intros [C R].
  cbn [Ui.normalizeNewlines].
  apply Nat.eqb_neq in C. rewrite C. now rewrite (IH R).
Qed.

Lemma click_blank (browser : Clipboard.Browser) (page : Ui.state) :
  WhitespaceOnly (Ui.markdownOutput_value page) ->
  Page.handleCopyClick browser page
    = ([Page.Core (Host.ShowToast "No Markdown to copy" "error")],
       Js.Normal tt).
Proof.
  intros W. unfold Page.handleCopyClick. cbv zeta.
  apply (proj2 (read_back_blank_iff _)) in W.
  fold (Ui.getMarkdownOutputValue page) in W.
  apply click_guard_iff in W. now rewrite W.
Qed.

Lemma click_not_blank (browser : Clipboard.Browser) (page : Ui.state) :
  ~ WhitespaceOnly (Ui.markdownOutput_value page) ->
  exists success rest,
    Clipboard.copyToClipboard browser (Ui.getMarkdownOutputValue page)
      = (Host.ClipboardWriteText (Ui.getMarkdownOutputValue page) :: rest,
         Js.Normal success) /\
    toasts rest = [] /\
    (success = false <->
     (exists e,
        Clipboard.writeText browser (Ui.getMarkdownOutputValue page)
          = Js.Throw e) /\
     Js.rejects
       (Clipboard.fallbackCopy browser (Ui.getMarkdownOutputValue page))) /\
    Page.handleCopyClick browser page
      = ((Page.Core
            (Host.ClipboardWriteText (Ui.getMarkdownOutputValue page))
          :: map Page.Core rest
          ++ [Page.Core
                (if success
                 then Host.ShowToast "Markdown copied to clipboard!"
                        "success"
                 else Host.ShowToast "Failed to copy to clipboard"
                        "error")])%list,
         Js.Normal tt).
Proof.
  intros N.
  destruct (copy_summary browser (Ui.getMarkdownOutputValue page))
    as (success & rest & E & Q & F).
  exists success, rest. split; [exact E|]. split; [exact Q|].
  split; [exact F|].
  unfold Page.handleCopyClick. cbv zeta.
  destruct (negb _ || negb _) eqn:G.
  - apply click_guard_iff in G. unfold Ui.getMarkdownOutputValue in G.
    apply (proj1 (read_back_blank_iff _)) in G. contradiction.
  - rewrite E. destruct success; reflexivity.
Qed.

(** X10: the copy button and the copy handler agree: after
    [setMarkdownOutputValue] the button is disabled exactly when the value
    is blank, and a click on that page is refused with a toast in exactly
    that case; otherwise the click starts by writing to the clipboard the
    value as the field reads it back, that is with a carriage return and
    line feed, or a carriage return alone, turned into a line feed; this
    is the value itself when it has no carriage return. *)
Theorem copy_button_agrees_with_handler
  (browser : Clipboard.Browser) (value : string) (page : Ui.state) :
  (Ui.copyBtn_disabled (Ui.setMarkdownOutputValue value page) = true
   <-> WhitespaceOnly value) /\
  (Ui.copyBtn_disabled (Ui.setMarkdownOutputValue value page) = true ->
   Page.handleCopyClick browser (Ui.setMarkdownOutputValue value page)
     = ([Page.Core (Host.ShowToast "No Markdown to copy" "error")],
        Js.Normal tt)) /\
  (Ui.copyBtn_disabled (Ui.setMarkdownOutputValue value page) = false ->
   exists rest,
     Js.trace
       (Page.handleCopyClick browser (Ui.setMarkdownOutputValue value page))
     = Page.Core (Host.ClipboardWriteText (Ui.normalizeNewlines value))
       :: rest) /\
  (Forall_chars (fun c => Js.code c <> 13) value ->
   Ui.normalizeNewlines value = value).
Proof.
  assert (B : Ui.copyBtn_disabled (Ui.setMarkdownOutputValue value page)
              = true <-> WhitespaceOnly value)
    by exact (OutputFacts.copy_guard_iff value).
  split; [exact B|]. split; [|split].
  - intros D. apply click_blank. apply B. exact D.
  - intros D.
    assert (N : ~ WhitespaceOnly
                  (Ui.markdownOutput_value
                     (Ui.setMarkdownOutputValue value page))).
    { intros W. apply B in W. congruence. }
    destruct (click_not_blank browser _ N) as (success & rest & _ & _ & _ & E).
    rewrite E. eexists. reflexivity.
  - apply normalizeNewlines_without_cr.
Qed.

Lemma copy_button_agrees_with_handler_witness :
  Page.handleCopyClick modern_browser
    (Ui.setMarkdownOutputValue " " blank_page)
    = ([Page.Core (Host.ShowToast "No Markdown to copy" "error")],
       Js.Normal tt) /\
  (exists rest,
     Js.trace
       (Page.handleCopyClick modern_browser
          (Ui.setMarkdownOutputValue mixed_line_breaks blank_page))
     = Page.Core
         (Host.ClipboardWriteText
            ("a" ++ Js.nl ++ "b" ++ Js.nl ++ "c" ++ Js.nl ++ "d"))
       :: rest) /\
  Ui.normalizeNewlines "# Title" = "# Title".
Proof.
  split; [|split].
  - apply (copy_button_agrees_with_handler modern_browser " " blank_page).
    reflexivity.
  - apply (copy_button_agrees_with_handler modern_browser mixed_line_breaks
             blank_page).
    reflexivity.
  - apply (copy_button_agrees_with_handler modern_browser "# Title"
             blank_page).
    cbn [Forall_chars append]. repeat split; discriminate.
Defined.

(** X11: [handleCopyClick] never rejects.  On a blank output it shows one
    error toast and does not touch the clipboard.  Otherwise it tries to
    copy the output, as the field reads it back, and then shows exactly
    one toast, the failure one exactly when the write to the clipboard
    failed and the fallback threw as well. *)
Theorem handleCopyClick_reports
  (browser : Clipboard.Browser) (page : Ui.state) :
  Js.result (Page.handleCopyClick browser page) = Js.Normal tt /\
  (WhitespaceOnly (Ui.markdownOutput_value page) ->
   Js.trace (Page.handleCopyClick browser page)
     = [Page.Core (Host.ShowToast "No Markdown to copy" "error")]) /\
  (~ WhitespaceOnly (Ui.markdownOutput_value page) ->
   exists message kind,
     toasts (core (Js.trace (Page.handleCopyClick browser page)))
       = [(message, kind)] /\
     ((message, kind) = ("Failed to copy to clipboard", "error") \/
      (message, kind) = ("Markdown copied to clipboard!", "success")) /\
     ((message, kind) = ("Failed to copy to clipboard", "error") <->
      (exists e,
         Clipboard.writeText browser (Ui.getMarkdownOutputValue page)
           = Js.Throw e) /\
      Js.rejects
        (Clipboard.fallbackCopy browser (Ui.getMarkdownOutputValue page)))).
Proof.
  destruct (Js.all_whitespace (Ui.markdownOutput_value page)) eqn:B.
  - apply all_whitespace_iff in B. rewrite (click_blank browser page B).
    split; [reflexivity|]. split; [reflexivity|]. intros N.
    contradiction.
  - assert (N : ~ WhitespaceOnly (Ui.markdownOutput_value page)).
    { intros W. apply all_whitespace_iff in W. congruence. }
    destruct (click_not_blank browser page N)
      as (success & rest & _ & Q & F & E).
    rewrite E. split; [reflexivity|]. split; [intros W; contradiction|].
    intros _. cbn [Js.trace fst].
    change (?a :: ?x ++ ?y)%list with ([a] ++ x ++ y)%list.
    rewrite !core_app, ConversionHandlerFacts.core_lift, !toasts_app, Q.
    destruct success.
    + eexists _, _. split; [reflexivity|]. split; [now right|].
      split; [discriminate|]. intros H. apply F in H. discriminate H.
    + eexists _, _. split; [reflexivity|]. split; [now left|].
      split; [intros _; now apply F | reflexivity].
Qed.

Lemma handleCopyClick_reports_witness :
  toasts (core (Js.trace
                  (Page.handleCopyClick locked_browser
                     (Ui.setMarkdownOutputValue "# Title" blank_page))))
    = [("Failed to copy to clipboard", "error")].
Proof.
  destruct (handleCopyClick_reports locked_browser
              (Ui.setMarkdownOutputValue "# Title" blank_page))
    as (_ & _ & H).
  destruct H as (message & kind & T & _ & F).
  - intros W. apply all_whitespace_iff in W. discriminate W.
  - rewrite T. f_equal. apply F. split; eexists; reflexivity.
Defined.

End CopyHandlerFacts.

(* ================================================================== *)
(** * The paste handler *)
(* ================================================================== *)

Module PasteFacts.

Import Notions StringFacts Validation MoreSamples HandlerNotions Samples.

Lemma given_nonempty (s : string) : s <> "" -> Page.given (Some s) = true.
Proof. apply ConversionPipeline.nonempty_truthy. Qed.

Lemma getHtml_usable
  (event : ClipboardSource.ClipboardEvent)
  (data : ClipboardSource.DataTransfer) :
  ClipboardSource.clipboardData event = Some data ->
  ~ WhitespaceOnly (ClipboardSource.getData "text/html" data) ->
  ClipboardSource.getHtmlFromClipboardEvent event
    = Some (ClipboardSource.getData "text/html" data).
Proof.
  intros D N. unfold ClipboardSource.getHtmlFromClipboardEvent.
  rewrite D. cbv zeta.
  apply ClipboardSourceFacts.not_blank_guard in N. now rewrite N.
Qed.

Lemma getHtml_unusable (event : ClipboardSource.ClipboardEvent) :
  (forall data,
     ClipboardSource.clipboardData event = Some data ->
     WhitespaceOnly (ClipboardSource.getData "text/html" data)) ->
  ClipboardSource.getHtmlFromClipboardEvent event = None.
Proof.
  intros H. unfold ClipboardSource.getHtmlFromClipboardEvent.
  destruct (ClipboardSource.clipboardData event) as [data|]; [|reflexivity].
  cbv zeta. destruct (Js.truthy _ && Js.truthy _) eqn:G; [|reflexivity].
  apply ClipboardSourceFacts.not_blank_guard in G.
  now destruct (G (H data eq_refl)).
Qed.

Section WithCollaborators.

Variable lib : Turndown.Library.
Variable prettier_format : Formatter.Prettier.

(** A paste that leads to a conversion: the default action is cancelled,
    the input field is written, the conversion runs. *)
Lemma paste_then_convert (s : string) :
  (Js.emit Page.PreventDefault ;;;
   Js.emit (Page.SetHtmlInputValue s) ;;;
   Page.lift (Main.handleConversion lib prettier_format (Js.VString s)))%eff
  = (Page.PreventDefault
     :: Page.SetHtmlInputValue s
     :: map Page.Core
          (Js.trace (Main.handleConversion lib prettier_format
                       (Js.VString s))),
     Js.result (Main.handleConversion lib prettier_format (Js.VString s))).
Proof.
  destruct (Main.handleConversion lib prettier_format (Js.VString s))
    as [t [[]|e]]; reflexivity.
Qed.

Lemma paste_html
  (event : ClipboardSource.ClipboardEvent)
  (data : ClipboardSource.DataTransfer) :
  ClipboardSource.target event <> "html-input" ->
  ClipboardSource.clipboardData event = Some data ->
  ~ WhitespaceOnly (ClipboardSource.getData "text/html" data) ->
  Page.handleDocumentPaste lib prettier_format event
    = (Page.PreventDefault
       :: Page.SetHtmlInputValue (ClipboardSource.getData "text/html" data)
       :: map Page.Core
            (Js.trace
               (Main.handleConversion lib prettier_format
                  (Js.VString (ClipboardSource.getData "text/html" data)))),
       Js.result
         (Main.handleConversion lib prettier_format
            (Js.VString (ClipboardSource.getData "text/html" data)))).
Proof.
  intros T D N. unfold Page.handleDocumentPaste.
  apply String.eqb_neq in T. rewrite T.
  rewrite (getHtml_usable event data D N).
  rewrite given_nonempty
    by now apply ConversionPipeline.not_blank_nonempty.
  cbn [Page.the_string Page.to_value]. apply paste_then_convert.
Qed.

(** The three ways a paste without a usable HTML payload can go. *)
Lemma paste_plain (event : ClipboardSource.ClipboardEvent) :
  ClipboardSource.target event <> "html-input" ->
  (forall data,
     ClipboardSource.clipboardData event = Some data ->
     WhitespaceOnly (ClipboardSource.getData "text/html" data)) ->
  let plainText :=
    Page.the_string (ClipboardSource.getPlainTextFromClipboardEvent event) in
  (plainText = "" ->
   Page.handleDocumentPaste lib prettier_format event
     = ([Page.PreventDefault;
         Page.Core (Host.ShowToast "No content in clipboard" "error")],
        Js.Normal tt)) /\
  (plainText <> "" -> ~ MatchesHtmlTagPattern plainText ->
   Page.handleDocumentPaste lib prettier_format event
     = ([Page.PreventDefault;
         Page.SetHtmlInputValue plainText;
         Page.Core
           (Host.ShowToast "Pasted text does not appear to be HTML"
              "error")],
        Js.Normal tt)) /\
  (MatchesHtmlTagPattern plainText ->
   Page.handleDocumentPaste lib prettier_format event
     = (Page.PreventDefault
        :: Page.SetHtmlInputValue plainText
        :: map Page.Core
             (Js.trace (Main.handleConversion lib prettier_format
                          (Js.VString plainText))),
        Js.result (Main.handleConversion lib prettier_format
                     (Js.VString plainText)))).
Proof.
  intros T H. unfold Page.handleDocumentPaste.
  apply String.eqb_neq in T. rewrite T.
  rewrite (getHtml_unusable event H). cbn [Page.given].
  unfold ClipboardSource.getPlainTextFromClipboardEvent.
  destruct (ClipboardSource.clipboardData event) as [data|];
    cbn [Page.the_string Page.given Page.to_value andb].
  - set (plain := ClipboardSource.getData "text/plain" data).
    split; [|split].
    + intros ->. reflexivity.
    + intros N M.
      rewrite (ConversionPipeline.nonempty_truthy plain N). cbn [andb].
      destruct (Converter.isValidHtml (Js.VString plain)) eqn:V.
      * apply isValidHtml_string in V. contradiction.
      * reflexivity.
    + intros M.
      rewrite (ConversionPipeline.nonempty_truthy plain
                 (ConversionPipeline.not_blank_nonempty plain
                    (matching_not_blank plain M))).
      apply isValidHtml_string in M. rewrite M. cbn [andb].
      apply paste_then_convert.
  - split; [reflexivity|]. split.
    + intros N. now destruct N.
    + intros M. apply isValidHtml_string in M. discriminate M.
Qed.

End WithCollaborators.

(** X15: the HTML payload wins: a paste outside the input field whose
    clipboard holds a non-blank HTML payload cancels the default action,
    puts that payload in the input field and converts it, whatever the
    plain-text payload is. *)
Theorem paste_prefers_html
  (lib : Turndown.Library) (prettier_format : Formatter.Prettier)
  (event : ClipboardSource.ClipboardEvent)
  (data : ClipboardSource.DataTransfer) :
  ClipboardSource.target event <> "html-input" ->
  ClipboardSource.clipboardData event = Some data ->
  ~ WhitespaceOnly (ClipboardSource.getData "text/html" data) ->
  Page.handleDocumentPaste lib prettier_format event
    = (Page.PreventDefault
       :: Page.SetHtmlInputValue (ClipboardSource.getData "text/html" data)
       :: map Page.Core
            (Js.trace
               (Main.handleConversion lib prettier_format
                  (Js.VString (ClipboardSource.getData "text/html" data)))),
       Js.result
         (Main.handleConversion lib prettier_format
            (Js.VString (ClipboardSource.getData "text/html" data)))).
Proof.
  intros T D N. unfold Page.handleDocumentPaste.
  apply String.eqb_neq in T. rewrite T.
  rewrite (getHtml_usable event data D N).
  rewrite given_nonempty
    by now apply ConversionPipeline.not_blank_nonempty.
  cbn [Page.the_string Page.to_value].
  destruct (Main.handleConversion lib prettier_format
              (Js.VString (ClipboardSource.getData "text/html" data)))
    as [t [[]|e]]; reflexivity.
Qed.

Lemma paste_prefers_html_witness :
  exists rest,
    Js.trace (Page.handleDocumentPaste sample_library failing_prettier
                paste_on_body)
    = Page.PreventDefault :: Page.SetHtmlInputValue "<p>Hello</p>" :: rest.
Proof.
  rewrite (paste_prefers_html sample_library failing_prettier paste_on_body
             rich_clipboard).
  - eexists. reflexivity.
  - discriminate.
  - reflexivity.
  - intros W. apply all_whitespace_iff in W. discriminate W.
Defined.

(** X16: without a usable HTML payload the plain text decides: when it is
    missing or empty, the input field is not written and a toast tells
    that the clipboard has no content; when it does not look like HTML, it
    is put in the input field and refused with a toast, and no conversion
    is started; when it looks like HTML, it is converted. *)
Theorem paste_falls_back_to_plain_text
  (lib : Turndown.Library) (prettier_format : Formatter.Prettier)
  (event : ClipboardSource.ClipboardEvent) :
  ClipboardSource.target event <> "html-input" ->
  (forall data,
     ClipboardSource.clipboardData event = Some data ->
     WhitespaceOnly (ClipboardSource.getData "text/html" data)) ->
  (Page.the_string (ClipboardSource.getPlainTextFromClipboardEvent event)
     = "" ->
   Page.handleDocumentPaste lib prettier_format event
     = ([Page.PreventDefault;
         Page.Core (Host.ShowToast "No content in clipboard" "error")],
        Js.Normal tt)) /\
  (Page.the_string (ClipboardSource.getPlainTextFromClipboardEvent event)
     <> "" ->
   ~ MatchesHtmlTagPattern
       (Page.the_string
          (ClipboardSource.getPlainTextFromClipboardEvent event)) ->
   Page.handleDocumentPaste lib prettier_format event
     = ([Page.PreventDefault;
         Page.SetHtmlInputValue
           (Page.the_string
              (ClipboardSource.getPlainTextFromClipboardEvent event));
         Page.Core
           (Host.ShowToast "Pasted text does not appear to be HTML"
              "error")],
        Js.Normal tt)) /\
  (MatchesHtmlTagPattern
     (Page.the_string
        (ClipboardSource.getPlainTextFromClipboardEvent event)) ->
   exists rest,
     Js.trace (Page.handleDocumentPaste lib prettier_format event)
     = Page.PreventDefault
       :: Page.SetHtmlInputValue
            (Page.the_string
               (ClipboardSource.getPlainTextFromClipboardEvent event))
       :: Page.Core (Host.SetProcessingState true)
       :: Page.Core (Host.UpdateStatus "Processing..." "")
       :: Page.Core
            (Host.TurndownWalk
               (Page.the_string
                  (ClipboardSource.getPlainTextFromClipboardEvent event)))
       :: rest).
Proof.
  intros T H.
  destruct (paste_plain lib prettier_format event T H) as (A & B & C).
  split; [exact A|]. split; [exact B|].
  intros M. rewrite (C M).
  destruct (ConversionPipeline.handle_matching_trace
              lib prettier_format _ M) as [rest E].
  unfold Js.trace in *. cbn [fst]. rewrite E. eexists. reflexivity.
Qed.

Lemma paste_falls_back_to_plain_text_witness :
  Page.handleDocumentPaste sample_library failing_prettier
    {| ClipboardSource.target := "";
       ClipboardSource.clipboardData := Some [("text/plain", "Hello")] |}
  = ([Page.PreventDefault;
      Page.SetHtmlInputValue "Hello";
      Page.Core
        (Host.ShowToast "Pasted text does not appear to be HTML" "error")],
     Js.Normal tt).
Proof.
  apply (paste_falls_back_to_plain_text sample_library failing_prettier
           {| ClipboardSource.target := "";
              ClipboardSource.clipboardData :=
                Some [("text/plain", "Hello")] |}).
  - discriminate.
  - intros data [= <-]. exact I.
  - discriminate.
  - intros M. apply isValidHtml_string in M. discriminate M.
Defined.

(** X17: [handleDocumentPaste] never rejects.  A paste into the input
    field is left to the browser: nothing is called.  Any other paste
    first cancels the default action and ends with exactly one toast,
    which is never the one about missing HTML content. *)
Theorem paste_never_rejects
  (lib : Turndown.Library) (prettier_format : Formatter.Prettier)
  (event : ClipboardSource.ClipboardEvent) :
  Js.result (Page.handleDocumentPaste lib prettier_format event)
    = Js.Normal tt /\
  (ClipboardSource.target event = "html-input" ->
   Js.trace (Page.handleDocumentPaste lib prettier_format event) = []) /\
  (ClipboardSource.target event <> "html-input" ->
   exists rest message kind,
     Js.trace (Page.handleDocumentPaste lib prettier_format event)
       = Page.PreventDefault :: rest /\
     toasts (core (Js.trace (Page.handleDocumentPaste lib prettier_format
                               event))) = [(message, kind)] /\
     message <> "No HTML content to convert").
Proof.
  destruct (String.eqb_spec (ClipboardSource.target event) "html-input")
    as [T | T].
  - unfold Page.handleDocumentPaste. apply String.eqb_eq in T.
    rewrite T. split; [reflexivity|]. split; [reflexivity|].
    intros N. apply String.eqb_neq in N. congruence.
  - assert (Conv : forall s,
              ~ WhitespaceOnly s ->
              Js.result (Main.handleConversion lib prettier_format
                           (Js.VString s)) = Js.Normal tt /\
              exists message kind,
                toasts (core (Page.PreventDefault
                              :: Page.SetHtmlInputValue s
                              :: map Page.Core
                                   (Js.trace
                                      (Main.handleConversion lib
                                         prettier_format (Js.VString s)))))
                  = [(message, kind)] /\
                message <> "No HTML content to convert").
    { intros s N.
      destruct (ConversionHandlerFacts.handle_one_toast
                  lib prettier_format s) as (R & message & kind & Q & B).
      split; [exact R|]. exists message, kind. split.
      - change (core (Page.PreventDefault :: Page.SetHtmlInputValue s
                      :: ?x)) with (core x).
        now rewrite ConversionHandlerFacts.core_lift.
      - intros E. now apply N, B. }
    assert (Usable :
              (exists data,
                 ClipboardSource.clipboardData event = Some data /\
                 ~ WhitespaceOnly (ClipboardSource.getData "text/html" data))
              \/ (forall data,
                    ClipboardSource.clipboardData event = Some data ->
                    WhitespaceOnly
                      (ClipboardSource.getData "text/html" data))).
    { destruct (ClipboardSource.clipboardData event) as [data|].
      - destruct (Js.all_whitespace
                    (ClipboardSource.getData "text/html" data)) eqn:B.
        + right. intros d [= <-]. now apply all_whitespace_iff.
        + left. exists data. split; [reflexivity|].
          intros W. apply all_whitespace_iff in W. congruence.
      - right. intros d H. discriminate H. }
    destruct Usable as [(data & D & N) | U].
    + rewrite (paste_html lib prettier_format event data T D N).
      destruct (Conv _ N) as (R & message & kind & Q & B).
      split; [exact R|]. split; [intros E; contradiction|].
      intros _. eexists _, message, kind.
      split; [reflexivity|]. split; [exact Q | exact B].
    + destruct (paste_plain lib prettier_format event T U) as (A & B & C).
      set (plain := Page.the_string
                      (ClipboardSource.getPlainTextFromClipboardEvent event))
        in *.
      destruct (String.eqb_spec plain "") as [E | E].
      * rewrite (A E). split; [reflexivity|].
        split; [intros X; contradiction|]. intros _.
        eexists _, _, _. split; [reflexivity|].
        split; [reflexivity | discriminate].
      * destruct (Converter.htmlTagPattern_test plain) eqn:P.
        -- apply htmlTagPattern_test_iff in P. rewrite (C P).
           destruct (Conv plain (matching_not_blank plain P))
             as (R & message & kind & Q & Bm).
           split; [exact R|]. split; [intros X; contradiction|].
           intros _. eexists _, message, kind.
           split; [reflexivity|]. split; [exact Q | exact Bm].
        -- assert (M : ~ MatchesHtmlTagPattern plain).
           { intros M. apply htmlTagPattern_test_iff in M. congruence. }
           rewrite (B E M). split; [reflexivity|].
           split; [intros X; contradiction|]. intros _.
           eexists _, _, _. split; [reflexivity|].
           split; [reflexivity | discriminate].
Qed.

Lemma paste_never_rejects_witness :
  Js.trace (Page.handleDocumentPaste sample_library failing_prettier
              {| ClipboardSource.target := "html-input";
                 ClipboardSource.clipboardData := Some rich_clipboard |})
    = [].
Proof.
  apply (paste_never_rejects sample_library failing_prettier
           {| ClipboardSource.target := "html-input";
              ClipboardSource.clipboardData := Some rich_clipboard |}).
  reflexivity.
Defined.

End PasteFacts.

(* ================================================================== *)
(** * Registration and the clear buttons *)
(* ================================================================== *)

Module ButtonFacts.

Import Notions StringFacts MoreSamples HandlerNotions Samples.

(** X18: [registerEventHandlers] never throws.  The paste and the keydown
    listener are attached to the document in any case.  Each button that
    is on the page gets its click listener and no warning; for each button
    that is not, a warning names it, no listener is attached to it, and
    the other registrations go on. *)
Theorem registration_survives_missing_buttons (present : string -> bool) :
  Js.result (Page.registerEventHandlers present) = Js.Normal tt /\
  In (Page.AddEventListener "document" "paste" Page.HandleDocumentPaste)
     (Js.trace (Page.registerEventHandlers present)) /\
  In (Page.AddEventListener "document" "keydown"
        Page.HandleKeyboardShortcuts)
     (Js.trace (Page.registerEventHandlers present)) /\
  forall id handler,
    In (id, handler) buttons ->
    (present id = true ->
     In (Page.AddEventListener id "click" handler)
        (Js.trace (Page.registerEventHandlers present)) /\
     ~ In (Page.ConsoleWarn ("Element not found: " ++ id))
          (Js.trace (Page.registerEventHandlers present))) /\
    (present id = false ->
     In (Page.ConsoleWarn ("Element not found: " ++ id))
        (Js.trace (Page.registerEventHandlers present)) /\
     forall eventType h,
       ~ In (Page.AddEventListener id eventType h)
            (Js.trace (Page.registerEventHandlers present))).
Proof.
  unfold Page.registerEventHandlers, Page.registerEventHandler.
  cbn [String.eqb Ascii.eqb Bool.eqb].
  destruct (present "convert-btn") eqn:P1, (present "copy-btn") eqn:P2,
           (present "clear-input-btn") eqn:P3,
           (present "clear-output-btn") eqn:P4;
    cbn [Js.bind Js.emit Js.trace Js.result fst snd app];
    (split; [reflexivity|]);
    (split; [cbn [In]; tauto|]);
    (split; [cbn [In]; tauto|]);
    intros id handler Hin; cbn [In buttons] in Hin;
    repeat (destruct Hin as [[= <- <-] | Hin]; [|]); try (now destruct Hin);
    (split; intros Hp; try congruence);
    (split; [cbn [In]; tauto|]);
    try (intros eventType h); cbn [In append];
    intros H;
    repeat (destruct H as [H | H]; [discriminate H|]); exact H.
Qed.

Lemma registration_survives_missing_buttons_witness :
  In (Page.ConsoleWarn "Element not found: copy-btn")
     (Js.trace (Page.registerEventHandlers no_copy_button)) /\
  In (Page.AddEventListener "clear-output-btn" "click"
        Page.HandleClearOutputClick)
     (Js.trace (Page.registerEventHandlers no_copy_button)).
Proof.
  destruct (registration_survives_missing_buttons no_copy_button)
    as (_ & _ & _ & H).
  split.
  - apply (H "copy-btn" Page.HandleCopyClick).
    + right. left. reflexivity.
    + reflexivity.
  - apply (H "clear-output-btn" Page.HandleClearOutputClick).
    + right. right. right. left. reflexivity.
    + reflexivity.
Defined.

(** X19: clearing disarms the next action.  After the clear-output
    handler the output is empty, the copy button is disabled, the status
    is reset, and a click on copy is refused without touching the
    clipboard.  After the clear-input handler the input is empty and a
    click on convert is refused without any walk. *)
Theorem clearing_disarms
  (lib : Turndown.Library) (prettier_format : Formatter.Prettier)
  (browser : Clipboard.Browser) (page : Ui.state) :
  (Ui.markdownOutput_value
     (Page.run (Js.trace Page.handleClearOutputClick) page) = "" /\
   Ui.copyBtn_disabled
     (Page.run (Js.trace Page.handleClearOutputClick) page) = true /\
   Ui.status_textContent
     (Page.run (Js.trace Page.handleClearOutputClick) page) = "" /\
   Ui.status_className
     (Page.run (Js.trace Page.handleClearOutputClick) page) = "status" /\
   Page.handleCopyClick browser
     (Page.run (Js.trace Page.handleClearOutputClick) page)
     = ([Page.Core (Host.ShowToast "No Markdown to copy" "error")],
        Js.Normal tt)) /\
  (Ui.htmlInput_value
     (Page.run (Js.trace Page.handleClearInputClick) page) = "" /\
   Page.handleConvertClick lib prettier_format
     (Page.run (Js.trace Page.handleClearInputClick) page)
     = ([Page.Core (Host.ShowToast "No HTML content to convert" "error")],
        Js.Normal tt)).
Proof.
  split.
  - cbn [Page.handleClearOutputClick Js.trace Js.bind Js.emit Page.lift
         Main.setMarkdownOutputValue Main.updateStatus Main.showToast
         fst snd map app Page.run fold_left Page.apply].
    match goal with
    | |- context [Ui.showToast ?m ?k ?d ?x] =>
        destruct (OutputFacts.showToast_fields m k d x)
          as (_ & O & C & S & K & _)
    end.
    assert (E : Ui.markdownOutput_value
                  (Ui.showToast "Output cleared" "" 3000
                     (Ui.updateStatus "" ""
                        (Ui.setMarkdownOutputValue "" page))) = "")
      by (rewrite O; reflexivity).
    split; [exact E|]. split; [rewrite C; reflexivity|].
    split; [rewrite S; reflexivity|]. split; [rewrite K; reflexivity|].
    apply CopyHandlerFacts.click_blank. rewrite E. exact I.
  - cbn [Page.handleClearInputClick Js.trace Js.bind Js.emit Page.lift
         Main.showToast fst snd map app Page.run fold_left Page.apply].
    match goal with
    | |- context [Ui.showToast ?m ?k ?d ?x] =>
        destruct (OutputFacts.showToast_fields m k d x) as (V & _)
    end.
    assert (E : Ui.htmlInput_value
                  (Ui.showToast "Input cleared" "" 3000
                     (Ui.setHtmlInputValue "" page)) = "")
      by (rewrite V; reflexivity).
    split; [exact E|].
    unfold Page.handleConvertClick, Ui.getHtmlInputValue. cbv zeta.
    rewrite E. reflexivity.
Qed.

End ButtonFacts.
